(** * AI_CLI: the interactive terminal session engine of [main.py]

    A shallow embedding of the parts of [src/main.py] that the session
    engine is made of: the key decoder, the two line editors, the command
    dispatcher, the redraw throttle, file-tag expansion and the streaming
    update of the conversation log; then the start-up from the
    configuration file, the loops of the choosers and of the history
    viewer, and where the input row and the lines of the messages are
    painted.

    Conventions of the embedding.
    - A Python [str] is the list of its code points ([Z]); [len] is the
      length of that list.  Literals of the source are written as UTF-8
      string literals and decoded once by [u].
    - Key codes, cursors and indices are Python [int]s: [Z].
    - The attributes of [ChatUI] are the fields of the record [ChatUI].
      What the code does to the outside world is kept in the same record:
      the draw calls it issues ([screen]), the readings it took from the
      clock ([ticks]), the keys still waiting in the terminal ([pending])
      and the threads it started ([spawned]).
    - What the outside world answers is the record [Env]: clock readings,
      the file system, the outcome of the chooser widgets, of the history
      files and of the network.
    - A Python exception is [Raise e]; [try]/[except] is a match on it. *)

From Stdlib Require Import String Ascii.
From Stdlib Require DecimalString.
From Stdlib Require Import ZArith List Lia Bool QArith Qround.
Import ListNotations.
Local Open Scope Z_scope.

(* ================================================================== *)
(** * Python values *)

Definition str := list Z.

Inductive exn := ValueError | UnicodeDecodeError | IndexError.

Inductive result (A : Type) : Type :=
| Ok (a : A)
| Raise (e : exn).

Arguments Ok {A} a.

Arguments Raise {A} e.

Definition rbind {A B} (r : result A) (k : A -> result B) : result B :=
  match r with
  | Ok a => k a
  | Raise e => Raise e
  end.

(** ** [bytes.decode('utf-8')], strict *)

Definition is_cont (b : Z) : bool := (0x80 <=? b) && (b <=? 0xBF).

Definition in_range (lo hi b : Z) : bool := (lo <=? b) && (b <=? hi).

(** Second byte of a three-byte sequence: no overlong forms, no surrogates. *)
Definition second3 (b0 b1 : Z) : bool :=
  if b0 =? 0xE0 then in_range 0xA0 0xBF b1
  else if b0 =? 0xED then in_range 0x80 0x9F b1
  else is_cont b1.

(** Second byte of a four-byte sequence: no overlong forms, at most U+10FFFF. *)
Definition second4 (b0 b1 : Z) : bool :=
  if b0 =? 0xF0 then in_range 0x90 0xBF b1
  else if b0 =? 0xF4 then in_range 0x80 0x8F b1
  else is_cont b1.

Fixpoint utf8_decode (bs : list Z) : option str :=
  match bs with
  | [] => Some []
  | b0 :: r0 =>
    if in_range 0 0x7F b0 then option_map (cons b0) (utf8_decode r0)
    else if in_range 0xC2 0xDF b0 then
      match r0 with
      | b1 :: r1 =>
        if is_cont b1
        then option_map (cons ((b0 - 0xC0) * 64 + (b1 - 0x80))) (utf8_decode r1)
        else None
      | _ => None
      end
    else if in_range 0xE0 0xEF b0 then
      match r0 with
      | b1 :: b2 :: r2 =>
        if second3 b0 b1 && is_cont b2
        then option_map
               (cons ((b0 - 0xE0) * 4096 + (b1 - 0x80) * 64 + (b2 - 0x80)))
               (utf8_decode r2)
        else None
      | _ => None
      end
    else if in_range 0xF0 0xF4 b0 then
      match r0 with
      | b1 :: b2 :: b3 :: r3 =>
        if second4 b0 b1 && is_cont b2 && is_cont b3
        then option_map
               (cons ((b0 - 0xF0) * 262144 + (b1 - 0x80) * 4096
                      + (b2 - 0x80) * 64 + (b3 - 0x80)))
               (utf8_decode r3)
        else None
      | _ => None
      end
    else None
  end.

(** [bytes(seq)]: every item must be in [range(0, 256)]. *)
Definition py_bytes (seq : list Z) : result (list Z) :=
  if forallb (in_range 0 255) seq then Ok seq else Raise ValueError.

Definition py_decode (bs : list Z) : result str :=
  match utf8_decode bs with
  | Some s => Ok s
  | None => Raise UnicodeDecodeError
  end.

(** [chr(i)]: one code point, [ValueError] outside [range(0x110000)]. *)
Definition py_chr (i : Z) : result str :=
  if in_range 0 0x10FFFF i then Ok [i] else Raise ValueError.

(** A literal of the source. *)
Definition u (s : string) : str :=
  match utf8_decode (map (fun a => Z.of_N (N_of_ascii a)) (list_ascii_of_string s)) with
  | Some l => l
  | None => []
  end.

Definition NL : Z := 10.

(** ** [str] operations *)

(** [len(s)], of a [str] or of a list *)
Definition py_len {A} (s : list A) : Z := Z.of_nat (length s).

(** [s[:i]] *)
Definition slice_to (s : str) (i : Z) : str :=
  if i <? 0 then firstn (Z.to_nat (py_len s + i)) s else firstn (Z.to_nat i) s.

(** [s[i:]] *)
Definition slice_from (s : str) (i : Z) : str :=
  if i <? 0 then skipn (Z.to_nat (py_len s + i)) s else skipn (Z.to_nat i) s.

Fixpoint str_eqb (a b : str) : bool :=
  match a, b with
  | [], [] => true
  | x :: a', y :: b' => (x =? y) && str_eqb a' b'
  | _, _ => false
  end.

(** [s.startswith(p)] *)
Fixpoint startswith (p s : str) : bool :=
  match p, s with
  | [], _ => true
  | x :: p', y :: s' => (x =? y) && startswith p' s'
  | _ :: _, [] => false
  end.

(** [s.endswith(p)] *)
Definition endswith (p s : str) : bool := startswith (rev p) (rev s).

(** [sub in s] *)
Fixpoint contains (sub s : str) : bool :=
  startswith sub s ||
  match s with
  | [] => false
  | _ :: s' => contains sub s'
  end.

(** [s.replace(old, new)]: every occurrence, left to right, not overlapping.
    [skip] counts the characters of the occurrence just replaced that are
    still to be passed over. *)
Fixpoint replace_from (old new : str) (skip : nat) (s : str) : str :=
  match s with
  | [] => []
  | c :: s' =>
    match skip with
    | S k => replace_from old new k s'
    | O =>
      if startswith old s
      then new ++ replace_from old new (length old - 1) s'
      else c :: replace_from old new 0 s'
    end
  end.

Definition py_replace (old new s : str) : str :=
  match old with
  | [] => new ++ flat_map (fun c => c :: new) s
  | _ => replace_from old new 0 s
  end.

(** [str.isspace] on one code point. *)
Definition py_isspace (c : Z) : bool :=
  in_range 0x09 0x0D c || in_range 0x1C 0x20 c || (c =? 0x85) || (c =? 0xA0)
  || (c =? 0x1680) || in_range 0x2000 0x200A c || (c =? 0x2028) || (c =? 0x2029)
  || (c =? 0x202F) || (c =? 0x205F) || (c =? 0x3000).

Fixpoint lstrip (s : str) : str :=
  match s with
  | c :: s' => if py_isspace c then lstrip s' else s
  | [] => []
  end.

(** [s.strip()] *)
Definition py_strip (s : str) : str := rev (lstrip (rev (lstrip s))).

(** [s.split()]: the maximal runs of non-space characters. *)
Fixpoint split_ws_from (cur : str) (s : str) : list str :=
  match s with
  | [] => match cur with [] => [] | _ => [rev cur] end
  | c :: s' =>
    if py_isspace c
    then match cur with
         | [] => split_ws_from [] s'
         | _ => rev cur :: split_ws_from [] s'
         end
    else split_ws_from (c :: cur) s'
  end.

Definition py_split (s : str) : list str := split_ws_from [] s.

(** [s.split(' ', 1)]: the text before the first space and, when there is
    a space, the text after it. *)
Fixpoint split_space_1 (s : str) : str * option str :=
  match s with
  | [] => ([], None)
  | c :: s' =>
    if c =? 32 then ([], Some s')
    else let '(a, b) := split_space_1 s' in (c :: a, b)
  end.

(** The decimal text of an [int]. *)
Definition py_str_of_int (n : Z) : str :=
  map (fun a => Z.of_N (N_of_ascii a))
      (list_ascii_of_string (DecimalString.NilZero.string_of_int (Z.to_int n))).

(* ================================================================== *)
(** * The data of a session *)

Inductive role := user | assistant | system.

(** [{"role": ..., "content": ...}] *)
Record Message := { msg_role : role; content : str }.

Definition role_eqb (a b : role) : bool :=
  match a, b with
  | user, user | assistant, assistant | system, system => true
  | _, _ => false
  end.

Inductive request_kind := openai | curl.

(** [class ChatConfig] *)
Record ChatConfig := {
  name : str;
  api_base : str;
  api_key : str;
  model : str;
  request_type : request_kind;
  headers : list (str * str);
  is_infini : bool
}.

(** What [stdscr] was asked to paint: [redraw], [redraw_input_only] and
    [update_last_message] each end in one [stdscr.refresh()]. *)
Inductive draw := FullRedraw | InputRedraw | LastMessageRedraw.

(** [class ChatUI]: its attributes, then the terminal ([pending]: the key
    codes a non-blocking [getch] can take at once), the paint calls made so
    far, the number of clock readings taken and the threads started. *)
Record ChatUI := {
  configs : list ChatConfig;
  current_config : ChatConfig;
  messages : list Message;
  input_history : list str;
  history_index : Z;
  current_input : str;
  cursor_pos : Z;
  file_placeholders : list (str * str);
  last_redraw_time : Q;
  redraw_throttle : Q;
  dirty : bool;
  command_mode : bool;
  command_input : str;
  command_cursor_pos : Z;
  saved_input : str;
  saved_cursor_pos : Z;
  pending : list Z;
  screen : list draw;
  ticks : nat;
  spawned : list (request_kind * list Message)
}.

(** Attribute assignment, one setter per attribute the code assigns. *)
Definition set_current_config (v : ChatConfig) (st : ChatUI) : ChatUI :=
  {| configs := configs st; current_config := v; messages := messages st;
     input_history := input_history st; history_index := history_index st;
     current_input := current_input st; cursor_pos := cursor_pos st;
     file_placeholders := file_placeholders st; last_redraw_time :=
     last_redraw_time st; redraw_throttle := redraw_throttle st; dirty := dirty
     st; command_mode := command_mode st; command_input := command_input st;
     command_cursor_pos := command_cursor_pos st; saved_input := saved_input st;
     saved_cursor_pos := saved_cursor_pos st; pending := pending st; screen :=
     screen st; ticks := ticks st; spawned := spawned st |}.

Definition set_messages (v : list Message) (st : ChatUI) : ChatUI :=
  {| configs := configs st; current_config := current_config st; messages :=
     v; input_history := input_history st; history_index := history_index st;
     current_input := current_input st; cursor_pos := cursor_pos st;
     file_placeholders := file_placeholders st; last_redraw_time :=
     last_redraw_time st; redraw_throttle := redraw_throttle st; dirty := dirty
     st; command_mode := command_mode st; command_input := command_input st;
     command_cursor_pos := command_cursor_pos st; saved_input := saved_input st;
     saved_cursor_pos := saved_cursor_pos st; pending := pending st; screen :=
     screen st; ticks := ticks st; spawned := spawned st |}.

Definition set_input_history (v : list str) (st : ChatUI) : ChatUI :=
  {| configs := configs st; current_config := current_config st; messages :=
     messages st; input_history := v; history_index := history_index st;
     current_input := current_input st; cursor_pos := cursor_pos st;
     file_placeholders := file_placeholders st; last_redraw_time :=
     last_redraw_time st; redraw_throttle := redraw_throttle st; dirty := dirty
     st; command_mode := command_mode st; command_input := command_input st;
     command_cursor_pos := command_cursor_pos st; saved_input := saved_input st;
     saved_cursor_pos := saved_cursor_pos st; pending := pending st; screen :=
     screen st; ticks := ticks st; spawned := spawned st |}.

Definition set_history_index (v : Z) (st : ChatUI) : ChatUI :=
  {| configs := configs st; current_config := current_config st; messages :=
     messages st; input_history := input_history st; history_index := v;
     current_input := current_input st; cursor_pos := cursor_pos st;
     file_placeholders := file_placeholders st; last_redraw_time :=
     last_redraw_time st; redraw_throttle := redraw_throttle st; dirty := dirty
     st; command_mode := command_mode st; command_input := command_input st;
     command_cursor_pos := command_cursor_pos st; saved_input := saved_input st;
     saved_cursor_pos := saved_cursor_pos st; pending := pending st; screen :=
     screen st; ticks := ticks st; spawned := spawned st |}.

Definition set_current_input (v : str) (st : ChatUI) : ChatUI :=
  {| configs := configs st; current_config := current_config st; messages :=
     messages st; input_history := input_history st; history_index :=
     history_index st; current_input := v; cursor_pos := cursor_pos st;
     file_placeholders := file_placeholders st; last_redraw_time :=
     last_redraw_time st; redraw_throttle := redraw_throttle st; dirty := dirty
     st; command_mode := command_mode st; command_input := command_input st;
     command_cursor_pos := command_cursor_pos st; saved_input := saved_input st;
     saved_cursor_pos := saved_cursor_pos st; pending := pending st; screen :=
     screen st; ticks := ticks st; spawned := spawned st |}.

Definition set_cursor_pos (v : Z) (st : ChatUI) : ChatUI :=
  {| configs := configs st; current_config := current_config st; messages :=
     messages st; input_history := input_history st; history_index :=
     history_index st; current_input := current_input st; cursor_pos := v;
     file_placeholders := file_placeholders st; last_redraw_time :=
     last_redraw_time st; redraw_throttle := redraw_throttle st; dirty := dirty
     st; command_mode := command_mode st; command_input := command_input st;
     command_cursor_pos := command_cursor_pos st; saved_input := saved_input st;
     saved_cursor_pos := saved_cursor_pos st; pending := pending st; screen :=
     screen st; ticks := ticks st; spawned := spawned st |}.

Definition set_file_placeholders (v : list (str * str)) (st : ChatUI) : ChatUI :=
  {| configs := configs st; current_config := current_config st; messages :=
     messages st; input_history := input_history st; history_index :=
     history_index st; current_input := current_input st; cursor_pos :=
     cursor_pos st; file_placeholders := v; last_redraw_time := last_redraw_time
     st; redraw_throttle := redraw_throttle st; dirty := dirty st; command_mode
     := command_mode st; command_input := command_input st; command_cursor_pos :=
     command_cursor_pos st; saved_input := saved_input st; saved_cursor_pos :=
     saved_cursor_pos st; pending := pending st; screen := screen st; ticks :=
     ticks st; spawned := spawned st |}.

Definition set_last_redraw_time (v : Q) (st : ChatUI) : ChatUI :=
  {| configs := configs st; current_config := current_config st; messages :=
     messages st; input_history := input_history st; history_index :=
     history_index st; current_input := current_input st; cursor_pos :=
     cursor_pos st; file_placeholders := file_placeholders st; last_redraw_time
     := v; redraw_throttle := redraw_throttle st; dirty := dirty st; command_mode
     := command_mode st; command_input := command_input st; command_cursor_pos :=
     command_cursor_pos st; saved_input := saved_input st; saved_cursor_pos :=
     saved_cursor_pos st; pending := pending st; screen := screen st; ticks :=
     ticks st; spawned := spawned st |}.

Definition set_dirty (v : bool) (st : ChatUI) : ChatUI :=
  {| configs := configs st; current_config := current_config st; messages :=
     messages st; input_history := input_history st; history_index :=
     history_index st; current_input := current_input st; cursor_pos :=
     cursor_pos st; file_placeholders := file_placeholders st; last_redraw_time
     := last_redraw_time st; redraw_throttle := redraw_throttle st; dirty := v;
     command_mode := command_mode st; command_input := command_input st;
     command_cursor_pos := command_cursor_pos st; saved_input := saved_input st;
     saved_cursor_pos := saved_cursor_pos st; pending := pending st; screen :=
     screen st; ticks := ticks st; spawned := spawned st |}.

Definition set_command_mode (v : bool) (st : ChatUI) : ChatUI :=
  {| configs := configs st; current_config := current_config st; messages :=
     messages st; input_history := input_history st; history_index :=
     history_index st; current_input := current_input st; cursor_pos :=
     cursor_pos st; file_placeholders := file_placeholders st; last_redraw_time
     := last_redraw_time st; redraw_throttle := redraw_throttle st; dirty :=
     dirty st; command_mode := v; command_input := command_input st;
     command_cursor_pos := command_cursor_pos st; saved_input := saved_input st;
     saved_cursor_pos := saved_cursor_pos st; pending := pending st; screen :=
     screen st; ticks := ticks st; spawned := spawned st |}.

Definition set_command_input (v : str) (st : ChatUI) : ChatUI :=
  {| configs := configs st; current_config := current_config st; messages :=
     messages st; input_history := input_history st; history_index :=
     history_index st; current_input := current_input st; cursor_pos :=
     cursor_pos st; file_placeholders := file_placeholders st; last_redraw_time
     := last_redraw_time st; redraw_throttle := redraw_throttle st; dirty :=
     dirty st; command_mode := command_mode st; command_input := v;
     command_cursor_pos := command_cursor_pos st; saved_input := saved_input st;
     saved_cursor_pos := saved_cursor_pos st; pending := pending st; screen :=
     screen st; ticks := ticks st; spawned := spawned st |}.

Definition set_command_cursor_pos (v : Z) (st : ChatUI) : ChatUI :=
  {| configs := configs st; current_config := current_config st; messages :=
     messages st; input_history := input_history st; history_index :=
     history_index st; current_input := current_input st; cursor_pos :=
     cursor_pos st; file_placeholders := file_placeholders st; last_redraw_time
     := last_redraw_time st; redraw_throttle := redraw_throttle st; dirty :=
     dirty st; command_mode := command_mode st; command_input := command_input
     st; command_cursor_pos := v; saved_input := saved_input st; saved_cursor_pos
     := saved_cursor_pos st; pending := pending st; screen := screen st; ticks :=
     ticks st; spawned := spawned st |}.

Definition set_saved_input (v : str) (st : ChatUI) : ChatUI :=
  {| configs := configs st; current_config := current_config st; messages :=
     messages st; input_history := input_history st; history_index :=
     history_index st; current_input := current_input st; cursor_pos :=
     cursor_pos st; file_placeholders := file_placeholders st; last_redraw_time
     := last_redraw_time st; redraw_throttle := redraw_throttle st; dirty :=
     dirty st; command_mode := command_mode st; command_input := command_input
     st; command_cursor_pos := command_cursor_pos st; saved_input := v;
     saved_cursor_pos := saved_cursor_pos st; pending := pending st; screen :=
     screen st; ticks := ticks st; spawned := spawned st |}.

Definition set_saved_cursor_pos (v : Z) (st : ChatUI) : ChatUI :=
  {| configs := configs st; current_config := current_config st; messages :=
     messages st; input_history := input_history st; history_index :=
     history_index st; current_input := current_input st; cursor_pos :=
     cursor_pos st; file_placeholders := file_placeholders st; last_redraw_time
     := last_redraw_time st; redraw_throttle := redraw_throttle st; dirty :=
     dirty st; command_mode := command_mode st; command_input := command_input
     st; command_cursor_pos := command_cursor_pos st; saved_input := saved_input
     st; saved_cursor_pos := v; pending := pending st; screen := screen st; ticks
     := ticks st; spawned := spawned st |}.

Definition set_pending (v : list Z) (st : ChatUI) : ChatUI :=
  {| configs := configs st; current_config := current_config st; messages :=
     messages st; input_history := input_history st; history_index :=
     history_index st; current_input := current_input st; cursor_pos :=
     cursor_pos st; file_placeholders := file_placeholders st; last_redraw_time
     := last_redraw_time st; redraw_throttle := redraw_throttle st; dirty :=
     dirty st; command_mode := command_mode st; command_input := command_input
     st; command_cursor_pos := command_cursor_pos st; saved_input := saved_input
     st; saved_cursor_pos := saved_cursor_pos st; pending := v; screen := screen
     st; ticks := ticks st; spawned := spawned st |}.

Definition set_screen (v : list draw) (st : ChatUI) : ChatUI :=
  {| configs := configs st; current_config := current_config st; messages :=
     messages st; input_history := input_history st; history_index :=
     history_index st; current_input := current_input st; cursor_pos :=
     cursor_pos st; file_placeholders := file_placeholders st; last_redraw_time
     := last_redraw_time st; redraw_throttle := redraw_throttle st; dirty :=
     dirty st; command_mode := command_mode st; command_input := command_input
     st; command_cursor_pos := command_cursor_pos st; saved_input := saved_input
     st; saved_cursor_pos := saved_cursor_pos st; pending := pending st; screen
     := v; ticks := ticks st; spawned := spawned st |}.

Definition set_ticks (v : nat) (st : ChatUI) : ChatUI :=
  {| configs := configs st; current_config := current_config st; messages :=
     messages st; input_history := input_history st; history_index :=
     history_index st; current_input := current_input st; cursor_pos :=
     cursor_pos st; file_placeholders := file_placeholders st; last_redraw_time
     := last_redraw_time st; redraw_throttle := redraw_throttle st; dirty :=
     dirty st; command_mode := command_mode st; command_input := command_input
     st; command_cursor_pos := command_cursor_pos st; saved_input := saved_input
     st; saved_cursor_pos := saved_cursor_pos st; pending := pending st; screen
     := screen st; ticks := v; spawned := spawned st |}.

Definition set_spawned (v : list (request_kind * list Message)) (st : ChatUI) : ChatUI :=
  {| configs := configs st; current_config := current_config st; messages :=
     messages st; input_history := input_history st; history_index :=
     history_index st; current_input := current_input st; cursor_pos :=
     cursor_pos st; file_placeholders := file_placeholders st; last_redraw_time
     := last_redraw_time st; redraw_throttle := redraw_throttle st; dirty :=
     dirty st; command_mode := command_mode st; command_input := command_input
     st; command_cursor_pos := command_cursor_pos st; saved_input := saved_input
     st; saved_cursor_pos := saved_cursor_pos st; pending := pending st; screen
     := screen st; ticks := ticks st; spawned := v |}.

(* ================================================================== *)
(** * The outside world *)

(** The content of a history file, as [json.load] returns it. *)
Record history_data := {
  h_timestamp : Z;
  h_title : str;
  h_provider : option str;
  h_model : option str;
  h_messages : list Message
}.

(** What the collaborators answer during one call into the session. *)
Record Env := {
  (** [time.time()], by the number of readings taken before *)
  time_time : nat -> Q;
  (** [os.path.exists], [os.path.getsize] *)
  path_exists : str -> bool;
  getsize : str -> Z;
  (** [open(p, 'r', encoding='utf-8').read()]: the text, or [str(e)] *)
  read_text : str -> str + str;
  (** [select_file_tui(stdscr, start_dir)]: the path chosen, if any *)
  select_file_tui : str -> option str;
  (** [select_provider_tui(stdscr, configs)] *)
  select_provider_tui : list ChatConfig -> option ChatConfig;
  (** the key a blocking [stdscr.getch()] waits for when none is pending *)
  typed_key : Z;
  (** [str(HISTORY_DIR / filename)], [(HISTORY_DIR / filename).exists()],
      [Path(p).name] *)
  history_path : str -> str;
  history_exists : str -> bool;
  path_name : str -> str;
  (** reading a history file: [str(e)], or its content *)
  json_load : str -> str + history_data;
  (** writing one: [None], or [str(e)] *)
  json_dump : str -> history_data -> option str;
  (** [shutil.rmtree(HISTORY_DIR)] and [mkdir]: [None], or [str(e)] *)
  purge_history : option str
}.

Definition MAX_FILE_SIZE : Z := 1024 * 1024.

Definition MAX_MESSAGE_LENGTH : Z := 5000.

Definition HISTORY_DIR : str := u "chat_history".

(** [curses.KEY_*], the values of ncurses' [curses.h]. *)
Definition KEY_DOWN : Z := 258.

Definition KEY_UP : Z := 259.

Definition KEY_LEFT : Z := 260.

Definition KEY_RIGHT : Z := 261.

Definition KEY_BACKSPACE : Z := 263.

Definition KEY_ENTER : Z := 343.

Definition Qltb (a b : Q) : bool := negb (Qle_bool b a).

(** [int(x)] of a float: towards zero. *)
Definition py_int (x : Q) : Z := if Qle_bool 0 x then Qfloor x else Qceiling x.

(** [if s:], of a [str] or of a list *)
Definition truthy {A} (s : list A) : bool :=
  match s with [] => false | _ => true end.

(** [d[k] = v] on a dict, which keeps insertion order. *)
Fixpoint dict_set (d : list (str * str)) (k v : str) : list (str * str) :=
  match d with
  | [] => [(k, v)]
  | (k', v') :: d' => if str_eqb k' k then (k, v) :: d' else (k', v') :: dict_set d' k v
  end.

(** [l[i]] *)
Definition py_getitem {A} (l : list A) (i : Z) : result A :=
  let j := if i <? 0 then Z.of_nat (length l) + i else i in
  if j <? 0 then Raise IndexError
  else match nth_error l (Z.to_nat j) with
       | Some a => Ok a
       | None => Raise IndexError
       end.

(** [l[-1] = x] *)
Definition set_last {A} (l : list A) (x : A) : result (list A) :=
  match l with
  | [] => Raise IndexError
  | _ => Ok (removelast l ++ [x])
  end.

(* ================================================================== *)
(** * File tags *)

Definition CLOSE_BRACE : Z := 125.

(** The longest run of characters other than [}]: the group [([^}]+)]. *)
Fixpoint span_path (s : str) : str * str :=
  match s with
  | [] => ([], [])
  | c :: s' =>
    if c =? CLOSE_BRACE then ([], s)
    else let '(a, b) := span_path s' in (c :: a, b)
  end.

(** The pattern [\{\{:F([^}]+)\}\}] matched at the head of [s]: group 1
    and the length of the match.  The group is greedy and what follows it
    is a [}], so giving characters back never helps. *)
Definition match_tag (s : str) : option (str * nat) :=
  if startswith (u "{{:F") s then
    let '(path, rest) := span_path (skipn 4 s) in
    if truthy path && startswith (u "}}") rest
    then Some (path, (4 + length path + 2)%nat)
    else None
  else None.

(** [re.findall(pattern, s)]: leftmost matches, not overlapping. *)
Fixpoint findall_from (skip : nat) (s : str) : list str :=
  match s with
  | [] => []
  | _ :: s' =>
    match skip with
    | S k => findall_from k s'
    | O =>
      match match_tag s with
      | Some (path, n) => path :: findall_from (n - 1) s'
      | None => findall_from 0 s'
      end
    end
  end.

Definition findall_tags (s : str) : list str := findall_from 0 s.

(** [f"{{{{:F{file_path}}}}}"] *)
Definition tag_of (file_path : str) : str := u "{{:F" ++ file_path ++ u "}}".

Definition fenced (file_path text : str) : str :=
  [NL] ++ u "```文件内容:" ++ file_path ++ [NL] ++ text ++ [NL] ++ u "```" ++ [NL].

Definition missing_note (file_path : str) : str :=
  u "[文件不存在: " ++ file_path ++ u "]".

(** [MAX_FILE_SIZE/1024] is the float [1024.0]. *)
Definition too_large_note (file_path : str) : str :=
  u "[文件过大(>1024.0KB): " ++ file_path ++ u "]".

Definition read_error_note (e : str) : str :=
  u "[读取文件出错: " ++ e ++ u "]".

Section Collaborators.

Variable env : Env.

(** What one tag, or one placeholder, is replaced by: the body of the
    [try] in [replace_file_tags] and in [send_message]. *)
Definition expansion (file_path : str) : str :=
  if negb (path_exists env file_path) then missing_note file_path
  else if getsize env file_path >? MAX_FILE_SIZE then too_large_note file_path
  else match read_text env file_path with
       | inl text => fenced file_path text
       | inr e => read_error_note e
       end.

(** [replace_file_tags(input_str)] *)
Definition replace_file_tags (input_str : str) : str :=
  fold_left
    (fun input_str file_path =>
       let file_path := py_strip file_path in
       py_replace (tag_of file_path) (expansion file_path) input_str)
    (findall_tags input_str) input_str.

End Collaborators.

(* ================================================================== *)
(** * The session *)

(** [ChatUI.__init__(stdscr, configs)]: the attributes once [configs[0]]
    is there. *)
Definition init_ChatUI (configs : list ChatConfig) (first : ChatConfig) : ChatUI :=
  {| configs := configs; current_config := first; messages := [];
     input_history := []; history_index := -1;
     current_input := []; cursor_pos := 0;
     file_placeholders := [];
     last_redraw_time := 0; redraw_throttle := 1 # 10;
     dirty := false;
     command_mode := false; command_input := []; command_cursor_pos := 0;
     saved_input := []; saved_cursor_pos := 0;
     pending := []; screen := []; ticks := 0; spawned := [] |}.

Definition new_ChatUI (configs : list ChatConfig) : result ChatUI :=
  rbind (py_getitem configs 0) (fun first => Ok (init_ChatUI configs first)).

(** What the decoding branch of a key handler arrives at. *)
Inductive decoded :=
| Ignored                 (* [return False] before anything is read *)
| Decoded (char : option str).   (* the value of [char]; [None] is Python's *)

Section Session.

Variable env : Env.

(** ** Painting *)

(** [redraw(force)] *)
Definition redraw (force : bool) (st : ChatUI) : ChatUI :=
  let current_time := time_time env (ticks st) in
  let st := set_ticks (S (ticks st)) st in
  if negb force && Qltb (current_time - last_redraw_time st) (redraw_throttle st)
  then st
  else
    let st := set_last_redraw_time current_time st in
    set_screen (screen st ++ [FullRedraw]) st.

(** [redraw_input_only()] *)
Definition redraw_input_only (st : ChatUI) : ChatUI :=
  set_screen (screen st ++ [InputRedraw]) st.

(** [update_last_message()] *)
Definition update_last_message (st : ChatUI) : ChatUI :=
  set_screen (screen st ++ [LastMessageRedraw]) st.

(** [add_system_message(message, is_error)]; [is_error] only picks a colour
    that is never used. *)
Definition add_system_message (message : str) (st : ChatUI) : ChatUI :=
  let message :=
    if py_len message >? MAX_MESSAGE_LENGTH
    then slice_to message MAX_MESSAGE_LENGTH ++ u " ...（消息过长，已截断）"
    else message in
  let st := set_messages (messages st ++ [{| msg_role := system; content := message |}]) st in
  let st := set_dirty true st in
  redraw true st.

(** ** Reading keys *)

(** [stdscr.getch()] under [nodelay(True)]: [-1] when no key is waiting. *)
Definition getch_nodelay (st : ChatUI) : Z * ChatUI :=
  match pending st with
  | [] => (-1, st)
  | k :: q => (k, set_pending q st)
  end.

(** A blocking [stdscr.getch()]. *)
Definition getch (st : ChatUI) : Z * ChatUI :=
  match pending st with
  | [] => (typed_key env, st)
  | k :: q => (k, set_pending q st)
  end.

(** [for _ in range(n)]: read on while the codes are bytes. *)
Fixpoint read_more (n : nat) (bytes_seq : list Z) (st : ChatUI) : list Z * ChatUI :=
  match n with
  | O => (bytes_seq, st)
  | S n' =>
    let '(next_key, st) := getch_nodelay st in
    if negb (next_key =? -1) && ((0 <=? next_key) && (next_key <=? 255))
    then read_more n' (bytes_seq ++ [next_key]) st
    else (bytes_seq, st)
  end.

(** The decoding branch of [process_input] (lines 863-907). *)
Definition input_decode (key : Z) (st : ChatUI) : result (decoded * ChatUI) :=
  if (key <? 0) || (key >? 0x10FFFF) then Ok (Ignored, st)
  else if key >? 127 then
    let '(bytes_seq, st) := read_more 2 [key] st in
    match rbind (py_bytes bytes_seq) py_decode with
    | Ok char => Ok (Decoded (Some char), st)
    | Raise UnicodeDecodeError =>
      match rbind (py_getitem bytes_seq 0) py_chr with
      | Ok char => Ok (Decoded (Some char), st)
      | Raise _ => Ok (Decoded None, st)
      end
    | Raise ValueError => Ok (Decoded None, st)
    | Raise e => Raise e
    end
  else
    match py_chr key with
    | Ok char => Ok (Decoded (Some char), st)
    | Raise _ => Ok (Decoded None, st)
    end.

(** The decoding branch of [process_command_input] (lines 977-1021). *)
Definition command_decode (key : Z) (st : ChatUI) : result (decoded * ChatUI) :=
  if (key <? 0) || (key >? 0x10FFFF) then Ok (Ignored, st)
  else if key >? 127 then
    let '(bytes_seq, st) := read_more 2 [key] st in
    match rbind (py_bytes bytes_seq) py_decode with
    | Ok char => Ok (Decoded (Some char), st)
    | Raise UnicodeDecodeError =>
      match rbind (py_getitem bytes_seq 0) py_chr with
      | Ok char => Ok (Decoded (Some char), st)
      | Raise _ => Ok (Decoded None, st)
      end
    | Raise ValueError => Ok (Decoded None, st)
    | Raise e => Raise e
    end
  else
    match py_chr key with
    | Ok char => Ok (Decoded (Some char), st)
    | Raise _ => Ok (Decoded None, st)
    end.

(** [if char:] *)
Definition char_given (char : option str) : option str :=
  match char with
  | Some c => if truthy c then Some c else None
  | None => None
  end.

(** ** Command mode *)

(** [enter_command_mode()] *)
Definition enter_command_mode (st : ChatUI) : ChatUI :=
  let st := set_command_mode true st in
  let st := set_saved_input (current_input st) st in
  let st := set_saved_cursor_pos (cursor_pos st) st in
  let st := set_current_input [] st in
  let st := set_cursor_pos 0 st in
  let st := set_command_input [] st in
  set_command_cursor_pos 0 st.

(** [exit_command_mode(restore_input)] *)
Definition exit_command_mode (restore_input : bool) (st : ChatUI) : ChatUI :=
  let st := set_command_mode false st in
  let st :=
    if restore_input
    then set_cursor_pos (saved_cursor_pos st) (set_current_input (saved_input st) st)
    else set_cursor_pos 0 (set_current_input [] st) in
  let st := set_saved_input [] st in
  set_saved_cursor_pos 0 st.

(** ** Commands *)

(** The loop over [self.file_placeholders.items()] that writes each
    placeholder back as its tag. *)
Definition restore_tags (placeholders : list (str * str)) (text : str) : str :=
  fold_left
    (fun text '(placeholder, file_path) =>
       if contains placeholder text
       then py_replace placeholder (tag_of file_path) text
       else text)
    placeholders text.

(** [load_history(file_path)] *)
Definition load_history (file_path : str) (st : ChatUI) : ChatUI :=
  match json_load env file_path with
  | inr data =>
    let st :=
      set_messages
        (filter (fun msg => role_eqb (msg_role msg) user || role_eqb (msg_role msg) assistant)
                (h_messages data)) st in
    let provider := match h_provider data with Some p => p | None => u "OpenRouter" end in
    let model' := match h_model data with Some m => m | None => u "deepseek/deepseek-r1:free" end in
    let st :=
      match find (fun config => str_eqb (name config) provider && str_eqb (model config) model')
                 (configs st) with
      | Some config => set_current_config config st
      | None =>
        set_current_config
          {| name := provider; api_base := []; api_key := []; model := model';
             request_type := openai; headers := []; is_infini := false |} st
      end in
    let st := add_system_message (u "已加载历史记录: " ++ path_name env file_path) st in
    let st := add_system_message (u "提供商: " ++ provider ++ u ", 模型: " ++ model') st in
    let st := set_file_placeholders [] st in
    fold_left
      (fun st msg =>
         if role_eqb (msg_role msg) user
         then fold_left
                (fun st file_path =>
                   set_file_placeholders
                     (dict_set (file_placeholders st) (tag_of file_path) file_path) st)
                (findall_tags (content msg)) st
         else st)
      (messages st) st
  | inl e => add_system_message (u "加载失败: " ++ e) st
  end.

(** The title and the messages [save] writes. *)
Definition title_of (msgs : list Message) : str :=
  match find (fun msg => role_eqb (msg_role msg) user) msgs with
  | Some msg => slice_to (py_replace [NL] [32] (content msg)) 20 ++ u "..."
  | None => u "未命名对话"
  end.

Definition messages_to_save (st : ChatUI) : list Message :=
  flat_map
    (fun msg =>
       match msg_role msg with
       | system => []
       | user => [{| msg_role := user;
                     content := restore_tags (file_placeholders st) (content msg) |}]
       | assistant => [msg]
       end)
    (messages st).

(** [handle_command(command)] *)
Definition handle_command (command : str) (st : ChatUI) : result (bool * ChatUI) :=
  if startswith (u "file") command || startswith (u "f") command then
    match select_file_tui env (u ".") with
    | Some selected_file =>
      if truthy selected_file then
        let placeholder := tag_of selected_file in
        let st :=
          if truthy (saved_input st) then
            let st := set_saved_input (saved_input st ++ u " " ++ placeholder) st in
            set_saved_cursor_pos (py_len (saved_input st)) st
          else
            let st := set_saved_input placeholder st in
            set_saved_cursor_pos (py_len placeholder) st in
        let st := set_file_placeholders
                    (dict_set (file_placeholders st) placeholder selected_file) st in
        Ok (false, redraw_input_only st)
      else Ok (false, st)
    | None => Ok (false, st)
    end
  else if startswith (u "provider") command || startswith (u "p") command then
    let st :=
      match select_provider_tui env (configs st) with
      | Some selected_config =>
        let st := set_current_config selected_config st in
        add_system_message
          (u "已切换到: " ++ name selected_config ++ u " (" ++ model selected_config ++ u ")") st
      | None => st
      end in
    Ok (false, redraw true st)
  else if startswith (u "clear") command || startswith (u "cr") command then
    let st := set_messages [] st in
    let st := set_file_placeholders [] st in
    let st := add_system_message (u "对话历史已清除") st in
    Ok (false, redraw true st)
  else if startswith (u "save") command || startswith (u "s") command then
    let filename := match snd (split_space_1 command) with
                    | Some f => if truthy f then Some f else None
                    | None => None
                    end in
    let '(filename, st) :=
      match filename with
      | Some f => (f, st)
      | None =>
        let timestamp := py_int (time_time env (ticks st)) in
        (u "chat_" ++ py_str_of_int timestamp ++ u ".json", set_ticks (S (ticks st)) st)
      end in
    let filename := if endswith (u ".json") filename then filename else filename ++ u ".json" in
    let file_path := history_path env filename in
    let data := {| h_timestamp := py_int (time_time env (ticks st));
                   h_title := title_of (messages st);
                   h_provider := Some (name (current_config st));
                   h_model := Some (model (current_config st));
                   h_messages := messages_to_save st |} in
    let st := set_ticks (S (ticks st)) st in
    let st :=
      match json_dump env file_path data with
      | None => add_system_message (u "对话已保存到: " ++ file_path) st
      | Some e => add_system_message (u "保存失败: " ++ e) st
      end in
    Ok (false, redraw true st)
  else if startswith (u "load") command || startswith (u "l") command then
    let filename := match snd (split_space_1 command) with
                    | Some f => if truthy f then Some f else None
                    | None => None
                    end in
    match filename with
    | Some filename =>
      let file_path := history_path env filename in
      if negb (history_exists env filename)
      then Ok (false, add_system_message (u "文件不存在: " ++ file_path) st)
      else Ok (false, redraw true (load_history file_path st))
    | None =>
      let st :=
        match select_file_tui env HISTORY_DIR with
        | Some file_path => if truthy file_path then load_history file_path st else st
        | None => st
        end in
      Ok (false, redraw true st)
    end
  else if startswith (u "history") command || startswith (u "h") command then
    Ok (false, redraw true st)
  else if startswith (u "clean") command || startswith (u "cn") command then
    let st := add_system_message (u "确定要清理所有历史记录吗？(y/n)") st in
    let st := redraw true st in
    let '(key, st) := getch st in
    let st :=
      if (key =? 121) || (key =? 89) then
        match purge_history env with
        | None => add_system_message (u "所有历史记录已清理") st
        | Some e => add_system_message (u "清理失败: " ++ e) st
        end
      else add_system_message (u "清理操作已取消") st in
    Ok (false, redraw true st)
  else if startswith (u "exit") command || startswith (u "quit") command then
    Ok (true, st)
  else
    rbind (if contains (u " ") command then py_getitem (py_split command) 0 else Ok command)
          (fun word => Ok (false, add_system_message (u "未知命令: " ++ word) st)).

(** ** Sending *)

(** The body of the loop that builds [messages_to_send]. *)
Definition window_step (messages_to_send : list Message) (msg : Message) : list Message :=
  match msg_role msg with
  | system => messages_to_send
  | r =>
    let content' :=
      if role_eqb r user then replace_file_tags env (content msg) else content msg in
    if py_len messages_to_send <? 10
    then messages_to_send ++ [{| msg_role := r; content := content' |}]
    else tl messages_to_send ++ [{| msg_role := r; content := content' |}]
  end.

Definition build_messages_to_send (msgs : list Message) : list Message :=
  fold_left window_step msgs [].

(** [processed_input]: the placeholders of the table expanded in the text
    being sent, then truncated.  [send_message] computes it and never uses
    it. *)
Definition processed_input (st : ChatUI) : str :=
  let s :=
    fold_left
      (fun processed '(placeholder, file_path) =>
         if contains placeholder processed
         then py_replace placeholder (expansion env file_path) processed
         else processed)
      (file_placeholders st) (current_input st) in
  if py_len s >? MAX_MESSAGE_LENGTH
  then slice_to s MAX_MESSAGE_LENGTH ++ [NL] ++ u "...（消息过长，已截断）"
  else s.

Definition THINKING : str := u "正在思考...".

(** [send_message()].  The thread it starts is recorded in [spawned] with
    the list it was given. *)
Definition send_message (st : ChatUI) : bool * ChatUI :=
  if negb (truthy (py_strip (current_input st))) then (false, st)
  else
    let st := set_input_history (current_input st :: input_history st) st in
    let st := set_history_index (-1) st in
    let st := set_messages
                (messages st ++ [{| msg_role := user; content := current_input st |}]) st in
    let st := set_dirty true st in
    let st := redraw true st in
    let messages_to_send := build_messages_to_send (messages st) in
    let st := set_messages
                (messages st ++ [{| msg_role := assistant; content := THINKING |}]) st in
    let st := set_dirty true st in
    let st := redraw true st in
    let st := set_spawned
                (spawned st ++ [(request_type (current_config st), messages_to_send)]) st in
    let st := set_current_input [] st in
    let st := set_cursor_pos 0 st in
    (false, redraw_input_only st).

(** ** Keys *)

Definition is_enter (key : Z) : bool :=
  (key =? KEY_ENTER) || (key =? 10) || (key =? 13).

(** [process_command_input(key)] *)
Definition process_command_input (key : Z) (st : ChatUI) : result (bool * ChatUI) :=
  if is_enter key then
    rbind (handle_command (command_input st) st)
          (fun '(_, st) => Ok (false, exit_command_mode true st))
  else if key =? 27 then
    let st := exit_command_mode true st in
    Ok (false, redraw_input_only st)
  else if (key =? KEY_BACKSPACE) || (key =? 127) then
    let st :=
      if command_cursor_pos st >? 0 then
        let st := set_command_input
                    (slice_to (command_input st) (command_cursor_pos st - 1)
                     ++ slice_from (command_input st) (command_cursor_pos st)) st in
        set_command_cursor_pos (command_cursor_pos st - 1) st
      else st in
    Ok (false, redraw_input_only st)
  else if key =? KEY_LEFT then
    let st := if command_cursor_pos st >? 0
              then set_command_cursor_pos (command_cursor_pos st - 1) st else st in
    Ok (false, redraw_input_only st)
  else if key =? KEY_RIGHT then
    let st := if command_cursor_pos st <? py_len (command_input st)
              then set_command_cursor_pos (command_cursor_pos st + 1) st else st in
    Ok (false, redraw_input_only st)
  else
    rbind (command_decode key st)
          (fun '(d, st) =>
             match d with
             | Ignored => Ok (false, st)
             | Decoded char =>
               let st :=
                 match char_given char with
                 | Some char =>
                   let st := set_command_input
                               (slice_to (command_input st) (command_cursor_pos st)
                                ++ char
                                ++ slice_from (command_input st) (command_cursor_pos st)) st in
                   set_command_cursor_pos (command_cursor_pos st + py_len char) st
                 | None => st
                 end in
               Ok (false, redraw_input_only st)
             end).

(** [process_input(key)] *)
Definition process_input (key : Z) (st : ChatUI) : result (bool * ChatUI) :=
  if command_mode st then process_command_input key st
  else if is_enter key then Ok (send_message st)
  else if key =? 12 then
    let st := enter_command_mode st in
    Ok (false, redraw_input_only st)
  else if key =? KEY_UP then
    rbind
      (if truthy (input_history st)
          && (history_index st <? py_len (input_history st) - 1)
       then
         let st := set_history_index (history_index st + 1) st in
         rbind (py_getitem (input_history st) (history_index st))
               (fun entry =>
                  let st := set_current_input entry st in
                  Ok (set_cursor_pos (py_len (current_input st)) st))
       else Ok st)
      (fun st => Ok (false, redraw_input_only st))
  else if key =? KEY_DOWN then
    rbind
      (if truthy (input_history st) then
         if history_index st >? 0 then
           let st := set_history_index (history_index st - 1) st in
           rbind (py_getitem (input_history st) (history_index st))
                 (fun entry =>
                    let st := set_current_input entry st in
                    Ok (set_cursor_pos (py_len (current_input st)) st))
         else if history_index st =? 0 then
           let st := set_history_index (-1) st in
           let st := set_current_input [] st in
           Ok (set_cursor_pos 0 st)
         else Ok st
       else Ok st)
      (fun st => Ok (false, redraw_input_only st))
  else if key =? KEY_LEFT then
    let st := if cursor_pos st >? 0 then set_cursor_pos (cursor_pos st - 1) st else st in
    Ok (false, redraw_input_only st)
  else if key =? KEY_RIGHT then
    let st := if cursor_pos st <? py_len (current_input st)
              then set_cursor_pos (cursor_pos st + 1) st else st in
    Ok (false, redraw_input_only st)
  else if (key =? KEY_BACKSPACE) || (key =? 127) then
    let st :=
      if cursor_pos st >? 0 then
        let st := set_current_input
                    (slice_to (current_input st) (cursor_pos st - 1)
                     ++ slice_from (current_input st) (cursor_pos st)) st in
        set_cursor_pos (cursor_pos st - 1) st
      else st in
    Ok (false, redraw_input_only st)
  else if key =? 27 then
    handle_command (u "exit") st
  else
    rbind (input_decode key st)
          (fun '(d, st) =>
             match d with
             | Ignored => Ok (false, st)
             | Decoded char =>
               let st :=
                 match char_given char with
                 | Some char =>
                   let st := set_current_input
                               (slice_to (current_input st) (cursor_pos st)
                                ++ char
                                ++ slice_from (current_input st) (cursor_pos st)) st in
                   set_cursor_pos (cursor_pos st + py_len char) st
                 | None => st
                 end in
               Ok (false, redraw_input_only st)
             end).

End Session.

(* ================================================================== *)

(** * The background task

    [send_openai_request] and [send_curl_request] run in the thread that
    [send_message] starts.  They are embedded as what they do to the
    session when nothing else touches it while they run; the answer of
    the network is their argument. *)

(** An exception of the network client: of the class the handler names
    ([openai.error.APIError], [requests.exceptions.RequestException]) or
    any other, with its [str(e)]. *)
Inductive failure := Specific (e : str) | Other (e : str).

(** [openai.ChatCompletion.create(..., stream=True)]: for each chunk its
    [choices[0].delta.content] when it has one, and the exception that
    ends the iteration, if one does. *)
Record openai_answer := {
  chunks : list (option str);
  raised : option failure
}.

(** One line of [response.iter_lines()]. *)
Inductive sse_line :=
| Heartbeat                                    (* empty *)
| NotJson                                      (* [json.JSONDecodeError] *)
| Malformed (e : str)                          (* any other exception of the parse *)
| Data (delta : option str) (finished : bool). (* the content, if any; [done] or [finish_reason] *)

(** [response.json()] of the one-shot dialect. *)
Inductive single_json :=
| JsonRaises (e : str)
| NoChoices
| NoMessageContent
| MessageContent (s : str).

(** The [requests.Response]. *)
Record response := {
  status_code : Z;
  text : str;
  json : single_json;
  iter_lines : list sse_line;
  iter_raised : option failure
}.

Definition TRUNCATED_RESPONSE : str := [NL] ++ u "...（响应过长，已截断）".

Definition NO_RESPONSE : str := u "<AI未返回有效响应>".

Definition INDEX_ERROR_TEXT : str := u "list assignment index out of range".

(** [full_response += content] and the truncation that follows it. *)
Definition accumulate (full_response content : str) : str :=
  let full_response := full_response ++ content in
  if py_len full_response >? MAX_MESSAGE_LENGTH
  then slice_to full_response MAX_MESSAGE_LENGTH ++ TRUNCATED_RESPONSE
  else full_response.

Section Background.

Variable env : Env.

(** The [for chunk in response] of [send_openai_request]: the accumulated
    text, or the [str(e)] of the exception that left the loop. *)
Fixpoint openai_loop (cs : list (option str)) (full_response : str) (st : ChatUI)
  : (str + str) * ChatUI :=
  match cs with
  | [] => (inl full_response, st)
  | None :: rest => openai_loop rest full_response st
  | Some content :: rest =>
    let full_response := accumulate full_response content in
    match set_last (messages st) {| msg_role := assistant; content := full_response |} with
    | Ok msgs =>
      let st := set_messages msgs st in
      let st := update_last_message st in
      openai_loop rest full_response st
    | Raise _ => (inr INDEX_ERROR_TEXT, st)
    end
  end.

(** [send_openai_request(messages_to_send)] *)
Definition send_openai_request (answer : openai_answer) (st : ChatUI) : ChatUI :=
  let '(r, st) := openai_loop (chunks answer) [] st in
  match r with
  | inr e => add_system_message env (u "发生错误: " ++ e) st
  | inl full_response =>
    match raised answer with
    | Some (Specific e) => add_system_message env (u "API错误: " ++ e) st
    | Some (Other e) => add_system_message env (u "发生错误: " ++ e) st
    | None =>
      if negb (truthy full_response)
      then add_system_message env NO_RESPONSE st
      else st
    end
  end.

(** The [for line in response.iter_lines()] of [send_curl_request]: the
    accumulated text and whether the loop was left by [break]. *)
Fixpoint curl_loop (ls : list sse_line) (full_response : str) (st : ChatUI)
  : str * bool * ChatUI :=
  match ls with
  | [] => (full_response, false, st)
  | Heartbeat :: rest => curl_loop rest full_response st
  | NotJson :: rest => curl_loop rest full_response st
  | Malformed e :: _ =>
    (full_response, true, add_system_message env (u "解析错误: " ++ e) st)
  | Data None finished :: rest =>
    if finished then (full_response, true, st) else curl_loop rest full_response st
  | Data (Some content) finished :: rest =>
    let full_response := accumulate full_response content in
    match set_last (messages st) {| msg_role := assistant; content := full_response |} with
    | Ok msgs =>
      let st := set_messages msgs st in
      let st := update_last_message st in
      if finished then (full_response, true, st) else curl_loop rest full_response st
    | Raise _ =>
      (full_response, true, add_system_message env (u "解析错误: " ++ INDEX_ERROR_TEXT) st)
    end
  end.

(** [send_curl_request(messages_to_send)] *)
Definition send_curl_request (answer : failure + response) (st : ChatUI) : ChatUI :=
  match answer with
  | inl (Specific e) => add_system_message env (u "网络错误: " ++ e) st
  | inl (Other e) => add_system_message env (u "发生错误: " ++ e) st
  | inr resp =>
    if negb (status_code resp =? 200) then
      add_system_message env
        (u "API错误: HTTP " ++ py_str_of_int (status_code resp) ++ u " - " ++ text resp) st
    else if is_infini (current_config st) then
      match json resp with
      | JsonRaises e => add_system_message env (u "解析响应出错: " ++ e) st
      | NoChoices => add_system_message env NO_RESPONSE st
      | NoMessageContent => add_system_message env (u "API响应格式不兼容") st
      | MessageContent full_response =>
        match set_last (messages st) {| msg_role := assistant; content := full_response |} with
        | Ok msgs => update_last_message (set_messages msgs st)
        | Raise _ => add_system_message env (u "解析响应出错: " ++ INDEX_ERROR_TEXT) st
        end
      end
    else
      let '(full_response, broke, st) := curl_loop (iter_lines resp) [] st in
      match (if broke then None else iter_raised resp) with
      | Some (Specific e) => add_system_message env (u "网络错误: " ++ e) st
      | Some (Other e) => add_system_message env (u "发生错误: " ++ e) st
      | None =>
        if negb (truthy full_response)
        then add_system_message env NO_RESPONSE st
        else st
      end
  end.

(** The thread [send_message] started, run on the answer of the network. *)
Definition run_request (kind : request_kind)
           (a_openai : openai_answer) (a_curl : failure + response)
           (st : ChatUI) : ChatUI :=
  match kind with
  | curl => send_curl_request a_curl st
  | openai => send_openai_request a_openai st
  end.

End Background.

(* ================================================================== *)
(** * Start-up *)

(** What ends the program before the interface runs. *)
Inductive py_exception :=
| TypeError
| OSError (message : str)
| Builtin (e : exn).

Inductive outcome (A : Type) : Type :=
| Fine (a : A)
| Failed (e : py_exception).

Arguments Fine {A} a.
Arguments Failed {A} e.

(** [s.split('::', maxsplit)]; [cur] holds the piece being read, last
    character first. *)
Fixpoint split_colons (maxsplit : nat) (cur : str) (s : str) : list str :=
  match s with
  | [] => [rev cur]
  | c :: s' =>
    match maxsplit, s' with
    | S k, d :: rest =>
      if (c =? 58) && (d =? 58) then rev cur :: split_colons k [] rest
      else split_colons maxsplit (c :: cur) s'
    | _, _ => split_colons maxsplit (c :: cur) s'
    end
  end.

(** The two comment lines [create_default_config] writes. *)
Definition DEFAULT_CONFIG_LINES : list str :=
  [u "# API配置格式: 名称::API地址::API密钥::模型::请求类型(openai/curl)::头部(JSON格式，可选)::是否为Infini格式(可选)";
   u "# 请求类型: openai (兼容OpenAI) 或 curl (自定义请求)"].

(** [if args.provider:] and the like: [None] and the empty text are not
    given. *)
Definition given (arg : option str) : bool :=
  match arg with Some s => truthy s | None => false end.

Section Loading.

(** [str.lower], and the headers that the text of the sixth field gives:
    [json.loads], once more with single quotes turned into double ones,
    the empty dict when both fail. *)
Variable py_lower : str -> str.
Variable parse_headers : str -> list (str * str).

(** The body of the loop of [load_configurations]: the profile a line of
    the file gives, if any. *)
Definition config_of_line (line : str) : option ChatConfig :=
  let line := py_strip line in
  if negb (truthy line) || startswith (u "#") line then None
  else
    let parts := split_colons 6 [] line in
    if py_len parts <? 4 then None
    else
      let part i := py_strip (nth i parts []) in
      let request_type :=
        if py_len parts >? 4
        then if str_eqb (py_lower (part 4%nat)) (u "curl") then curl else openai
        else openai in
      let headers :=
        if py_len parts >? 5
        then if truthy (part 5%nat) then parse_headers (part 5%nat) else []
        else [] in
      let is_infini :=
        if py_len parts >? 6
        then str_eqb (py_lower (part 6%nat)) (u "infini")
             || str_eqb (py_lower (part 6%nat)) (u "true")
        else false in
      Some {| name := part 0%nat; api_base := part 1%nat; api_key := part 2%nat;
              model := part 3%nat; request_type := request_type;
              headers := headers; is_infini := is_infini |}.

(** [load_configurations()].  [config_file] is [None] when there is no
    file, [Some None] when reading it raises and [Some (Some lines)]
    otherwise.  The fall-back builds [ChatConfig] from a dict with the key
    [is_infini], which [ChatConfig.__init__] does not take. *)
Definition load_configurations (config_file : option (option (list str)))
  : outcome (list ChatConfig) :=
  match config_file with
  | Some (Some lines) =>
    Fine (flat_map (fun line => match config_of_line line with
                                | Some config => [config]
                                | None => []
                                end) lines)
  | Some None => Failed TypeError
  | None => Failed TypeError
  end.

(** [not (args.provider and config.name.lower() != args.provider.lower())] *)
Definition arg_allows (arg : option str) (field : str) : bool :=
  negb (given arg
        && negb (str_eqb (py_lower field)
                         (py_lower (match arg with Some s => s | None => [] end)))).

(** The profile [__main__] selects. *)
Definition selected_config (configs : list ChatConfig) (arg_provider arg_model : option str)
  : result ChatConfig :=
  if given arg_provider || given arg_model then
    match find (fun config => arg_allows arg_provider (name config)
                              && arg_allows arg_model (model config)) configs with
    | Some config => Ok config
    | None => py_getitem configs 0
    end
  else py_getitem configs 0.

(** [__main__] up to the call of [chat]: the list of profiles the session
    is created with.  A file that is not there is first written by
    [create_default_config]. *)
Definition main (config_file : option (option (list str)))
           (arg_provider arg_model : option str) : outcome ChatUI :=
  let config_file :=
    match config_file with
    | None => Some (Some DEFAULT_CONFIG_LINES)
    | Some _ => config_file
    end in
  match load_configurations config_file with
  | Failed e => Failed e
  | Fine configs =>
    match selected_config configs arg_provider arg_model with
    | Raise e => Failed (Builtin e)
    | Ok selected =>
      match new_ChatUI (selected :: configs) with
      | Raise e => Failed (Builtin e)
      | Ok st => Fine st
      end
    end
  end.

End Loading.
(* ================================================================== *)
(** * The choosers *)

(** A chooser run on the keys typed so far: it has returned, it has
    raised, or it waits in [getch] with its variables as they are. *)
Inductive tui (S A : Type) : Type :=
| Returns (a : A)
| Raises (e : py_exception)
| Waits (s : S).

Arguments Returns {S A} a.
Arguments Raises {S A} e.
Arguments Waits {S A} s.

Module Tui.

(** [selected_index] and [scroll_offset]. *)
Record selection := { selected_index : Z; scroll_offset : Z }.

(** The loop of [select_provider_tui]; every turn reads the height of the
    terminal and one key. *)
Fixpoint provider_loop (configs : list ChatConfig) (events : list (Z * Z))
         (selected_index scroll_offset : Z) : tui selection (option ChatConfig) :=
  match events with
  | [] => Waits {| selected_index := selected_index; scroll_offset := scroll_offset |}
  | (height, key) :: events =>
    let max_visible := height - 3 in
    if (key =? KEY_UP) && (selected_index >? 0) then
      let selected_index := selected_index - 1 in
      let scroll_offset :=
        if selected_index <? scroll_offset then selected_index else scroll_offset in
      provider_loop configs events selected_index scroll_offset
    else if (key =? KEY_DOWN) && (selected_index <? py_len configs - 1) then
      let selected_index := selected_index + 1 in
      let scroll_offset :=
        if selected_index >=? scroll_offset + max_visible
        then scroll_offset + 1 else scroll_offset in
      provider_loop configs events selected_index scroll_offset
    else if key =? 10 then
      match py_getitem configs selected_index with
      | Ok config => Returns (Some config)
      | Raise e => Raises (Builtin e)
      end
    else if key =? 27 then Returns None
    else provider_loop configs events selected_index scroll_offset
  end.

(** [select_provider_tui(stdscr, configs)] *)
Definition select_provider_tui (configs : list ChatConfig) (events : list (Z * Z))
  : tui selection (option ChatConfig) :=
  provider_loop configs events 0 0.

(** The loop of [view_single_history]; every turn reads the height of the
    terminal, wraps the messages into [n] lines and reads one key. *)
Fixpoint history_loop (events : list (Z * Z * Z)) (scroll_offset : Z) : tui Z unit :=
  match events with
  | [] => Waits scroll_offset
  | (height, n, key) :: events =>
    let max_visible := height - 2 in
    if (key =? KEY_UP) && (scroll_offset >? 0)
    then history_loop events (scroll_offset - 1)
    else if (key =? KEY_DOWN) && (scroll_offset <? n - max_visible)
    then history_loop events (scroll_offset + 1)
    else if key =? 27 then Returns tt
    else history_loop events scroll_offset
  end.

(** [view_single_history(stdscr, file_path)]; [readable] tells whether the
    file could be read: when not, the error is shown until a key is
    typed. *)
Definition view_single_history (readable : bool) (events : list (Z * Z * Z))
  : tui Z unit :=
  if readable then history_loop events 0
  else match events with
       | [] => Waits 0
       | _ :: _ => Returns tt
       end.

Section Files.

(** The file system: the entries of a directory as [iterdir] and the sort
    give them (or what [iterdir] raises), what is a directory, and the
    parent of a path. *)
Variable listing : str -> str + list str.
Variable is_dir : str -> bool.
Variable parent : str -> str.

(** The loop of [select_file_tui]. *)
Fixpoint file_loop (events : list (Z * Z)) (current_dir : str)
         (selected_index scroll_offset : Z) : tui (str * selection) (option str) :=
  match events with
  | [] => Waits (current_dir,
                 {| selected_index := selected_index; scroll_offset := scroll_offset |})
  | (height, key) :: events =>
    match listing current_dir with
    | inl e => Returns None
    | inr entries =>
      let max_visible := height - 3 in
      if (key =? KEY_UP) && (selected_index >? 0) then
        let selected_index := selected_index - 1 in
        let scroll_offset :=
          if selected_index <? scroll_offset then selected_index else scroll_offset in
        file_loop events current_dir selected_index scroll_offset
      else if (key =? KEY_DOWN) && (selected_index <? py_len entries - 1) then
        let selected_index := selected_index + 1 in
        let scroll_offset :=
          if selected_index >=? scroll_offset + max_visible
          then scroll_offset + 1 else scroll_offset in
        file_loop events current_dir selected_index scroll_offset
      else if key =? KEY_LEFT then
        if negb (str_eqb current_dir (parent current_dir)) then
          match listing (parent current_dir) with
          | inl e => Raises (OSError e)
          | inr _ => file_loop events (parent current_dir) 0 0
          end
        else file_loop events current_dir selected_index scroll_offset
      else if (key =? KEY_RIGHT) || (key =? 10) then
        match py_getitem entries selected_index with
        | Raise e => Raises (Builtin e)
        | Ok selected_entry =>
          if is_dir selected_entry
          then file_loop events selected_entry 0 0
          else Returns (Some selected_entry)
        end
      else if key =? 27 then Returns None
      else file_loop events current_dir selected_index scroll_offset
    end
  end.

(** [select_file_tui(stdscr, start_dir)], [start_dir] resolved. *)
Definition select_file_tui (start_dir : str) (events : list (Z * Z))
  : tui (str * selection) (option str) :=
  file_loop events start_dir 0 0.

End Files.

End Tui.
(* ================================================================== *)
(** * Painting *)


(** The loops that paint the lines of the messages from the bottom up:
    the line at [row], then the line before it one row higher, as long as
    [keep_going row].  [lines] holds the lines from the last one
    backwards. *)
Fixpoint paint_up {L} (keep_going : Z -> bool) (row : Z) (lines : list L) : list (Z * L) :=
  match lines with
  | [] => []
  | line :: lines =>
    if keep_going row then (row, line) :: paint_up keep_going (row - 1) lines else []
  end.

(** The last loop of [display_messages]: the rows painted, with their
    lines, out of the lines the messages were wrapped into. *)
Definition display_messages_rows {L} (height : Z) (display_lines : list L) : list (Z * L) :=
  let start_line := 2 in
  let end_line := height - 3 in
  let max_row := height - 4 in
  paint_up (fun row => (row >=? start_line) && (row <=? max_row))
           (end_line - 1) (rev display_lines).

(** The same loop in [update_last_message]. *)
Definition update_last_message_rows {L} (height : Z) (display_lines : list L)
  : list (Z * L) :=
  let end_line := height - 3 in
  let max_row := height - 4 in
  paint_up (fun row => row >=? max_row) (end_line - 1) (rev display_lines).

(* ================================================================== *)
(** * The vocabulary of the properties *)

(** ** Truncation and notices *)

(** What [accumulate] keeps of a text. *)
Definition clamp (s : str) : str :=
  if py_len s >? MAX_MESSAGE_LENGTH
  then slice_to s MAX_MESSAGE_LENGTH ++ TRUNCATED_RESPONSE
  else s.

(** The text [add_system_message] stores. *)
Definition notice_text (message : str) : str :=
  if py_len message >? MAX_MESSAGE_LENGTH
  then slice_to message MAX_MESSAGE_LENGTH ++ u " ...（消息过长，已截断）"
  else message.

(** ** Streams *)

(** The content deltas of an OpenAI-style stream. *)
Definition deltas (cs : list (option str)) : list str :=
  flat_map (fun c => match c with Some d => [d] | None => [] end) cs.

(** The content deltas [curl_loop] takes in before it leaves the loop. *)
Fixpoint received (ls : list sse_line) : list str :=
  match ls with
  | [] => []
  | Heartbeat :: rest | NotJson :: rest => received rest
  | Malformed _ :: _ => []
  | Data d finished :: rest =>
    match d with Some c => [c] | None => [] end
    ++ (if finished then [] else received rest)
  end.

(** The notice [curl_loop] adds when a line makes the parse fail. *)
Fixpoint parse_notice (ls : list sse_line) : list Message :=
  match ls with
  | [] => []
  | Heartbeat :: rest | NotJson :: rest => parse_notice rest
  | Malformed e :: _ =>
    [{| msg_role := system; content := notice_text (u "解析错误: " ++ e) |}]
  | Data _ finished :: rest => if finished then [] else parse_notice rest
  end.

(** The log after the deltas [ds] were written over its last message. *)
Definition overwritten (log : list Message) (acc : str) (ds : list str) : list Message :=
  match ds with
  | [] => log
  | _ => removelast log
         ++ [{| msg_role := assistant; content := fold_left accumulate ds acc |}]
  end.

(** The message sitting where the last message of [log] was. *)
Definition in_last_place (log : list Message) (log' : list Message) : option Message :=
  nth_error log' (length log - 1).

(** The notices saying that no valid response was produced. *)
Definition no_response_notices (log : list Message) : nat :=
  length (filter (fun m => role_eqb (msg_role m) system && str_eqb (content m) NO_RESPONSE)
                 log).

(** No assistant message of the log holds the placeholder text. *)
Definition no_placeholder_left (log : list Message) : Prop :=
  forall m, In m log -> msg_role m = assistant -> contains THINKING (content m) = false.

(** What the seeded placeholder has become when the result is empty: left
    as it was when no content delta arrived, emptied when one did. *)
Definition placeholder_after (ds : list str) : Message :=
  {| msg_role := assistant; content := match ds with [] => THINKING | _ => [] end |}.

(** ** The window sent *)

(** The messages that may be sent, oldest first: every message that is
    not a system message, the user's with their file tags expanded. *)
Definition sendable (env : Env) (log : list Message) : list Message :=
  flat_map
    (fun msg =>
       match msg_role msg with
       | system => []
       | user => [{| msg_role := user; content := replace_file_tags env (content msg) |}]
       | assistant => [{| msg_role := assistant; content := content msg |}]
       end)
    log.

(** The last [n] items of a list. *)
Definition last_n {A} (n : nat) (l : list A) : list A := skipn (length l - n) l.

(** ** Decoding *)

(** What the decoding branch makes of the lead code [key] and of the codes
    [bytes_seq] collected for it. *)
Definition decoded_of (key : Z) (bytes_seq : list Z) : decoded :=
  if (key <? 0) || (key >? 0x10FFFF) then Ignored
  else if key >? 127 then
    match py_bytes bytes_seq with
    | Raise _ => Decoded None
    | Ok bs =>
      match utf8_decode bs with
      | Some char => Decoded (Some char)
      | None =>
        match rbind (py_getitem bytes_seq 0) py_chr with
        | Ok char => Decoded (Some char)
        | Raise _ => Decoded None
        end
      end
    end
  else
    match py_chr key with
    | Ok char => Decoded (Some char)
    | Raise _ => Decoded None
    end.

(** The session after the decoding branch: only codes above 127 make it
    read further keys. *)
Definition after_decode (key : Z) (st : ChatUI) : ChatUI :=
  if (key <? 0) || (key >? 0x10FFFF) then st
  else if key >? 127 then snd (read_more 2 [key] st)
  else st.

(** The keys the main handler does not take for text. *)
Definition control_key (key : Z) : bool :=
  is_enter key || (key =? 12) || (key =? KEY_UP) || (key =? KEY_DOWN)
  || (key =? KEY_LEFT) || (key =? KEY_RIGHT)
  || ((key =? KEY_BACKSPACE) || (key =? 127)) || (key =? 27).

(** ** The editing state *)

(** The editing state: both input buffers, the recall history and the mode. *)
Definition editing (st : ChatUI) :=
  (current_input st, cursor_pos st, (command_input st, command_cursor_pos st),
   (input_history st, history_index st), command_mode st).

(** The main input buffer set aside while a command is typed. *)
Definition aside (st : ChatUI) := (saved_input st, saved_cursor_pos st).

(** What no paint, notice or chooser touches. *)
Definition editor (st : ChatUI) := (editing st, aside st, redraw_throttle st).

(** [0 <= cursorOffset <= length(text)] for the main input, the command
    input and the main input set aside while a command is typed. *)
Definition buffers_ok (st : ChatUI) : Prop :=
  0 <= cursor_pos st <= py_len (current_input st)
  /\ 0 <= command_cursor_pos st <= py_len (command_input st)
  /\ 0 <= saved_cursor_pos st <= py_len (saved_input st).

(** Keys typed one after the other, each with the codes waiting in the
    terminal behind it. *)
Fixpoint type_keys (env : Env) (events : list (Z * list Z)) (st : ChatUI) : result ChatUI :=
  match events with
  | [] => Ok st
  | (key, typeahead) :: rest =>
    rbind (process_input env key (set_pending typeahead st))
          (fun '(_, st) => type_keys env rest st)
  end.

(** ** Paints *)



(** ** The sessions that can arise *)

(** The sessions that arise from a new one by the notices of the start,
    the redraw at the top of the main loop, keys (each with whatever is
    waiting in the terminal behind it) and a run of the background thread. *)
Inductive reachable : ChatUI -> Prop :=
| reach_new configs st :
    new_ChatUI configs = Ok st -> reachable st
| reach_notice env message st :
    reachable st -> reachable (add_system_message env message st)
| reach_redraw env st :
    reachable st -> reachable (redraw env false st)
| reach_key env key typeahead st b st' :
    reachable st ->
    process_input env key (set_pending typeahead st) = Ok (b, st') ->
    reachable st'
| reach_thread env kind a_openai a_curl st :
    reachable st -> reachable (run_request env kind a_openai a_curl st).

(** ** Recall, commands and the table of placeholders *)



(** [d.get(k)] *)
Fixpoint dict_get (d : list (str * str)) (k : str) : option str :=
  match d with
  | [] => None
  | (k', v) :: d' => if str_eqb k' k then Some v else dict_get d' k
  end.



(** [log'] has the messages of [log] but possibly the last one, in place,
    and is no shorter. *)
Definition keeps_earlier (log log' : list Message) : Prop :=
  firstn (length log - 1) log' = removelast log /\ (length log <= length log')%nat.


(** ** Start-up and the choosers *)

(** A field of a line of the configuration file: no [::] in it, and no
    [:] at its end that would pair with the separator. *)
Definition field_ok (f : str) : Prop := contains (u "::") (f ++ u ":") = false.

(** The profiles the lines of a file give. *)
Definition profiles (py_lower : str -> str) (parse_headers : str -> list (str * str))
           (lines : list str) : list ChatConfig :=
  flat_map (fun line => match config_of_line py_lower parse_headers line with
                        | Some config => [config]
                        | None => []
                        end) lines.

(** The index a chooser keeps: inside the list, or 0 when it is empty. *)
Definition index_ok {A} (l : list A) (i : Z) : Prop :=
  0 <= i /\ (i < py_len l \/ (l = [] /\ i = 0)).

(** The index of the chooser of files is inside the directory shown, or 0. *)
Definition file_index_ok (listing : str -> str + list str) (current_dir : str) (sel : Z)
  : Prop :=
  0 <= sel /\ (sel = 0 \/ exists entries, listing current_dir = inr entries
                                          /\ sel < py_len entries).

(** What a run of the chooser of files can end in. *)
Definition file_outcome_ok (listing : str -> str + list str) (is_dir : str -> bool)
           (parent : str -> str) (run : tui (str * Tui.selection) (option str)) : Prop :=
  match run with
  | Returns (Some p) =>
    is_dir p = false /\ exists d entries, listing d = inr entries /\ In p entries
  | Returns None => True
  | Raises (Builtin e) => e = IndexError /\ exists d, listing d = inr []
  | Raises (OSError message) =>
    exists d, listing (parent d) = inl message /\ d <> parent d
  | Raises TypeError => False
  | Waits (d, s) => file_index_ok listing d (Tui.selected_index s)
  end.

(* ================================================================== *)
(** * Concrete sessions *)

(** The default profile of [load_configurations]. *)
Definition default_config : ChatConfig :=
  {| name := u "OpenRouter"; api_base := u "https://openrouter.ai/api/v1";
     api_key := u "API-KEY"; model := u "deepseek/deepseek-r1:free";
     request_type := openai;
     headers := [(u "HTTP-Referer", u "https://github.com/YOU-NAME");
                 (u "X-Title", u "Termux Chat")];
     is_infini := false |}.

(** A fresh session on the default profile. *)
Definition fresh : ChatUI := init_ChatUI [default_config] default_config.

(** Fifty bytes of text. *)
Definition notes_txt : str := u "remember the milk, the eggs and the bread. thanks!".

(** A world with one file, [notes.txt], where the clock shows one more
    hundredth of a second at every reading, nobody picks anything in a
    chooser and the user answers [n]. *)
Definition quiet : Env :=
  {| time_time := fun n => (Z.of_nat n # 100)%Q;
     path_exists := fun p => str_eqb p (u "notes.txt");
     getsize := fun _ => 50;
     read_text := fun _ => inl notes_txt;
     select_file_tui := fun _ => None;
     select_provider_tui := fun _ => None;
     typed_key := 110;
     history_path := fun f => HISTORY_DIR ++ u "/" ++ f;
     history_exists := fun _ => false;
     path_name := fun p => p;
     json_load := fun _ => inl (u "no such file");
     json_dump := fun _ _ => None;
     purge_history := None |}.

(** The world of [quiet], where the file chooser returns a path. *)
Definition picking : Env :=
  {| time_time := time_time quiet;
     path_exists := path_exists quiet;
     getsize := getsize quiet;
     read_text := read_text quiet;
     select_file_tui := fun _ => Some (u "/tmp/notes.txt");
     select_provider_tui := select_provider_tui quiet;
     typed_key := typed_key quiet;
     history_path := history_path quiet;
     history_exists := history_exists quiet;
     path_name := path_name quiet;
     json_load := json_load quiet;
     json_dump := json_dump quiet;
     purge_history := purge_history quiet |}.

(** The log as [send_message] leaves it for the thread: the user's text
    and the placeholder of the answer. *)
Definition seeded (text : str) (st : ChatUI) : ChatUI :=
  set_messages (messages st ++ [{| msg_role := user; content := text |};
                                {| msg_role := assistant; content := THINKING |}]) st.

(** The user has typed [héllo] and moved the cursor back behind [hé]. *)
Definition typing : ChatUI := set_cursor_pos 2 (set_current_input (u "héllo") fresh).

(** The user, in command mode, has typed [file]. *)
Definition commanding : ChatUI :=
  set_command_cursor_pos 4 (set_command_input (u "file") (enter_command_mode typing)).

(** The [n]th question and its answer. *)
Definition exchange (n : Z) : list Message :=
  [{| msg_role := user; content := u "question " ++ py_str_of_int n |};
   {| msg_role := assistant; content := u "answer " ++ py_str_of_int n |}].

(** A session with a long log: a notice, two exchanges, another notice
    and four more exchanges; the user is about to send a thirteenth
    message, with a file tag. *)
Definition busy : ChatUI :=
  set_current_input (u "and {{:Fnotes.txt}}?")
    (set_messages
       ([{| msg_role := system; content := u "hint" |}] ++ exchange 1 ++ exchange 2
        ++ [{| msg_role := system; content := u "saved" |}] ++ exchange 3 ++ exchange 4
        ++ exchange 5 ++ exchange 6)
       fresh).

(** The tag of the scenario, with a blank between [F] and the path. *)
Definition SPACED_TAG : str := u "{{:F notes.txt}}".

(** Answers of the network: six thousand characters in two deltas; 5001
    characters and one more; no content at all. *)
Definition long_answer : openai_answer :=
  {| chunks := [Some (repeat 97 (Z.to_nat 3000)); None;
                Some (repeat 98 (Z.to_nat 3000))];
     raised := None |}.

Definition long_response : response :=
  {| status_code := 200; text := []; json := NoChoices;
     iter_lines := [Heartbeat; Data (Some (repeat 97 (Z.to_nat 5001))) false; NotJson;
                    Data (Some (u "b")) true];
     iter_raised := None |}.

Definition silent_answer : openai_answer := {| chunks := [None; None]; raised := None |}.

Definition silent_response : response :=
  {| status_code := 200; text := []; json := NoChoices;
     iter_lines := [Heartbeat; Data (Some []) false; Malformed (u "boom"); Data None true];
     iter_raised := None |}.

(* ================================================================== *)
(** ** Further sessions and worlds *)





(** A draft typed while the history holds one entry. *)
Definition drafting : ChatUI :=
  set_cursor_pos 5 (set_current_input (u "draft") (set_input_history [u "old"] fresh)).

(** Six thousand characters typed. *)
Definition long_text : ChatUI :=
  set_cursor_pos 6000 (set_current_input (repeat 97 (Z.to_nat 6000)) fresh).

(** [str.lower] on the letters A to Z, and headers that never parse. *)
Definition ascii_lower (s : str) : str :=
  map (fun c => if in_range 65 90 c then c + 32 else c) s.

Definition no_headers (s : str) : list (str * str) := [].

Definition curl_config : ChatConfig :=
  {| name := u "Local"; api_base := u "http://localhost:8080/v1";
     api_key := u "none"; model := u "llama"; request_type := curl;
     headers := []; is_infini := false |}.

Definition infini_config : ChatConfig :=
  {| name := u "Infini"; api_base := u "https://cloud.infini-ai.com/maas/v1";
     api_key := u "KEY"; model := u "qwen"; request_type := curl;
     headers := []; is_infini := true |}.

Definition three_configs : list ChatConfig := [default_config; curl_config; infini_config].

(** A file system: [/] holds the directory [/empty], which holds nothing,
    and the file [/a.txt]; nothing above [/] can be listed. *)
Definition sample_listing (d : str) : str + list str :=
  if str_eqb d (u "/") then inr [u "/empty"; u "/a.txt"]
  else if str_eqb d (u "/empty") then inr []
  else inl (u "Permission denied").

Definition sample_is_dir (p : str) : bool := str_eqb p (u "/") || str_eqb p (u "/empty").

Definition sample_parent (p : str) : str := u "/".

(* ================================================================== *)
(** * Properties *)

(** ** The embedding at concrete values *)

Example u_ascii : u "ab c" = [97; 98; 32; 99].
Proof. reflexivity. Qed.

Example u_cjk : u "文件内容:" = [0x6587; 0x4EF6; 0x5185; 0x5BB9; 0x3A].
Proof. reflexivity. Qed.

Example replace_all : py_replace (u "ab") (u "X") (u "abcabab-a") = u "XcXX-a".
Proof. reflexivity. Qed.

Example strip_both : py_strip (u "  a b ") = u "a b".
Proof. reflexivity. Qed.

Example split_blank : py_split (u "   ") = [].
Proof. reflexivity. Qed.

Example split_words : py_split (u " ab  c ") = [u "ab"; u "c"].
Proof. reflexivity. Qed.

Example split1 : split_space_1 (u "save my chat") = (u "save", Some (u "my chat")).
Proof. reflexivity. Qed.

Example int_text : py_str_of_int 1730646000 = u "1730646000".
Proof. reflexivity. Qed.

Example findall_two :
  findall_tags (u "a {{:Fx.txt}} b {{:F y }}{{:F}}{{:Fz}") = [u "x.txt"; u " y "].
Proof. reflexivity. Qed.

Example blank_command_raises : handle_command quiet (u " ") fresh = Raise IndexError.
Proof. reflexivity. Qed.

Example escape_leaves : process_input quiet 27 fresh = Ok (true, fresh).
Proof. reflexivity. Qed.

Example notes_txt_size : py_len notes_txt = 50.
Proof. reflexivity. Qed.

Example fresh_is_new : new_ChatUI [default_config] = Ok fresh.
Proof. reflexivity. Qed.

Example decode_cjk :
  input_decode 228 (set_pending [184; 173; 97] fresh)
  = Ok (Decoded (Some (u "中")), set_pending [97] fresh).
Proof. reflexivity. Qed.

Example decode_two_characters :
  input_decode 195 (set_pending [169; 65] fresh)
  = Ok (Decoded (Some (u "éA")), set_pending [] fresh).
Proof. reflexivity. Qed.

Example decode_key_code_above_bytes :
  command_decode KEY_UP (set_pending [97] fresh)
  = Ok (Decoded None, set_pending [] fresh).
Proof. reflexivity. Qed.

Example decode_stops_at_key_code :
  input_decode 228 (set_pending [184; KEY_LEFT; 97] fresh)
  = Ok (Decoded (Some [228]), set_pending [97] fresh).
Proof. reflexivity. Qed.

Example ten_milliseconds_apart :
  time_time quiet (ticks (redraw quiet true fresh)) - last_redraw_time (redraw quiet true fresh)
  == 1 # 100.
Proof. reflexivity. Qed.

(** ** Lists and slices *)

Lemma py_len_app {A} (a b : list A) : py_len (a ++ b) = py_len a + py_len b.
Proof. unfold py_len. rewrite length_app. lia. Qed.

Lemma py_len_nonneg {A} (a : list A) : 0 <= py_len a.
Proof. unfold py_len. lia. Qed.

Lemma slice_to_nonneg (s : str) (i : Z) :
  0 <= i -> slice_to s i = firstn (Z.to_nat i) s.
Proof.
  intros Hi. unfold slice_to.
  destruct (Z.ltb_spec i 0); [lia | reflexivity].
Qed.

Lemma slice_from_nonneg (s : str) (i : Z) :
  0 <= i -> slice_from s i = skipn (Z.to_nat i) s.
Proof.
  intros Hi. unfold slice_from.
  destruct (Z.ltb_spec i 0); [lia | reflexivity].
Qed.

Lemma slice_to_from (s : str) (i : Z) : slice_to s i ++ slice_from s i = s.
Proof.
  unfold slice_to, slice_from. destruct (i <? 0); apply firstn_skipn.
Qed.

Lemma py_len_slice_to (s : str) (i : Z) :
  0 <= i <= py_len s -> py_len (slice_to s i) = i.
Proof.
  intros Hi. rewrite slice_to_nonneg by lia.
  unfold py_len in *. rewrite length_firstn. lia.
Qed.

Lemma py_len_slices (t : str) (i : Z) :
  py_len (slice_to t i) + py_len (slice_from t i) = py_len t.
Proof. rewrite <- py_len_app. now rewrite slice_to_from. Qed.

Lemma py_len_insert (t ch : str) (c : Z) :
  py_len (slice_to t c ++ ch ++ slice_from t c) = py_len t + py_len ch.
Proof. rewrite !py_len_app. pose proof (py_len_slices t c). lia. Qed.

Lemma py_len_delete (t : str) (c : Z) :
  0 < c <= py_len t ->
  py_len (slice_to t (c - 1) ++ slice_from t c) = py_len t - 1.
Proof.
  intros H. rewrite py_len_app, py_len_slice_to by lia.
  pose proof (py_len_slices t c). rewrite py_len_slice_to in H0 by lia. lia.
Qed.

Lemma delete_insert (t : str) (c x : Z) :
  0 <= c <= py_len t ->
  slice_to (slice_to t c ++ [x] ++ slice_from t c) (c + 1 - 1)
  ++ slice_from (slice_to t c ++ [x] ++ slice_from t c) (c + 1)
  = t.
Proof.
  intros Hc. replace (c + 1 - 1) with c by lia.
  rewrite (slice_to_nonneg _ c), (slice_from_nonneg _ (c + 1)) by lia.
  rewrite (slice_to_nonneg t c), (slice_from_nonneg t c) by lia.
  assert (Hlen : length (firstn (Z.to_nat c) t) = Z.to_nat c).
  { rewrite length_firstn. unfold py_len in Hc. lia. }
  rewrite firstn_app, Hlen, Nat.sub_diag, firstn_O, app_nil_r.
  rewrite firstn_firstn, Nat.min_id.
  rewrite skipn_app, Hlen.
  replace (Z.to_nat (c + 1)) with (S (Z.to_nat c)) by lia.
  rewrite (skipn_all2 (firstn (Z.to_nat c) t)) by lia.
  replace (S (Z.to_nat c) - Z.to_nat c)%nat with 1%nat by lia.
  simpl. apply firstn_skipn.
Qed.

Lemma startswith_app (p s : str) : startswith p (p ++ s) = true.
Proof.
  induction p as [|x p IH]; simpl; [reflexivity|].
  now rewrite Z.eqb_refl, IH.
Qed.

Lemma endswith_app (p s : str) : endswith p (s ++ p) = true.
Proof. unfold endswith. rewrite rev_app_distr. apply startswith_app. Qed.

Lemma set_last_nonempty {A} (l : list A) (x : A) :
  l <> [] -> set_last l x = Ok (removelast l ++ [x]).
Proof. destruct l; [congruence | reflexivity]. Qed.

Lemma length_removelast_snoc {A} (l : list A) (x : A) :
  l <> [] -> length (removelast l ++ [x]) = length l.
Proof.
  intros Hl. rewrite (app_removelast_last x Hl) at 2.
  now rewrite !length_app.
Qed.

Lemma skipn_app_le {A} (k : nat) (a b : list A) :
  (k <= length a)%nat -> skipn k (a ++ b) = skipn k a ++ b.
Proof.
  intros H. rewrite skipn_app.
  replace (k - length a)%nat with 0%nat by lia. reflexivity.
Qed.

Lemma last_n_short {A} (n : nat) (l : list A) : (length l <= n)%nat -> last_n n l = l.
Proof.
  intros H. unfold last_n. replace (length l - n)%nat with 0%nat by lia. reflexivity.
Qed.

Lemma length_last_n {A} (n : nat) (l : list A) : (length (last_n n l) <= n)%nat.
Proof. unfold last_n. rewrite length_skipn. lia. Qed.

Lemma last_n_app_last_n {A} (n : nat) (a b : list A) :
  last_n n (last_n n a ++ b) = last_n n (a ++ b).
Proof.
  destruct (Nat.le_gt_cases (length a) n) as [Hle|Hgt].
  - now rewrite (last_n_short n a).
  - unfold last_n. rewrite !length_app, length_skipn.
    replace (length a - (length a - n) + length b - n)%nat with (length b) by lia.
    replace (length a + length b - n)%nat with (length b + (length a - n))%nat by lia.
    rewrite <- skipn_skipn. now rewrite (skipn_app_le (length a - n) a b) by lia.
Qed.

Lemma last_n_suffix {A} (n : nat) (l : list A) : exists dropped, l = dropped ++ last_n n l.
Proof. exists (firstn (length l - n) l). unfold last_n. now rewrite firstn_skipn. Qed.


(** ** Truncation of the accumulated response *)

Lemma accumulate_clamp (a c : str) : accumulate a c = clamp (a ++ c).
Proof. reflexivity. Qed.

Lemma max_length_nat : 0 <= MAX_MESSAGE_LENGTH.
Proof. unfold MAX_MESSAGE_LENGTH. lia. Qed.

Lemma clamp_long (s : str) :
  MAX_MESSAGE_LENGTH < py_len s ->
  clamp s = firstn (Z.to_nat MAX_MESSAGE_LENGTH) s ++ TRUNCATED_RESPONSE.
Proof.
  intros H. unfold clamp.
  destruct (Z.gtb_spec (py_len s) MAX_MESSAGE_LENGTH); [|lia].
  now rewrite slice_to_nonneg by apply max_length_nat.
Qed.

Lemma clamp_short (s : str) : py_len s <= MAX_MESSAGE_LENGTH -> clamp s = s.
Proof.
  intros H. unfold clamp.
  destruct (Z.gtb_spec (py_len s) MAX_MESSAGE_LENGTH); [lia | reflexivity].
Qed.

(** Truncating, appending and truncating again is truncating once. *)
Lemma clamp_app (s d : str) : clamp (clamp s ++ d) = clamp (s ++ d).
Proof.
  destruct (Z.le_gt_cases (py_len s) MAX_MESSAGE_LENGTH) as [Hs|Hs].
  - now rewrite (clamp_short s) by assumption.
  - pose proof max_length_nat as Hm.
    rewrite (clamp_long s) by lia.
    set (n := Z.to_nat MAX_MESSAGE_LENGTH).
    assert (Hn : length (firstn n s) = n).
    { rewrite length_firstn. unfold py_len in Hs. lia. }
    rewrite clamp_long.
    2:{ rewrite !py_len_app. unfold py_len at 1. rewrite Hn.
        pose proof (py_len_nonneg d). unfold n.
        assert (0 < py_len TRUNCATED_RESPONSE) by reflexivity. lia. }
    rewrite clamp_long by (rewrite py_len_app; pose proof (py_len_nonneg d); lia).
    fold n. f_equal.
    rewrite <- !app_assoc.
    rewrite firstn_app, Hn, Nat.sub_diag, firstn_O, app_nil_r.
    rewrite firstn_firstn, Nat.min_id.
    rewrite firstn_app.
    replace (n - length s)%nat with 0%nat by (unfold py_len in Hs; lia).
    now rewrite firstn_O, app_nil_r.
Qed.

(** The deltas of a stream fold into the truncation of their concatenation. *)
Lemma fold_accumulate (ds : list str) (raw : str) :
  fold_left accumulate ds (clamp raw) = clamp (raw ++ concat ds).
Proof.
  revert raw. induction ds as [|d ds IH]; intros raw; simpl.
  - now rewrite app_nil_r.
  - rewrite accumulate_clamp, clamp_app, IH. now rewrite app_assoc.
Qed.

Lemma fold_accumulate_nil (ds : list str) :
  fold_left accumulate ds [] = clamp (concat ds).
Proof. exact (fold_accumulate ds []). Qed.

Lemma clamp_long_shape (s : str) :
  MAX_MESSAGE_LENGTH < py_len s ->
  py_len (clamp s) = MAX_MESSAGE_LENGTH + py_len TRUNCATED_RESPONSE
  /\ endswith TRUNCATED_RESPONSE (clamp s) = true.
Proof.
  intros H. rewrite clamp_long by assumption. split.
  - rewrite py_len_app. f_equal.
    unfold py_len at 1. rewrite length_firstn. unfold py_len in H.
    pose proof max_length_nat. lia.
  - apply endswith_app.
Qed.

(** ** What painting and system notices leave alone *)


Lemma editor_redraw env force st : editor (redraw env force st) = editor st.
Proof. unfold redraw. now destruct (negb force && _). Qed.


Lemma messages_add_system_message env message st :
  messages (add_system_message env message st) =
  messages st ++ [{| msg_role := system; content := notice_text message |}].
Proof. reflexivity. Qed.

Lemma editor_add_system_message env message st :
  editor (add_system_message env message st) = editor st.
Proof. reflexivity. Qed.


Lemma notice_text_head (c : Z) (s : str) : exists r, notice_text (c :: s) = c :: r.
Proof.
  unfold notice_text. destruct (_ >? _).
  - rewrite slice_to_nonneg by apply max_length_nat.
    change (Z.to_nat MAX_MESSAGE_LENGTH) with (S (Z.to_nat 4999)).
    simpl firstn. eexists. reflexivity.
  - now eexists.
Qed.

Lemma editor_split st st' :
  editor st' = editor st ->
  editing st' = editing st /\ aside st' = aside st
  /\ redraw_throttle st' = redraw_throttle st.
Proof.
  unfold editor. intros H.
  apply pair_equal_spec in H. destruct H as [H Ht].
  apply pair_equal_spec in H. tauto.
Qed.

Lemma buffers_ok_editor st st' : editor st' = editor st -> buffers_ok st -> buffers_ok st'.
Proof.
  unfold editor, editing, aside, buffers_ok. intros E. 
  inversion E. congruence.
Qed.

(** ** The streaming loops *)

Lemma overwritten_cons log acc d ds :
  overwritten
    (removelast log ++ [{| msg_role := assistant; content := accumulate acc d |}])
    (accumulate acc d) ds
  = overwritten log acc (d :: ds).
Proof.
  destruct ds; simpl; [reflexivity|]. now rewrite removelast_last.
Qed.

Lemma openai_loop_run (cs : list (option str)) (acc : str) (st : ChatUI) :
  messages st <> [] ->
  exists st',
    openai_loop cs acc st = (inl (fold_left accumulate (deltas cs) acc), st')
    /\ messages st' = overwritten (messages st) acc (deltas cs).
Proof.
  revert acc st. induction cs as [|[c|] cs IH]; intros acc st Hne.
  - exists st. now split.
  - simpl openai_loop. rewrite set_last_nonempty by assumption.
    destruct (IH (accumulate acc c)
                 (update_last_message
                    (set_messages
                       (removelast (messages st)
                        ++ [{| msg_role := assistant; content := accumulate acc c |}]) st)))
      as (st' & Hrun & Hmsgs).
    { simpl. intros E. apply app_eq_nil in E. destruct E; discriminate. }
    exists st'. split; [exact Hrun|].
    rewrite Hmsgs. simpl messages. apply overwritten_cons.
  - simpl. now apply IH.
Qed.

Lemma curl_loop_run env (ls : list sse_line) (acc : str) (st : ChatUI) :
  messages st <> [] ->
  exists broke st',
    curl_loop env ls acc st = (fold_left accumulate (received ls) acc, broke, st')
    /\ messages st' = overwritten (messages st) acc (received ls) ++ parse_notice ls.
Proof.
  revert acc st. induction ls as [|[| |e|[c|] finished] ls IH]; intros acc st Hne.
  - exists false, st. split; [reflexivity|]. simpl. now rewrite app_nil_r.
  - simpl. now apply IH.
  - simpl. now apply IH.
  - eexists _, _. split; reflexivity.
  - simpl curl_loop. rewrite set_last_nonempty by assumption.
    destruct finished.
    + eexists _, _. split; [reflexivity|]. simpl. now rewrite app_nil_r.
    + destruct (IH (accumulate acc c)
                   (update_last_message
                      (set_messages
                         (removelast (messages st)
                          ++ [{| msg_role := assistant; content := accumulate acc c |}]) st)))
        as (broke & st' & Hrun & Hmsgs).
      { simpl. intros E. apply app_eq_nil in E. destruct E; discriminate. }
      exists broke, st'. split; [exact Hrun|].
      rewrite Hmsgs. simpl messages. simpl received. simpl parse_notice.
      now rewrite overwritten_cons.
  - simpl. destruct finished.
    + eexists _, _. split; [reflexivity|]. simpl. now rewrite app_nil_r.
    + now apply IH.
Qed.

Lemma in_last_place_overwritten log acc d ds extra :
  log <> [] ->
  in_last_place log (overwritten log acc (d :: ds) ++ extra)
  = Some {| msg_role := assistant; content := fold_left accumulate (d :: ds) acc |}.
Proof.
  intros Hne. unfold in_last_place, overwritten.
  assert (Hlen : length (removelast log) = (length log - 1)%nat).
  { pose proof (length_removelast_snoc log {| msg_role := user; content := [] |} Hne) as H.
    rewrite length_app in H. simpl in H. lia. }
  rewrite <- Hlen, <- app_assoc. now rewrite nth_error_app2, Nat.sub_diag by lia.
Qed.

Lemma overwritten_seeded log ds :
  fold_left accumulate ds [] = [] ->
  overwritten (log ++ [{| msg_role := assistant; content := THINKING |}]) [] ds
  = log ++ [placeholder_after ds].
Proof.
  intros Hempty. destruct ds as [|d ds]; [reflexivity|].
  unfold overwritten. now rewrite removelast_last, Hempty.
Qed.

Lemma editor_openai_loop (cs : list (option str)) (acc : str) (st : ChatUI) :
  editor (snd (openai_loop cs acc st)) = editor st.
Proof.
  revert acc st. induction cs as [|[c|] cs IH]; intros acc st; simpl.
  - reflexivity.
  - destruct (set_last (messages st) _); [|reflexivity]. now rewrite IH.
  - apply IH.
Qed.

Lemma editor_curl_loop env (ls : list sse_line) (acc : str) (st : ChatUI) :
  editor (snd (curl_loop env ls acc st)) = editor st.
Proof.
  revert acc st. induction ls as [|[| |e|[c|] finished] ls IH]; intros acc st; simpl.
  - reflexivity.
  - apply IH.
  - apply IH.
  - reflexivity.
  - destruct (set_last (messages st) _); [|reflexivity].
    destruct finished; [reflexivity|]. now rewrite IH.
  - destruct finished; [reflexivity|]. apply IH.
Qed.

Lemma editor_send_openai_request env answer st :
  editor (send_openai_request env answer st) = editor st.
Proof.
  unfold send_openai_request.
  pose proof (editor_openai_loop (chunks answer) [] st) as E.
  destruct (openai_loop (chunks answer) [] st) as [[full|e] st']; simpl in E.
  - destruct (raised answer) as [[e|e]|]; [| |destruct (negb _)];
      now rewrite ?editor_add_system_message.
  - now rewrite editor_add_system_message.
Qed.

Lemma editor_send_curl_request env answer st :
  editor (send_curl_request env answer st) = editor st.
Proof.
  unfold send_curl_request. destruct answer as [[e|e]|resp]; [reflexivity..|].
  destruct (negb _); [reflexivity|].
  destruct (is_infini _).
  - destruct (json resp); try reflexivity.
    now destruct (set_last (messages st) _).
  - pose proof (editor_curl_loop env (iter_lines resp) [] st) as E.
    destruct (curl_loop env (iter_lines resp) [] st) as [[full broke] st']; simpl in E.
    destruct (if broke then None else iter_raised resp) as [[e|e]|];
      [| |destruct (negb _)]; now rewrite ?editor_add_system_message.
Qed.

(** ** The decoding branch *)

Lemma input_decode_run (key : Z) (st : ChatUI) :
  input_decode key st
  = Ok (decoded_of key (fst (read_more 2 [key] st)), after_decode key st).
Proof.
  unfold input_decode, decoded_of, after_decode.
  destruct ((key <? 0) || (key >? 0x10FFFF)); [reflexivity|].
  destruct (key >? 127).
  - destruct (read_more 2 [key] st) as [bytes_seq st']. simpl fst. simpl snd.
    unfold py_bytes. destruct (forallb (in_range 0 255) bytes_seq); simpl rbind.
    + unfold py_decode. destruct (utf8_decode bytes_seq); [reflexivity|].
      now destruct (rbind (py_getitem bytes_seq 0) py_chr).
    + reflexivity.
  - now destruct (py_chr key).
Qed.

Lemma command_decode_run (key : Z) (st : ChatUI) :
  command_decode key st
  = Ok (decoded_of key (fst (read_more 2 [key] st)), after_decode key st).
Proof. exact (input_decode_run key st). Qed.

Lemma read_more_head (n : nat) (k : Z) (l : list Z) (st : ChatUI) :
  exists more, fst (read_more n (k :: l) st) = k :: more.
Proof.
  revert l st. induction n as [|n IH]; intros l st; simpl.
  - now exists l.
  - destruct (getch_nodelay st) as [next_key st'].
    destruct (negb (next_key =? -1) && _).
    + apply (IH (l ++ [next_key]) st').
    + now exists l.
Qed.

(** The keys read further depend on the terminal only, and what is left
    in the terminal too. *)
Lemma read_more_pending (n : nat) (bytes_seq : list Z) (st1 st2 : ChatUI) :
  pending st1 = pending st2 ->
  fst (read_more n bytes_seq st1) = fst (read_more n bytes_seq st2)
  /\ pending (snd (read_more n bytes_seq st1)) = pending (snd (read_more n bytes_seq st2)).
Proof.
  revert bytes_seq st1 st2. induction n as [|n IH]; intros bytes_seq st1 st2 H; simpl.
  - now split.
  - unfold getch_nodelay. rewrite H. destruct (pending st2) as [|k q] eqn:Hq.
    + simpl. now split; [|rewrite H].
    + destruct (negb (k =? -1) && _).
      * now apply IH.
      * now split.
Qed.

Lemma editor_read_more (n : nat) (bytes_seq : list Z) (st : ChatUI) :
  editor (snd (read_more n bytes_seq st)) = editor st.
Proof.
  revert bytes_seq st. induction n as [|n IH]; intros bytes_seq st; simpl.
  - reflexivity.
  - unfold getch_nodelay. destruct (pending st) as [|k q].
    + reflexivity.
    + destruct (negb (k =? -1) && _); [|reflexivity].
      now rewrite IH.
Qed.

Lemma editor_after_decode (key : Z) (st : ChatUI) :
  editor (after_decode key st) = editor st.
Proof.
  unfold after_decode. destruct (_ || _); [reflexivity|].
  destruct (key >? 127); [apply editor_read_more | reflexivity].
Qed.

Lemma fields_after_decode key st :
  command_mode (after_decode key st) = command_mode st
  /\ aside (after_decode key st) = aside st.
Proof.
  pose proof (editor_after_decode key st) as E. apply editor_split in E.
  destruct E as (E1 & E2 & _). split; [|assumption].
  unfold editing in E1. now inversion E1.
Qed.

Lemma buffers_ok_after_decode key st : buffers_ok st -> buffers_ok (after_decode key st).
Proof. apply buffers_ok_editor, editor_after_decode. Qed.

Lemma after_decode_pending (key : Z) (st1 st2 : ChatUI) :
  pending st1 = pending st2 ->
  pending (after_decode key st1) = pending (after_decode key st2).
Proof.
  intros H. unfold after_decode. destruct (_ || _); [assumption|].
  destruct (key >? 127); [|assumption].
  now apply read_more_pending.
Qed.

(** ** What a command leaves alone *)

Lemma editor_getch env st : editor (snd (getch env st)) = editor st.
Proof. unfold getch. now destruct (pending st). Qed.

Lemma editor_set_placeholders_fold (tags : list str) (st : ChatUI) :
  editor
    (fold_left
       (fun st file_path =>
          set_file_placeholders
            (dict_set (file_placeholders st) (tag_of file_path) file_path) st)
       tags st)
  = editor st.
Proof.
  revert st. induction tags as [|t tags IH]; intros st; simpl; [reflexivity|].
  now rewrite IH.
Qed.


Lemma editor_rebuild_placeholders (log : list Message) (st : ChatUI) :
  editor
    (fold_left
       (fun st msg =>
          if role_eqb (msg_role msg) user
          then fold_left
                 (fun st file_path =>
                    set_file_placeholders
                      (dict_set (file_placeholders st) (tag_of file_path) file_path) st)
                 (findall_tags (content msg)) st
          else st)
       log st)
  = editor st.
Proof.
  revert st. induction log as [|msg log IH]; intros st; simpl; [reflexivity|].
  rewrite IH. destruct (role_eqb (msg_role msg) user); [|reflexivity].
  apply editor_set_placeholders_fold.
Qed.


Lemma editor_load_history env file_path st :
  editor (load_history env file_path st) = editor st.
Proof.
  unfold load_history. destruct (json_load env file_path) as [e|data]; [reflexivity|].
  rewrite editor_rebuild_placeholders.
  now destruct (find _ (configs _)).
Qed.


(** Splits a hypothesis about a handler into the branches of its [if]s and
    [match]es. *)
Ltac crush_branches :=
  repeat match goal with
         | H : context [if ?c then _ else _] |- _ => destruct c eqn:?
         | H : context [match ?x with _ => _ end] |- _ => destruct x eqn:?
         | H : getch _ _ = (_, ?c) |- _ =>
           apply (f_equal snd) in H; simpl snd in H; subst c
         | H : (_, _) = (_, _) |- _ => inversion H; subst; clear H
         | H : Ok _ = Ok _ |- _ => inversion H; subst; clear H
         | H : Ok _ = Raise _ |- _ => discriminate H
         | H : Raise _ = Ok _ |- _ => discriminate H
         end.

Ltac editor_same :=
  rewrite ?editor_redraw, ?editor_add_system_message, ?editor_load_history,
          ?editor_redraw, ?editor_add_system_message, ?editor_getch,
          ?editor_redraw, ?editor_add_system_message;
  try reflexivity.

(** A command changes nothing of the editing state; the buffer set aside
    is either left alone or, by [file], extended with the cursor at its
    end. *)
Lemma handle_command_editor env command st b st' :
  handle_command env command st = Ok (b, st') ->
  editing st' = editing st
  /\ (aside st' = aside st \/ saved_cursor_pos st' = py_len (saved_input st'))
  /\ redraw_throttle st' = redraw_throttle st.
Proof.
  intros H. unfold handle_command, rbind in H.
  crush_branches.
  all: try (split; [reflexivity | split; [right|]; reflexivity]).
  all: match goal with
       | |- editing ?a = editing ?b /\ _ =>
         let E := fresh in
         assert (E : editor a = editor b) by editor_same;
         apply editor_split in E; tauto
       end.
Qed.

(** ** What a command paints *)










(** ** The cursors under one key *)

Ltac to_props :=
  repeat match goal with
         | H : (_ >? _) = true |- _ => apply Z.gtb_lt in H
         | H : (_ >? _) = false |- _ => rewrite Z.gtb_ltb in H; apply Z.ltb_ge in H
         | H : (_ <? _) = true |- _ => apply Z.ltb_lt in H
         | H : (_ <? _) = false |- _ => apply Z.ltb_ge in H
         end.

(** Closes the branches of a key handler: each leaves the cursors within
    their texts. *)
Ltac cursors_within Hok :=
  try assumption;
  try match goal with
      | |- context [after_decode ?k ?s] =>
        apply (buffers_ok_after_decode k) in Hok;
        generalize dependent (after_decode k s); intros ? Hok
      end;
  try assumption;
  try match goal with
      | Hc : handle_command _ _ _ = Ok (_, ?c) |- _ =>
        apply handle_command_editor in Hc;
        let He := fresh "He" in
        let Ha := fresh "Ha" in
        destruct Hc as (He & Ha & _);
        unfold editing, aside in He, Ha;
        inversion He;
        (destruct Ha as [Ha|Ha]; [inversion Ha | ]);
        unfold buffers_ok in *; simpl;
        repeat match goal with
               | E : ?f c = ?f _ |- _ => rewrite E; clear E
               end;
        rewrite ?Ha
      end;
  unfold buffers_ok in *; simpl;
  rewrite ?py_len_insert;
  to_props;
  rewrite ?py_len_delete by lia;
  unfold py_len in *; simpl; lia.

Lemma command_keys_keep_cursors env key st b st' :
  buffers_ok st ->
  process_command_input env key st = Ok (b, st') ->
  buffers_ok st'.
Proof.
  intros Hok H. unfold process_command_input in H.
  rewrite command_decode_run in H. unfold rbind in H.
  crush_branches; cursors_within Hok.
Qed.

Lemma main_keys_keep_cursors env key st b st' :
  command_mode st = false ->
  buffers_ok st ->
  process_input env key st = Ok (b, st') ->
  buffers_ok st'.
Proof.
  intros Hmode Hok H. unfold process_input in H. rewrite Hmode in H.
  unfold send_message in H. rewrite input_decode_run in H. unfold rbind in H.
  crush_branches; cursors_within Hok.
Qed.

(* ================================================================== *)
(** * The claims *)

(** ** C1: a tag written with a blank after [F] *)

Lemma findall_spaced_tag : findall_tags SPACED_TAG = [u " notes.txt"].
Proof. reflexivity. Qed.

(** The tag is looked for again without the blank that [strip] removed, is
    not found, and the text stays as it was, whatever the file is. *)
Lemma replace_file_tags_spaced_tag env : replace_file_tags env SPACED_TAG = SPACED_TAG.
Proof. reflexivity. Qed.

(** A tag written without blanks is replaced, at every occurrence, by the
    fenced and labelled text of the file. *)
Lemma replace_file_tags_plain_tag :
  replace_file_tags quiet (u "see {{:Fnotes.txt}}, again {{:Fnotes.txt}}")
  = u "see " ++ fenced (u "notes.txt") notes_txt
      ++ u ", again " ++ fenced (u "notes.txt") notes_txt.
Proof. vm_compute. reflexivity. Qed.

(** C1 at its input.  Submitting [{{:F notes.txt}}] stores the compact tag
    in the log, and hands the very same text, the tag not replaced, to the
    thread of the network client: none of the file's text is in it.  This
    is so whatever [notes.txt] is, hence also when it exists and has fifty
    bytes. *)
Theorem spaced_tag_not_expanded env :
  let st := snd (send_message env (set_current_input SPACED_TAG fresh)) in
  messages st = [{| msg_role := user; content := SPACED_TAG |};
                 {| msg_role := assistant; content := THINKING |}]
  /\ spawned st = [(openai, [{| msg_role := user; content := SPACED_TAG |}])].
Proof. split; reflexivity. Qed.

Example spaced_tag_file_is_there :
  path_exists quiet (py_strip (u " notes.txt")) = true
  /\ getsize quiet (py_strip (u " notes.txt")) = 50
  /\ read_text quiet (py_strip (u " notes.txt")) = inl notes_txt
  /\ spawned (snd (send_message quiet (set_current_input SPACED_TAG fresh)))
     = [(openai, [{| msg_role := user; content := SPACED_TAG |}])].
Proof. repeat split. Qed.

(** ** C2: the empty result *)

Lemma no_response_notices_app a b :
  no_response_notices (a ++ b) = (no_response_notices a + no_response_notices b)%nat.
Proof. unfold no_response_notices. now rewrite filter_app, length_app. Qed.

Lemma parse_notice_not_no_response ls : no_response_notices (parse_notice ls) = 0%nat.
Proof.
  induction ls as [|[| |e|d finished] ls IH].
  - reflexivity.
  - exact IH.
  - exact IH.
  - change (parse_notice (Malformed e :: ls))
      with [{| msg_role := system;
               content := notice_text (35299 :: (u "析错误: " ++ e)) |}].
    destruct (notice_text_head 35299 (u "析错误: " ++ e)) as (r & Hr).
    rewrite Hr. reflexivity.
  - destruct finished; [reflexivity | exact IH].
Qed.

Lemma no_response_notices_placeholder_after ds :
  no_response_notices [placeholder_after ds] = 0%nat.
Proof. now destruct ds. Qed.

Ltac change_notice_counts :=
  change (no_response_notices [{| msg_role := assistant; content := THINKING |}])
    with 0%nat;
  change (no_response_notices [{| msg_role := system; content := NO_RESPONSE |}])
    with 1%nat.

(** C2, as the code has it.  When a streaming exchange ends without an
    exception and with an empty accumulated result, exactly one notice
    [<AI未返回有效响应>] is appended, as the last message of the log.  The
    assistant message seeded at submission is not removed: it still holds
    the placeholder text when no content delta arrived and is overwritten
    with the empty text when (empty) deltas did.  On the custom-HTTP path
    the notice of a failed parse may stand between the two. *)
Theorem empty_result_notice env (st : ChatUI) (log : list Message) :
  messages st = log ++ [{| msg_role := assistant; content := THINKING |}] ->
  (forall answer,
      raised answer = None ->
      fold_left accumulate (deltas (chunks answer)) [] = [] ->
      let log' := messages (send_openai_request env answer st) in
      log' = log ++ [placeholder_after (deltas (chunks answer))]
                 ++ [{| msg_role := system; content := NO_RESPONSE |}]
      /\ no_response_notices log' = (no_response_notices (messages st) + 1)%nat)
  /\ (forall resp,
      status_code resp = 200 ->
      is_infini (current_config st) = false ->
      iter_raised resp = None ->
      fold_left accumulate (received (iter_lines resp)) [] = [] ->
      let log' := messages (send_curl_request env (inr resp) st) in
      log' = log ++ [placeholder_after (received (iter_lines resp))]
                 ++ parse_notice (iter_lines resp)
                 ++ [{| msg_role := system; content := NO_RESPONSE |}]
      /\ no_response_notices log' = (no_response_notices (messages st) + 1)%nat).
Proof.
  intros Hseed.
  assert (Hne : messages st <> []).
  { rewrite Hseed. intros E. apply app_eq_nil in E. destruct E; discriminate. }
  split.
  - intros answer Hend Hempty log'.
    assert (Hlog : log' = log ++ [placeholder_after (deltas (chunks answer))]
                              ++ [{| msg_role := system; content := NO_RESPONSE |}]).
    { subst log'. unfold send_openai_request.
      destruct (openai_loop_run (chunks answer) [] st Hne) as (st' & Hrun & Hmsgs).
      rewrite Hrun, Hend, Hempty. simpl negb. cbv iota.
      rewrite messages_add_system_message, Hmsgs, Hseed, overwritten_seeded by assumption.
      now rewrite <- app_assoc. }
    split; [exact Hlog|].
    rewrite Hlog, Hseed, !no_response_notices_app.
    rewrite no_response_notices_placeholder_after. change_notice_counts. lia.
  - intros resp Hstatus Hstream Hend Hempty log'.
    assert (Hlog : log' = log ++ [placeholder_after (received (iter_lines resp))]
                              ++ parse_notice (iter_lines resp)
                              ++ [{| msg_role := system; content := NO_RESPONSE |}]).
    { subst log'. unfold send_curl_request. rewrite Hstatus, Hstream. simpl.
      destruct (curl_loop_run env (iter_lines resp) [] st Hne)
        as (broke & st' & Hrun & Hmsgs).
      rewrite Hrun, Hend, Hempty.
      replace (if broke then None else None) with (@None failure) by now destruct broke.
      simpl negb. cbv iota.
      rewrite messages_add_system_message, Hmsgs, Hseed, overwritten_seeded by assumption.
      now rewrite <- !app_assoc. }
    split; [exact Hlog|].
    rewrite Hlog, Hseed, !no_response_notices_app, parse_notice_not_no_response.
    rewrite no_response_notices_placeholder_after. change_notice_counts. lia.
Qed.

Lemma empty_result_notice_witness :
  (messages (send_openai_request quiet silent_answer (seeded (u "hi") fresh))
   = [{| msg_role := user; content := u "hi" |}]
       ++ [placeholder_after []]
       ++ [{| msg_role := system; content := NO_RESPONSE |}]
   /\ no_response_notices
        (messages (send_openai_request quiet silent_answer (seeded (u "hi") fresh)))
      = 1%nat)
  /\ (messages (send_curl_request quiet (inr silent_response) (seeded (u "hi") fresh))
      = [{| msg_role := user; content := u "hi" |}]
          ++ [placeholder_after [ [] ]]
          ++ [{| msg_role := system; content := u "解析错误: boom" |}]
          ++ [{| msg_role := system; content := NO_RESPONSE |}]
      /\ no_response_notices
           (messages (send_curl_request quiet (inr silent_response) (seeded (u "hi") fresh)))
         = 1%nat).
Proof.
  pose proof (empty_result_notice quiet (seeded (u "hi") fresh)
                [{| msg_role := user; content := u "hi" |}] eq_refl) as [Hopenai Hcurl].
  split.
  - apply (Hopenai silent_answer); reflexivity.
  - apply (Hcurl silent_response); reflexivity.
Defined.

(** C2 as stated fails: after a stream without any content delta the
    assistant message still holds the placeholder text. *)
Lemma empty_result_keeps_placeholder :
  ~ (no_response_notices
       (messages (send_openai_request quiet silent_answer (seeded (u "hi") fresh)))
     = (no_response_notices (messages (seeded (u "hi") fresh)) + 1)%nat
     /\ no_placeholder_left
          (messages (send_openai_request quiet silent_answer (seeded (u "hi") fresh)))).
Proof.
  intros [_ Hnone].
  specialize (Hnone {| msg_role := assistant; content := THINKING |}).
  assert (Hin : In {| msg_role := assistant; content := THINKING |}
                   (messages (send_openai_request quiet silent_answer
                                                  (seeded (u "hi") fresh)))).
  { right. left. reflexivity. }
  specialize (Hnone Hin eq_refl). vm_compute in Hnone. discriminate.
Qed.

(** ** C3: the truncated response *)

(** C3. Whenever the text accumulated from a stream is longer than
    [MAX_MESSAGE_LENGTH], the message left where the placeholder of the
    answer was is an assistant message of exactly [MAX_MESSAGE_LENGTH] plus
    the length of the truncation marker characters, and it ends with the
    marker.  This holds on the OpenAI path for the deltas of the chunks and
    on the custom-HTTP streaming path for the deltas taken in before the
    loop is left. *)
Theorem streamed_response_truncated env (st : ChatUI) :
  messages st <> [] ->
  (forall answer,
      MAX_MESSAGE_LENGTH < py_len (concat (deltas (chunks answer))) ->
      exists c,
        in_last_place (messages st) (messages (send_openai_request env answer st))
        = Some {| msg_role := assistant; content := c |}
        /\ py_len c = MAX_MESSAGE_LENGTH + py_len TRUNCATED_RESPONSE
        /\ endswith TRUNCATED_RESPONSE c = true)
  /\ (forall resp,
      status_code resp = 200 ->
      is_infini (current_config st) = false ->
      MAX_MESSAGE_LENGTH < py_len (concat (received (iter_lines resp))) ->
      exists c,
        in_last_place (messages st) (messages (send_curl_request env (inr resp) st))
        = Some {| msg_role := assistant; content := c |}
        /\ py_len c = MAX_MESSAGE_LENGTH + py_len TRUNCATED_RESPONSE
        /\ endswith TRUNCATED_RESPONSE c = true).
Proof.
  intros Hne. split.
  - intros answer Hlong.
    exists (clamp (concat (deltas (chunks answer)))).
    split; [|now apply clamp_long_shape].
    unfold send_openai_request.
    destruct (openai_loop_run (chunks answer) [] st Hne) as (st' & Hrun & Hmsgs).
    rewrite Hrun.
    assert (Hds : exists d ds, deltas (chunks answer) = d :: ds).
    { destruct (deltas (chunks answer)) as [|d ds]; [|now eauto].
      simpl in Hlong. unfold MAX_MESSAGE_LENGTH, py_len in Hlong. simpl in Hlong. lia. }
    destruct Hds as (d & ds & Hds).
    assert (Hplace : forall extra,
               in_last_place (messages st) (messages st' ++ extra)
               = Some {| msg_role := assistant;
                         content := clamp (concat (deltas (chunks answer))) |}).
    { intros extra. rewrite Hmsgs, Hds, in_last_place_overwritten by assumption.
      now rewrite <- Hds, fold_accumulate_nil. }
    destruct (raised answer) as [[e|e]|].
    + rewrite messages_add_system_message. apply Hplace.
    + rewrite messages_add_system_message. apply Hplace.
    + destruct (negb _).
      * rewrite messages_add_system_message. apply Hplace.
      * rewrite <- (app_nil_r (messages st')). apply Hplace.
  - intros resp Hstatus Hstream Hlong.
    exists (clamp (concat (received (iter_lines resp)))).
    split; [|now apply clamp_long_shape].
    unfold send_curl_request. rewrite Hstatus, Hstream. simpl.
    destruct (curl_loop_run env (iter_lines resp) [] st Hne)
      as (broke & st' & Hrun & Hmsgs).
    rewrite Hrun.
    assert (Hds : exists d ds, received (iter_lines resp) = d :: ds).
    { destruct (received (iter_lines resp)) as [|d ds]; [|now eauto].
      simpl in Hlong. unfold MAX_MESSAGE_LENGTH, py_len in Hlong. simpl in Hlong. lia. }
    destruct Hds as (d & ds & Hds).
    assert (Hplace : forall extra,
               in_last_place (messages st) (messages st' ++ extra)
               = Some {| msg_role := assistant;
                         content := clamp (concat (received (iter_lines resp))) |}).
    { intros extra. rewrite Hmsgs, Hds, <- app_assoc.
      rewrite in_last_place_overwritten by assumption.
      now rewrite <- Hds, fold_accumulate_nil. }
    destruct (if broke then None else iter_raised resp) as [[e|e]|].
    + rewrite messages_add_system_message. apply Hplace.
    + rewrite messages_add_system_message. apply Hplace.
    + destruct (negb _).
      * rewrite messages_add_system_message. apply Hplace.
      * rewrite <- (app_nil_r (messages st')). apply Hplace.
Qed.

Lemma streamed_response_truncated_witness :
  (exists c,
      in_last_place (messages (seeded (u "hi") fresh))
        (messages (send_openai_request quiet long_answer (seeded (u "hi") fresh)))
      = Some {| msg_role := assistant; content := c |}
      /\ py_len c = MAX_MESSAGE_LENGTH + py_len TRUNCATED_RESPONSE
      /\ endswith TRUNCATED_RESPONSE c = true)
  /\ (exists c,
      in_last_place (messages (seeded (u "hi") fresh))
        (messages (send_curl_request quiet (inr long_response) (seeded (u "hi") fresh)))
      = Some {| msg_role := assistant; content := c |}
      /\ py_len c = MAX_MESSAGE_LENGTH + py_len TRUNCATED_RESPONSE
      /\ endswith TRUNCATED_RESPONSE c = true).
Proof.
  assert (Hne : messages (seeded (u "hi") fresh) <> []) by (vm_compute; discriminate).
  split.
  - apply (proj1 (streamed_response_truncated quiet _ Hne) long_answer).
    vm_compute. reflexivity.
  - apply (proj2 (streamed_response_truncated quiet _ Hne) long_response).
    + reflexivity.
    + reflexivity.
    + vm_compute. reflexivity.
Defined.

(** ** C4: the window handed to the network client *)

Lemma window_step_last_n env (acc : list Message) (msg : Message) :
  (length acc <= 10)%nat ->
  window_step env acc msg = last_n 10 (acc ++ sendable env [msg]).
Proof.
  intros Hacc. unfold window_step, sendable. simpl flat_map.
  destruct (msg_role msg); simpl role_eqb; cbv iota; rewrite ?app_nil_r.
  1,2: destruct (Z.ltb_spec (py_len acc) 10) as [Hlt|Hge]; unfold py_len in *;
    [ rewrite last_n_short by (rewrite length_app; simpl; lia); reflexivity
    | unfold last_n; rewrite length_app; simpl length;
      replace (length acc + 1 - 10)%nat with 1%nat by lia;
      destruct acc; [simpl in *; lia | reflexivity] ].
  now rewrite !last_n_short by (rewrite ?app_nil_r; lia).
Qed.

Lemma sendable_app env a b : sendable env (a ++ b) = sendable env a ++ sendable env b.
Proof. unfold sendable. apply flat_map_app. Qed.

Lemma build_from_last_n env (log acc : list Message) :
  (length acc <= 10)%nat ->
  fold_left (window_step env) log acc = last_n 10 (acc ++ sendable env log).
Proof.
  revert acc. induction log as [|msg log IH]; intros acc Hacc; simpl fold_left.
  - simpl. rewrite app_nil_r. now rewrite last_n_short.
  - rewrite IH, window_step_last_n by
        (try rewrite window_step_last_n by assumption; try apply length_last_n; assumption).
    rewrite last_n_app_last_n, <- app_assoc.
    now rewrite <- sendable_app.
Qed.

Lemma build_messages_to_send_last_n env (log : list Message) :
  build_messages_to_send env log = last_n 10 (sendable env log).
Proof. unfold build_messages_to_send. now rewrite build_from_last_n by (simpl; lia). Qed.

Lemma sendable_no_system env log m : In m (sendable env log) -> msg_role m <> system.
Proof.
  unfold sendable. rewrite in_flat_map. intros (msg & _ & Hin).
  destruct (msg_role msg); simpl in Hin;
    [destruct Hin as [<-|[]]; discriminate .. | destruct Hin].
Qed.

(** C4. When a message is sent, the list handed to the thread of the
    network client is made of the non-system messages of the log (which
    then ends with the text just submitted), user texts with their tags
    expanded: it is the last ten of them when there are more, so the oldest
    go first; it holds no system message and at most ten messages. *)
Theorem window_handed_to_client env (st : ChatUI) :
  truthy (py_strip (current_input st)) = true ->
  let log := messages st ++ [{| msg_role := user; content := current_input st |}] in
  let handed := last_n 10 (sendable env log) in
  spawned (snd (send_message env st))
  = spawned st ++ [(request_type (current_config st), handed)]
  /\ (exists dropped, sendable env log = dropped ++ handed)
  /\ (forall m, In m handed -> msg_role m <> system)
  /\ (length handed <= 10)%nat.
Proof.
  intros Hgiven log handed. repeat split.
  - unfold send_message. rewrite Hgiven. simpl.
    now rewrite build_messages_to_send_last_n.
  - apply last_n_suffix.
  - intros m Hin. destruct (last_n_suffix 10 (sendable env log)) as (dropped & Hd).
    apply (sendable_no_system env log). rewrite Hd. apply in_or_app. now right.
  - apply length_last_n.
Qed.

Lemma window_handed_to_client_witness :
  let log := messages busy ++ [{| msg_role := user; content := current_input busy |}] in
  let handed := last_n 10 (sendable quiet log) in
  spawned (snd (send_message quiet busy))
  = spawned busy ++ [(request_type (current_config busy), handed)]
  /\ (exists dropped, sendable quiet log = dropped ++ handed)
  /\ (forall m, In m handed -> msg_role m <> system)
  /\ (length handed <= 10)%nat.
Proof. exact (window_handed_to_client quiet busy eq_refl). Defined.

Example busy_window :
  spawned (snd (send_message quiet busy))
  = [(openai,
      [{| msg_role := assistant; content := u "answer 2" |}]
        ++ exchange 3 ++ exchange 4 ++ exchange 5 ++ exchange 6
        ++ [{| msg_role := user;
               content := u "and " ++ fenced (u "notes.txt") notes_txt ++ u "?" |}])].
Proof. vm_compute. reflexivity. Qed.

(** ** C5: cancelling command mode *)

Lemma command_key_step env key st :
  command_mode st = true -> is_enter key = false -> key <> 27 ->
  exists st', process_input env key st = Ok (false, st')
              /\ command_mode st' = true /\ aside st' = aside st.
Proof.
  intros Hmode Henter Hesc.
  unfold process_input. rewrite Hmode. unfold process_command_input.
  rewrite Henter. replace (key =? 27) with false by (symmetry; now apply Z.eqb_neq).
  rewrite command_decode_run. unfold rbind.
  destruct (fields_after_decode key st) as [Hm Ha].
  repeat match goal with
         | |- context [if ?c then _ else _] => destruct c
         | |- context [match ?x with _ => _ end] => destruct x
         end.
  all: unfold aside in *; eexists; split; [reflexivity|]; split; simpl; congruence.
Qed.

Lemma command_typing env events st :
  command_mode st = true ->
  Forall (fun ev => is_enter (fst ev) = false /\ fst ev <> 27) events ->
  exists st', type_keys env events st = Ok st'
              /\ command_mode st' = true /\ aside st' = aside st.
Proof.
  intros Hmode Hkeys. revert st Hmode.
  induction Hkeys as [|[key typeahead] events [Henter Hesc] _ IH]; intros st Hmode.
  - now exists st.
  - simpl in Henter, Hesc.
    destruct (command_key_step env key (set_pending typeahead st) Hmode Henter Hesc)
      as (st1 & Hstep & Hmode1 & Haside1).
    destruct (IH st1 Hmode1) as (st' & Hrun & Hmode' & Haside').
    exists st'. simpl. rewrite Hstep. simpl. rewrite Hrun.
    repeat split; [assumption|]. now rewrite Haside', Haside1.
Qed.

(** C5. From normal mode, Ctrl+L sets the main input (text and cursor)
    aside; whatever is then typed into the command line short of Enter and
    Escape, Escape puts the text and the cursor back exactly as they were
    and returns to normal mode. *)
Theorem cancel_restores_input env events st :
  command_mode st = false ->
  Forall (fun ev => is_enter (fst ev) = false /\ fst ev <> 27) events ->
  exists st1 st2 st3,
    process_input env 12 st = Ok (false, st1)
    /\ command_mode st1 = true
    /\ (saved_input st1, saved_cursor_pos st1) = (current_input st, cursor_pos st)
    /\ type_keys env events st1 = Ok st2
    /\ process_input env 27 st2 = Ok (false, st3)
    /\ command_mode st3 = false
    /\ (current_input st3, cursor_pos st3) = (current_input st, cursor_pos st).
Proof.
  intros Hmode Hkeys.
  exists (redraw_input_only (enter_command_mode st)).
  destruct (command_typing env events (redraw_input_only (enter_command_mode st)) eq_refl Hkeys)
    as (st2 & Hrun & Hmode2 & Haside2).
  exists st2, (redraw_input_only (exit_command_mode true st2)).
  split; [unfold process_input; now rewrite Hmode|].
  split; [reflexivity|]. split; [reflexivity|]. split; [assumption|].
  split; [unfold process_input; now rewrite Hmode2|].
  split; [reflexivity|].
  exact Haside2.
Qed.

Lemma cancel_restores_input_witness :
  exists st1 st2 st3,
    process_input quiet 12 typing = Ok (false, st1)
    /\ command_mode st1 = true
    /\ (saved_input st1, saved_cursor_pos st1) = (current_input typing, cursor_pos typing)
    /\ type_keys quiet [(102, []); (228, [184; 173]); (KEY_LEFT, []); (127, [])] st1 = Ok st2
    /\ process_input quiet 27 st2 = Ok (false, st3)
    /\ command_mode st3 = false
    /\ (current_input st3, cursor_pos st3) = (current_input typing, cursor_pos typing).
Proof.
  apply (cancel_restores_input quiet
           [(102, []); (228, [184; 173]); (KEY_LEFT, []); (127, [])] typing).
  - reflexivity.
  - repeat (apply Forall_cons; [split; [reflexivity | cbv; discriminate]|]). apply Forall_nil.
Defined.

(** ** C6: insert, then delete backwards *)

Lemma insert_step env key c st st0 :
  command_mode st = false ->
  control_key key = false ->
  input_decode key st = Ok (Decoded (Some [c]), st0) ->
  exists st1,
    process_input env key st = Ok (false, st1)
    /\ command_mode st1 = false
    /\ current_input st1
       = slice_to (current_input st) (cursor_pos st) ++ [c]
         ++ slice_from (current_input st) (cursor_pos st)
    /\ cursor_pos st1 = cursor_pos st + 1.
Proof.
  intros Hmode Hkey Hdec.
  unfold control_key in Hkey. repeat (apply orb_false_iff in Hkey; destruct Hkey as [Hkey ?]).
  pose proof Hdec as Hrun. rewrite input_decode_run in Hrun.
  inversion Hrun as [[Hd Hst0]]. clear Hrun.
  pose proof (editor_after_decode key st) as E. rewrite Hst0 in E.
  unfold editor, editing, aside in E. inversion E as [[E1 E2 E3 E4 E5 E6 E7 E8 E9]].
  unfold process_input, is_enter. rewrite Hmode.
  repeat match goal with H : _ = false |- _ => rewrite H; clear H end.
  simpl orb. cbv iota.
  rewrite Hdec. simpl. rewrite E1, E2.
  eexists. split; [reflexivity|]. simpl.
  split; [congruence|]. split; reflexivity.
Qed.

Lemma delete_step env back st :
  command_mode st = false ->
  back = KEY_BACKSPACE \/ back = 127 ->
  exists st',
    process_input env back st = Ok (false, st')
    /\ current_input st'
       = (if cursor_pos st >? 0
          then slice_to (current_input st) (cursor_pos st - 1)
               ++ slice_from (current_input st) (cursor_pos st)
          else current_input st)
    /\ cursor_pos st' = (if cursor_pos st >? 0 then cursor_pos st - 1 else cursor_pos st).
Proof.
  intros Hmode Hback. unfold process_input. rewrite Hmode.
  destruct Hback as [-> | ->]; simpl;
    destruct (cursor_pos st >? 0); eexists; (split; [reflexivity | split; reflexivity]).
Qed.

(** C6. In normal mode, with the cursor within the text: a key that the
    handler decodes to one character inserts it at the cursor and moves
    the cursor one to the right, and Backspace pressed next gives back the
    text and the cursor as they were.  With the cursor at 0, Backspace
    changes neither the text nor the cursor. *)
Theorem insert_then_delete env st back :
  command_mode st = false ->
  0 <= cursor_pos st <= py_len (current_input st) ->
  back = KEY_BACKSPACE \/ back = 127 ->
  (forall key c st0,
      control_key key = false ->
      input_decode key st = Ok (Decoded (Some [c]), st0) ->
      exists st1 st2,
        process_input env key st = Ok (false, st1)
        /\ current_input st1
           = slice_to (current_input st) (cursor_pos st) ++ [c]
             ++ slice_from (current_input st) (cursor_pos st)
        /\ cursor_pos st1 = cursor_pos st + 1
        /\ process_input env back st1 = Ok (false, st2)
        /\ current_input st2 = current_input st
        /\ cursor_pos st2 = cursor_pos st)
  /\ (cursor_pos st = 0 ->
      exists st', process_input env back st = Ok (false, st')
                  /\ current_input st' = current_input st
                  /\ cursor_pos st' = 0).
Proof.
  intros Hmode Hcur Hback. split.
  - intros key c st0 Hkey Hdec.
    destruct (insert_step env key c st st0 Hmode Hkey Hdec)
      as (st1 & Hins & Hmode1 & Htext1 & Hcur1).
    destruct (delete_step env back st1 Hmode1 Hback) as (st2 & Hdel & Htext2 & Hcur2).
    exists st1, st2. repeat split; try assumption.
    + rewrite Htext2, Hcur1, Htext1.
      replace (cursor_pos st + 1 >? 0) with true by (symmetry; apply Z.gtb_lt; lia).
      now apply delete_insert.
    + rewrite Hcur2, Hcur1.
      replace (cursor_pos st + 1 >? 0) with true by (symmetry; apply Z.gtb_lt; lia).
      lia.
  - intros Hzero.
    destruct (delete_step env back st Hmode Hback) as (st' & Hdel & Htext & Hcur').
    exists st'. rewrite Hzero in Htext, Hcur'. now repeat split.
Qed.

Lemma insert_then_delete_witness :
  (exists st1 st2,
      process_input quiet 97 typing = Ok (false, st1)
      /\ current_input st1
         = slice_to (current_input typing) (cursor_pos typing) ++ [97]
           ++ slice_from (current_input typing) (cursor_pos typing)
      /\ cursor_pos st1 = cursor_pos typing + 1
      /\ process_input quiet 127 st1 = Ok (false, st2)
      /\ current_input st2 = current_input typing
      /\ cursor_pos st2 = cursor_pos typing)
  /\ (exists st', process_input quiet KEY_BACKSPACE fresh = Ok (false, st')
                  /\ current_input st' = current_input fresh
                  /\ cursor_pos st' = 0).
Proof.
  split.
  - apply (proj1 (insert_then_delete quiet typing 127 eq_refl
                    ltac:(vm_compute; intuition discriminate) (or_intror eq_refl))
             97 97 typing).
    + reflexivity.
    + reflexivity.
  - apply (proj2 (insert_then_delete quiet fresh KEY_BACKSPACE eq_refl
                    ltac:(vm_compute; intuition discriminate) (or_introl eq_refl))).
    reflexivity.
Defined.

(** ** C7: the cursors stay inside their texts *)

(** C7. Every key handled by [process_input], in either mode (a character
    inserted, a character deleted backwards, the cursor moved left or
    right, an entry recalled up or down, the text submitted, command mode
    entered or left), leaves every cursor within its text: that of the main
    input, that of the command input and that of the main input set aside
    while a command is typed. *)
Theorem cursors_stay_inside env key st b st' :
  buffers_ok st ->
  process_input env key st = Ok (b, st') ->
  buffers_ok st'.
Proof.
  intros Hok H. destruct (command_mode st) eqn:Hmode.
  - unfold process_input in H. rewrite Hmode in H.
    exact (command_keys_keep_cursors env key st b st' Hok H).
  - exact (main_keys_keep_cursors env key st b st' Hmode Hok H).
Qed.

Lemma cursors_stay_inside_witness :
  exists st',
    process_input picking 10 commanding = Ok (false, st')
    /\ current_input st' = u "héllo {{:F/tmp/notes.txt}}"
    /\ buffers_ok st'.
Proof.
  eexists. split; [reflexivity|]. split; [reflexivity|].
  apply (cursors_stay_inside picking 10 commanding false).
  - unfold buffers_ok. vm_compute. intuition discriminate.
  - reflexivity.
Defined.

(** ** C8: submitting and the recall history *)

(** C8, as the code has it.  Enter in normal mode on a text that is not
    blank puts the text at the front of the recall history and sets the
    recall index to -1; on a blank text (empty, or white space only) it
    does nothing at all.  Enter in command mode leaves the recall history
    and the recall index as they were, whatever the command does. *)
Theorem submit_and_recall_history env key st :
  is_enter key = true ->
  (command_mode st = false ->
   truthy (py_strip (current_input st)) = true ->
   exists st',
     process_input env key st = Ok (false, st')
     /\ input_history st' = current_input st :: input_history st
     /\ history_index st' = -1)
  /\ (command_mode st = false ->
      truthy (py_strip (current_input st)) = false ->
      process_input env key st = Ok (false, st))
  /\ (command_mode st = true ->
      forall b st',
        process_input env key st = Ok (b, st') ->
        input_history st' = input_history st
        /\ history_index st' = history_index st).
Proof.
  intros Henter. split; [|split].
  - intros Hmode Htext. unfold process_input. rewrite Hmode, Henter.
    unfold send_message. rewrite Htext. simpl negb. cbv iota.
    eexists. split; [reflexivity|]. split; reflexivity.
  - intros Hmode Htext. unfold process_input. rewrite Hmode, Henter.
    unfold send_message. now rewrite Htext.
  - intros Hmode b st' H. unfold process_input in H. rewrite Hmode in H.
    unfold process_command_input in H. rewrite Henter in H. unfold rbind in H.
    destruct (handle_command env (command_input st) st) as [[b0 c]|e] eqn:Hc;
      [|discriminate].
    inversion H; subst; clear H.
    apply handle_command_editor in Hc. destruct Hc as (He & _ & _).
    unfold editing in He. inversion He. now split.
Qed.

Lemma submit_and_recall_history_witness :
  (exists st',
      process_input quiet 10 typing = Ok (false, st')
      /\ input_history st' = current_input typing :: input_history typing
      /\ history_index st' = -1)
  /\ process_input quiet 13 (set_current_input (u "  ") fresh)
     = Ok (false, set_current_input (u "  ") fresh)
  /\ (forall b st',
         process_input picking KEY_ENTER commanding = Ok (b, st') ->
         input_history st' = input_history commanding
         /\ history_index st' = history_index commanding).
Proof.
  split; [|split].
  - apply (proj1 (submit_and_recall_history quiet 10 typing eq_refl)); reflexivity.
  - apply (proj1 (proj2 (submit_and_recall_history quiet 13
                           (set_current_input (u "  ") fresh) eq_refl))); reflexivity.
  - apply (proj2 (proj2 (submit_and_recall_history picking KEY_ENTER commanding eq_refl))).
    reflexivity.
Defined.

(** C8 as stated fails: a blank text submitted is not put in the recall
    history. *)
Lemma blank_submit_not_recorded :
  ~ (forall st',
        process_input quiet 10 (set_current_input (u "  ") fresh) = Ok (false, st') ->
        input_history st'
        = current_input (set_current_input (u "  ") fresh)
            :: input_history (set_current_input (u "  ") fresh)
        /\ history_index st' = -1).
Proof.
  intros H. destruct (H (set_current_input (u "  ") fresh) eq_refl) as [Hhist _].
  discriminate Hhist.
Qed.

(** ** C9: the throttle of the full redraw *)



(** ** C10: the decoding branch of the two key handlers *)

(** C10. The decoding branch of the command handler is the decoding
    branch of the main handler: on every lead code and every state of the
    terminal both give the same character, or both give none, and both
    leave the same keys unread.  The branch always returns: no exception
    leaves it.  A lead code outside [0, 0x10FFFF] is dropped before any
    further key is read.  When the bytes collected for a lead byte do not
    decode, the character is the lead byte alone. *)
Theorem decoding_shared (key : Z) (st : ChatUI) :
  command_decode key st = input_decode key st
  /\ (exists d st', input_decode key st = Ok (d, st'))
  /\ (key < 0 \/ 0x10FFFF < key -> input_decode key st = Ok (Ignored, st))
  /\ (forall bytes_seq st',
         127 < key <= 255 ->
         read_more 2 [key] st = (bytes_seq, st') ->
         utf8_decode bytes_seq = None ->
         input_decode key st = Ok (Decoded (Some [key]), st')).
Proof.
  split; [reflexivity|]. split; [|split].
  - rewrite input_decode_run. eauto.
  - intros Hout. unfold input_decode.
    replace ((key <? 0) || (key >? 0x10FFFF)) with true; [reflexivity|].
    symmetry. apply orb_true_iff. rewrite Z.ltb_lt, Z.gtb_gt. lia.
  - intros bytes_seq st' Hkey Hread Hbad.
    rewrite input_decode_run. unfold decoded_of, after_decode.
    replace ((key <? 0) || (key >? 0x10FFFF)) with false.
    2:{ symmetry. apply orb_false_iff. rewrite Z.ltb_ge, Z.gtb_ltb, Z.ltb_ge. lia. }
    replace (key >? 127) with true by (symmetry; apply Z.gtb_gt; lia).
    rewrite Hread. simpl fst. simpl snd.
    destruct (read_more_head 2 key [] st) as (more & Hhead).
    rewrite Hread in Hhead. simpl in Hhead. subst bytes_seq.
    unfold py_bytes. destruct (forallb _ _) eqn:Hbytes.
    + rewrite Hbad. unfold py_getitem. simpl. unfold py_chr, in_range.
      replace ((0 <=? key) && (key <=? 0x10FFFF)) with true; [reflexivity|].
      symmetry. apply andb_true_iff. rewrite !Z.leb_le. lia.
    + (* a lead byte and continuation bytes are all below 256 *)
      exfalso. clear Hbad.
      assert (Hall : forallb (in_range 0 255) (fst (read_more 2 [key] st)) = true).
      { clear Hread. simpl. unfold getch_nodelay.
        assert (Hk : in_range 0 255 key = true).
        { unfold in_range. apply andb_true_iff. rewrite !Z.leb_le. lia. }
        destruct (pending st) as [|k1 q1]; simpl; [now rewrite Hk|].
        destruct (negb (k1 =? -1) && ((0 <=? k1) && (k1 <=? 255))) eqn:H1; simpl;
          [|now rewrite Hk].
        apply andb_true_iff in H1. destruct H1 as [_ H1].
        destruct q1 as [|k2 q2]; simpl; [now rewrite Hk; unfold in_range; rewrite H1|].
        destruct (negb (k2 =? -1) && ((0 <=? k2) && (k2 <=? 255))) eqn:H2; simpl.
        - apply andb_true_iff in H2. destruct H2 as [_ H2].
          rewrite Hk. unfold in_range at 1 2. now rewrite H1, H2.
        - rewrite Hk. unfold in_range at 1. now rewrite H1. }
      rewrite Hread in Hall. simpl fst in Hall. congruence.
Qed.

Lemma decoding_shared_witness :
  input_decode 200 (set_pending [65; 66] fresh)
  = Ok (Decoded (Some [200]), set_pending [] fresh)
  /\ input_decode (-1) (set_pending [65; 66] fresh)
     = Ok (Ignored, set_pending [65; 66] fresh).
Proof.
  split.
  - apply (proj2 (proj2 (proj2 (decoding_shared 200 (set_pending [65; 66] fresh))))
             [200; 65; 66] (set_pending [] fresh)).
    + lia.
    + reflexivity.
    + reflexivity.
  - apply (proj1 (proj2 (proj2 (decoding_shared (-1) (set_pending [65; 66] fresh))))).
    left. lia.
Defined.

(** The two handlers, given the same key on the same terminal and buffers
    that hold the same text and cursor, leave buffers that hold the same
    text and cursor, and the same keys unread. *)
Lemma handlers_insert_alike env key st_n st_c :
  command_mode st_n = false ->
  command_mode st_c = true ->
  control_key key = false ->
  pending st_c = pending st_n ->
  (command_input st_c, command_cursor_pos st_c) = (current_input st_n, cursor_pos st_n) ->
  exists st_n' st_c',
    process_input env key st_n = Ok (false, st_n')
    /\ process_input env key st_c = Ok (false, st_c')
    /\ (command_input st_c', command_cursor_pos st_c') = (current_input st_n', cursor_pos st_n')
    /\ pending st_c' = pending st_n'.
Proof.
  intros Hn Hc Hkey Hpending Hbuf.
  unfold control_key in Hkey.
  repeat (apply orb_false_iff in Hkey; destruct Hkey as [Hkey ?]).
  unfold process_input, process_command_input, is_enter. rewrite Hn, Hc.
  repeat match goal with H : _ = false |- _ => rewrite H; clear H end.
  simpl orb. cbv iota.
  rewrite input_decode_run, command_decode_run. unfold rbind.
  destruct (read_more_pending 2 [key] st_c st_n Hpending) as [-> _].
  pose proof (after_decode_pending key st_c st_n Hpending) as Hp.
  pose proof (editor_after_decode key st_n) as En.
  pose proof (editor_after_decode key st_c) as Ec.
  unfold editor, editing, aside in En, Ec.
  inversion En as [[En1 En2 En3 En4 En5 En6 En7 En8 En9]].
  inversion Ec as [[Ec1 Ec2 Ec3 Ec4 Ec5 Ec6 Ec7 Ec8 Ec9]].
  inversion Hbuf as [[Hb1 Hb2]].
  destruct (decoded_of key (fst (read_more 2 [key] st_n))) as [|char].
  - eexists _, _. split; [reflexivity|]. split; [reflexivity|].
    split; [congruence | exact Hp].
  - destruct (char_given char) as [c|].
    + eexists _, _. split; [reflexivity|]. split; [reflexivity|].
      simpl. split; [congruence | exact Hp].
    + eexists _, _. split; [reflexivity|]. split; [reflexivity|].
      simpl. split; [congruence | exact Hp].
Qed.

(* ================================================================== *)
(** * The sessions that can arise *)

Lemma process_input_throttle env key st b st' :
  process_input env key st = Ok (b, st') ->
  redraw_throttle st' = redraw_throttle st.
Proof.
  intros H.
  unfold process_input, process_command_input, send_message in H.
  rewrite input_decode_run, command_decode_run in H.
  unfold rbind in H.
  pose proof (editor_after_decode key st) as Hd.
  apply editor_split in Hd. destruct Hd as (_ & _ & Hd).
  crush_branches.
  all: try reflexivity.
  all: try exact Hd.
  all: match goal with
       | Hc : handle_command _ _ _ = Ok _ |- _ =>
         apply handle_command_editor in Hc; destruct Hc as (_ & _ & Hc); exact Hc
       end.
Qed.

(** In every session that can arise all cursors are within their texts and
    the throttle is a tenth of a second. *)
Lemma reachable_invariant st :
  reachable st -> buffers_ok st /\ redraw_throttle st = (1 # 10)%Q.
Proof.
  induction 1 as [configs st Hnew | env message st _ [IHb IHt] | env st _ [IHb IHt]
                  | env key typeahead st b st' _ [IHb IHt] Hkey
                  | env kind a_openai a_curl st _ [IHb IHt]].
  - unfold new_ChatUI, rbind in Hnew. destruct (py_getitem configs 0); [|discriminate].
    inversion Hnew. split; [|reflexivity].
    unfold buffers_ok. simpl. unfold py_len. simpl. lia.
  - split; [|exact IHt]. now apply (buffers_ok_editor st).
  - split.
    + apply (buffers_ok_editor st); [apply editor_redraw | assumption].
    + pose proof (editor_redraw env false st) as E. apply editor_split in E.
      destruct E as (_ & _ & ->). exact IHt.
  - split.
    + destruct (command_mode (set_pending typeahead st)) eqn:Hmode.
      * unfold process_input in Hkey. rewrite Hmode in Hkey.
        now apply (command_keys_keep_cursors env key (set_pending typeahead st) b st').
      * now apply (main_keys_keep_cursors env key (set_pending typeahead st) b st').
    + rewrite (process_input_throttle env key _ b st' Hkey). exact IHt.
  - assert (E : editor (run_request env kind a_openai a_curl st) = editor st).
    { destruct kind; [apply editor_send_openai_request | apply editor_send_curl_request]. }
    split; [now apply (buffers_ok_editor st)|].
    apply editor_split in E. destruct E as (_ & _ & ->). exact IHt.
Qed.

(* ================================================================== *)
(** * Further properties *)







(** ** The recall index *)

Lemma py_getitem_in_range {A} (l : list A) (i : Z) :
  0 <= i < py_len l -> exists a, py_getitem l i = Ok a /\ nth_error l (Z.to_nat i) = Some a.
Proof.
  intros Hi. unfold py_getitem.
  destruct (Z.ltb_spec i 0); [lia|]. destruct (Z.ltb_spec i 0); [lia|].
  destruct (nth_error l (Z.to_nat i)) as [a|] eqn:E; [now exists a|].
  apply nth_error_None in E. unfold py_len in Hi. lia.
Qed.

Lemma truthy_py_len {A} (l : list A) : truthy l = true <-> 0 < py_len l.
Proof. destruct l; unfold py_len; simpl; split; (discriminate || lia || reflexivity). Qed.



(** ** Texts and tables *)

Lemma str_eqb_refl (s : str) : str_eqb s s = true.
Proof. induction s as [|x s IH]; simpl; [reflexivity|]. now rewrite Z.eqb_refl. Qed.

Lemma str_eqb_eq (a b : str) : str_eqb a b = true -> a = b.
Proof.
  revert b. induction a as [|x a IH]; intros [|y b]; simpl; try discriminate.
  - reflexivity.
  - intros H. apply andb_true_iff in H. destruct H as [Hx Hab].
    apply Z.eqb_eq in Hx. subst. f_equal. now apply IH.
Qed.

Lemma dict_get_set (d : list (str * str)) (k v : str) :
  dict_get (dict_set d k v) k = Some v.
Proof.
  induction d as [|[k' v'] d IH]; simpl.
  - now rewrite str_eqb_refl.
  - destruct (str_eqb k' k) eqn:E; simpl.
    + now rewrite str_eqb_refl.
    + now rewrite E.
Qed.







(** ** Instances of lists and texts *)

Lemma not_in_forallb (x : Z) (l : str) :
  forallb (fun c => negb (c =? x)) l = true -> ~ In x l.
Proof.
  intros H Hin. rewrite forallb_forall in H. specialize (H x Hin).
  now rewrite Z.eqb_refl in H.
Qed.

Lemma str_neq (a b : str) : str_eqb a b = false -> a <> b.
Proof. intros H ->. now rewrite str_eqb_refl in H. Qed.

Lemma all_space_forallb (w : str) :
  forallb py_isspace w = true -> Forall (fun c => py_isspace c = true) w.
Proof. intros H. apply Forall_forall. now apply forallb_forall. Qed.

(** ** The placeholder table *)




Lemma messages_getch env st : messages (snd (getch env st)) = messages st.
Proof. unfold getch. now destruct (pending st). Qed.













(** ** Saving and loading *)






(** ** The background task and the earlier messages *)

Lemma keeps_earlier_refl (log : list Message) : keeps_earlier log log.
Proof.
  unfold keeps_earlier. split; [|lia].
  destruct log as [|m log] using rev_ind; [reflexivity|].
  rewrite removelast_last, length_app. simpl.
  replace (length log + 1 - 1)%nat with (length log) by lia.
  rewrite firstn_app, firstn_all, Nat.sub_diag. simpl. apply app_nil_r.
Qed.

Lemma keeps_earlier_snoc (log log' : list Message) (m : Message) :
  keeps_earlier log log' -> keeps_earlier log (log' ++ [m]).
Proof.
  unfold keeps_earlier. intros [H1 H2]. split.
  - rewrite firstn_app. replace (length log - 1 - length log')%nat with 0%nat by lia.
    rewrite firstn_O, app_nil_r. exact H1.
  - rewrite length_app. simpl. lia.
Qed.

Lemma keeps_earlier_set_last (log log' : list Message) (m : Message) :
  keeps_earlier log log' -> log' <> [] -> keeps_earlier log (removelast log' ++ [m]).
Proof.
  unfold keeps_earlier. intros [H1 H2] Hne.
  destruct log' as [|x l] using rev_ind; [congruence|]. clear IHl.
  rewrite removelast_last. rewrite length_app in *. simpl in *.
  split; [|lia].
  rewrite firstn_app in *.
  replace (length log - 1 - length l)%nat with 0%nat in * by lia.
  now rewrite firstn_O in *.
Qed.

Lemma set_last_ok {A} (l : list A) (x : A) (l' : list A) :
  set_last l x = Ok l' -> l <> [] /\ l' = removelast l ++ [x].
Proof.
  destruct l; simpl; [discriminate|]. intros H. inversion H. split; [discriminate|reflexivity].
Qed.

Lemma openai_loop_keeps (log : list Message) (cs : list (option str)) (acc : str)
      (st : ChatUI) :
  keeps_earlier log (messages st) ->
  keeps_earlier log (messages (snd (openai_loop cs acc st))).
Proof.
  revert acc st. induction cs as [|[c|] cs IH]; intros acc st H; simpl.
  - exact H.
  - destruct (set_last (messages st) _) as [msgs|e] eqn:E; [|exact H].
    apply set_last_ok in E. destruct E as [Hne ->].
    apply IH. simpl. now apply keeps_earlier_set_last.
  - now apply IH.
Qed.

Lemma curl_loop_keeps env (log : list Message) (ls : list sse_line) (acc : str)
      (st : ChatUI) :
  keeps_earlier log (messages st) ->
  keeps_earlier log (messages (snd (curl_loop env ls acc st))).
Proof.
  revert acc st. induction ls as [|[| |e|[c|] finished] ls IH]; intros acc st H; simpl.
  - exact H.
  - now apply IH.
  - now apply IH.
  - now apply keeps_earlier_snoc.
  - destruct (set_last (messages st) _) as [msgs|e] eqn:E.
    + apply set_last_ok in E. destruct E as [Hne ->].
      assert (H' : keeps_earlier log
                     (removelast (messages st)
                      ++ [{| msg_role := assistant; content := accumulate acc c |}]))
        by now apply keeps_earlier_set_last.
      destruct finished; [exact H'|]. now apply IH.
    + now apply keeps_earlier_snoc.
  - destruct finished; [exact H|]. now apply IH.
Qed.

(** X5.  Whatever the network answers, the background task leaves every
    message but the last one of the log as it was and in its place, and
    removes none: it writes over the last message and appends notices. *)
Theorem background_task_keeps_earlier env (st : ChatUI) kind a_openai a_curl :
  keeps_earlier (messages st) (messages (run_request env kind a_openai a_curl st)).
Proof.
  pose proof (keeps_earlier_refl (messages st)) as H0.
  destruct kind; simpl.
  - unfold send_openai_request.
    pose proof (openai_loop_keeps (messages st) (chunks a_openai) [] st H0) as H.
    destruct (openai_loop (chunks a_openai) [] st) as [[full|e] st']; simpl in H.
    + destruct (raised a_openai) as [[e|e]|]; [| |destruct (negb _)];
        rewrite ?messages_add_system_message; try apply keeps_earlier_snoc; exact H.
    + rewrite messages_add_system_message. now apply keeps_earlier_snoc.
  - unfold send_curl_request.
    destruct a_curl as [[e|e]|resp];
      try (rewrite messages_add_system_message; now apply keeps_earlier_snoc).
    destruct (negb _);
      [rewrite messages_add_system_message; now apply keeps_earlier_snoc|].
    destruct (is_infini _).
    + destruct (json resp);
        try (rewrite messages_add_system_message; now apply keeps_earlier_snoc).
      destruct (set_last (messages st) _) as [msgs|e] eqn:E.
      * apply set_last_ok in E. destruct E as [Hne ->]. simpl.
        now apply keeps_earlier_set_last.
      * rewrite messages_add_system_message. now apply keeps_earlier_snoc.
    + pose proof (curl_loop_keeps env (messages st) (iter_lines resp) [] st H0) as H.
      destruct (curl_loop env (iter_lines resp) [] st) as [[full broke] st']; simpl in H.
      destruct (if broke then None else iter_raised resp) as [[e|e]|];
        [| |destruct (negb _)];
        rewrite ?messages_add_system_message; try apply keeps_earlier_snoc; exact H.
Qed.

(** ** What holds in every session that can arise *)












(** ** One tag in a text *)

Lemma tag_of_codes (p : str) : tag_of p = 123 :: 123 :: 58 :: 70 :: p ++ [125; 125].
Proof. reflexivity. Qed.

Lemma span_path_app (p rest : str) :
  ~ In CLOSE_BRACE p -> span_path (p ++ CLOSE_BRACE :: rest) = (p, CLOSE_BRACE :: rest).
Proof.
  induction p as [|c p IH]; intros Hp; simpl.
  - reflexivity.
  - destruct (c =? CLOSE_BRACE) eqn:E.
    + apply Z.eqb_eq in E. exfalso. apply Hp. now left.
    + rewrite IH; [reflexivity|]. intros H. apply Hp. now right.
Qed.

Lemma match_tag_at (p rest : str) :
  p <> [] -> ~ In CLOSE_BRACE p ->
  match_tag (tag_of p ++ rest) = Some (p, length (tag_of p)).
Proof.
  intros Hne Hp. rewrite tag_of_codes. unfold match_tag.
  change (startswith (u "{{:F") ((123 :: 123 :: 58 :: 70 :: p ++ [125; 125]) ++ rest))
    with true. cbv iota.
  change (skipn 4 ((123 :: 123 :: 58 :: 70 :: p ++ [125; 125]) ++ rest))
    with ((p ++ [125; 125]) ++ rest).
  rewrite <- app_assoc.
  change ([125; 125] ++ rest) with (CLOSE_BRACE :: 125 :: rest).
  rewrite (span_path_app p (125 :: rest) Hp).
  destruct p as [|c p]; [congruence|].
  change (truthy (c :: p) && startswith (u "}}") (CLOSE_BRACE :: 125 :: rest)) with true.
  cbv iota. f_equal. f_equal. simpl. rewrite length_app. simpl. lia.
Qed.

Lemma match_tag_no_brace (s : str) :
  match s with c :: _ => c <> 123 | [] => True end -> match_tag s = None.
Proof.
  destruct s as [|c s]; [reflexivity|]. intros Hc. unfold match_tag.
  change (startswith (u "{{:F") (c :: s)) with ((123 =? c) && startswith (u "{:F") s).
  destruct (123 =? c) eqn:E; [|reflexivity].
  apply Z.eqb_eq in E. congruence.
Qed.

Lemma findall_from_skip (k : nat) (a b : str) :
  length a = k -> findall_from k (a ++ b) = findall_from 0 b.
Proof.
  revert k. induction a as [|c a IH]; intros k Hk; simpl in *; subst k.
  - destruct b; reflexivity.
  - now apply IH.
Qed.

Lemma findall_from_plain (s : str) : ~ In 123 s -> findall_from 0 s = [].
Proof.
  induction s as [|c s IH]; intros Hs; [reflexivity|].
  change (findall_from 0 (c :: s))
    with (match match_tag (c :: s) with
          | Some (path, n) => path :: findall_from (n - 1) s
          | None => findall_from 0 s
          end).
  rewrite match_tag_no_brace.
  - apply IH. intros H. apply Hs. now right.
  - intros ->. apply Hs. now left.
Qed.

Lemma findall_one_tag (pre p post : str) :
  ~ In 123 pre -> ~ In 123 post -> p <> [] -> ~ In CLOSE_BRACE p ->
  findall_tags (pre ++ tag_of p ++ post) = [p].
Proof.
  intros Hpre Hpost Hne Hp. unfold findall_tags.
  induction pre as [|c pre IH].
  - rewrite app_nil_l.
    pose proof (match_tag_at p post Hne Hp) as Hm.
    rewrite tag_of_codes in *.
    change ((123 :: 123 :: 58 :: 70 :: p ++ [125; 125]) ++ post)
      with (123 :: (123 :: 58 :: 70 :: p ++ [125; 125]) ++ post) in *.
    change (findall_from 0 (123 :: (123 :: 58 :: 70 :: p ++ [125; 125]) ++ post))
      with (match match_tag (123 :: (123 :: 58 :: 70 :: p ++ [125; 125]) ++ post) with
            | Some (path, n) =>
              path :: findall_from (n - 1) ((123 :: 58 :: 70 :: p ++ [125; 125]) ++ post)
            | None => findall_from 0 ((123 :: 58 :: 70 :: p ++ [125; 125]) ++ post)
            end).
    rewrite Hm. f_equal.
    rewrite findall_from_skip; [now apply findall_from_plain|].
    simpl. lia.
  - change (findall_from 0 ((c :: pre) ++ tag_of p ++ post))
      with (match match_tag (c :: pre ++ tag_of p ++ post) with
            | Some (path, n) => path :: findall_from (n - 1) (pre ++ tag_of p ++ post)
            | None => findall_from 0 (pre ++ tag_of p ++ post)
            end).
    rewrite match_tag_no_brace.
    + apply IH. intros H. apply Hpre. now right.
    + intros ->. apply Hpre. now left.
Qed.

Lemma startswith_refl_app (p s : str) : startswith p (p ++ s) = true.
Proof. induction p as [|c p IH]; simpl; [reflexivity|]. now rewrite Z.eqb_refl. Qed.

Lemma replace_from_skip (old new : str) (k : nat) (a b : str) :
  length a = k -> replace_from old new k (a ++ b) = replace_from old new 0 b.
Proof.
  revert k. induction a as [|c a IH]; intros k Hk; simpl in *; subst k.
  - destruct b; reflexivity.
  - now apply IH.
Qed.

Lemma replace_from_0 (old new : str) (c : Z) (s : str) :
  replace_from old new 0 (c :: s)
  = if startswith old (c :: s)
    then new ++ replace_from old new (length old - 1) s
    else c :: replace_from old new 0 s.
Proof. reflexivity. Qed.

Lemma startswith_head_neq (o : Z) (old : str) (c : Z) (s : str) :
  o <> c -> startswith (o :: old) (c :: s) = false.
Proof. intros H. simpl. destruct (o =? c) eqn:E; [apply Z.eqb_eq in E; congruence|reflexivity]. Qed.

Lemma replace_from_pre (o : Z) (old new pre s : str) :
  ~ In o pre ->
  replace_from (o :: old) new 0 (pre ++ s) = pre ++ replace_from (o :: old) new 0 s.
Proof.
  induction pre as [|c pre IH]; intros Hpre; [reflexivity|].
  change ((c :: pre) ++ s) with (c :: pre ++ s).
  rewrite replace_from_0, startswith_head_neq.
  - simpl. f_equal. apply IH. intros H. apply Hpre. now right.
  - intros ->. apply Hpre. now left.
Qed.

Lemma replace_from_plain (o : Z) (old new s : str) :
  ~ In o s -> replace_from (o :: old) new 0 s = s.
Proof.
  intros H. rewrite <- (app_nil_r s) at 1.
  rewrite replace_from_pre by assumption. simpl. apply app_nil_r.
Qed.

Lemma replace_one_tag (pre p post new : str) :
  ~ In 123 pre -> ~ In 123 post ->
  py_replace (tag_of p) new (pre ++ tag_of p ++ post) = pre ++ new ++ post.
Proof.
  intros Hpre Hpost.
  pose proof (startswith_refl_app (tag_of p) post) as Hs.
  rewrite tag_of_codes in *.
  remember (123 :: 58 :: 70 :: p ++ [125; 125]) as t eqn:Et.
  change (py_replace (123 :: t) new (pre ++ (123 :: t) ++ post))
    with (replace_from (123 :: t) new 0 (pre ++ (123 :: t) ++ post)).
  rewrite replace_from_pre by assumption. f_equal.
  change ((123 :: t) ++ post) with (123 :: t ++ post) in *.
  rewrite replace_from_0, Hs. f_equal.
  rewrite replace_from_skip by (simpl; lia).
  now apply replace_from_plain.
Qed.

Lemma replace_file_tags_one_tag env (pre p post : str) :
  ~ In 123 pre -> ~ In 123 post ->
  p <> [] -> ~ In CLOSE_BRACE p -> py_strip p = p ->
  replace_file_tags env (pre ++ tag_of p ++ post) = pre ++ expansion env p ++ post.
Proof.
  intros Hpre Hpost Hne Hp Hstrip.
  unfold replace_file_tags. rewrite findall_one_tag by assumption.
  simpl. rewrite Hstrip. now apply replace_one_tag.
Qed.

(** X6.  A text with one file tag, written without white space around the
    path, and no other brace before or after it: the tag is found and
    replaced by what the file gives, the rest is kept. *)
Theorem one_tag_expanded env (pre p post : str) :
  ~ In 123 pre -> ~ In 123 post ->
  p <> [] -> ~ In CLOSE_BRACE p -> py_strip p = p ->
  findall_tags (pre ++ tag_of p ++ post) = [p]
  /\ replace_file_tags env (pre ++ tag_of p ++ post) = pre ++ expansion env p ++ post.
Proof.
  intros Hpre Hpost Hne Hp Hstrip. split.
  - now apply findall_one_tag.
  - now apply replace_file_tags_one_tag.
Qed.

Lemma one_tag_expanded_witness :
  findall_tags (u "and " ++ tag_of (u "notes.txt") ++ u "?") = [u "notes.txt"]
  /\ replace_file_tags quiet (u "and " ++ tag_of (u "notes.txt") ++ u "?")
     = u "and " ++ expansion quiet (u "notes.txt") ++ u "?".
Proof.
  apply (one_tag_expanded quiet (u "and ") (u "notes.txt") (u "?")).
  - apply not_in_forallb. reflexivity.
  - apply not_in_forallb. reflexivity.
  - apply str_neq. reflexivity.
  - apply not_in_forallb. reflexivity.
  - reflexivity.
Defined.

(** ** A tag with white space around the path *)

Lemma lstrip_split (s : str) :
  exists w, s = w ++ lstrip s /\ Forall (fun c => py_isspace c = true) w.
Proof.
  induction s as [|c s (w & E & Hw)]; [exists []; split; [reflexivity|constructor]|].
  simpl. destruct (py_isspace c) eqn:Hc.
  - exists (c :: w). split; [simpl; now f_equal | now constructor].
  - exists []. split; [reflexivity | constructor].
Qed.

Lemma lstrip_head (s : str) :
  match lstrip s with d :: _ => py_isspace d = false | [] => True end.
Proof.
  induction s as [|c s IH]; [exact I|].
  simpl. destruct (py_isspace c) eqn:Hc; [exact IH | exact Hc].
Qed.

Lemma py_strip_split (s : str) :
  exists w1 w2, s = w1 ++ py_strip s ++ w2
                /\ Forall (fun c => py_isspace c = true) w1
                /\ Forall (fun c => py_isspace c = true) w2
                /\ match py_strip s with
                   | d :: _ => py_isspace d = false
                   | [] => True
                   end.
Proof.
  destruct (lstrip_split s) as (w1 & E1 & H1).
  destruct (lstrip_split (rev (lstrip s))) as (w2 & E2 & H2).
  exists w1, (rev w2). unfold py_strip.
  apply (f_equal (@rev Z)) in E2. rewrite rev_involutive, rev_app_distr in E2.
  split; [|split; [|split]].
  - rewrite <- E2. exact E1.
  - exact H1.
  - now apply Forall_rev.
  - pose proof (lstrip_head s) as Hh.
    rewrite E2 in Hh.
    destruct (rev (lstrip (rev (lstrip s)))) as [|d r]; [exact I | exact Hh].
Qed.

Lemma py_strip_nonblank (s : str) (c : Z) :
  In c s -> py_isspace c = false -> truthy (py_strip s) = true.
Proof.
  intros Hin Hc.
  destruct (py_strip_split s) as (w1 & w2 & E & H1 & H2 & _).
  destruct (py_strip s); [|reflexivity]. exfalso.
  rewrite E in Hin. simpl in Hin. apply in_app_or in Hin.
  rewrite Forall_forall in H1, H2.
  destruct Hin as [Hin|Hin]; [apply H1 in Hin | apply H2 in Hin]; congruence.
Qed.

Lemma startswith_app_same (p a b : str) : startswith (p ++ a) (p ++ b) = startswith a b.
Proof. induction p as [|c p IH]; simpl; [reflexivity|]. now rewrite Z.eqb_refl. Qed.

Lemma padded_tag_absent (p post : str) :
  ~ In CLOSE_BRACE p -> py_strip p <> p ->
  startswith (py_strip p ++ [125; 125]) (p ++ [125; 125] ++ post) = false.
Proof.
  intros Hp Hpad.
  destruct (py_strip_split p) as (w1 & w2 & E & H1 & _ & Hd).
  remember (py_strip p) as sp eqn:Esp. clear Esp.
  destruct w1 as [|c w1].
  - destruct w2 as [|c w2]; [rewrite app_nil_r in E; simpl in E; congruence|].
    rewrite E at 1. simpl app at 2. rewrite <- !app_assoc.
    rewrite startswith_app_same.
    apply (startswith_head_neq 125 [125] c).
    intros Ec. apply Hp. rewrite E. simpl.
    apply in_or_app. right. left. now symmetry.
  - inversion H1 as [|? ? Hc _]. subst.
    destruct sp as [|d sp].
    + apply (startswith_head_neq 125 [125] c). intros <-. discriminate Hc.
    + apply (startswith_head_neq d (sp ++ [125; 125]) c). congruence.
Qed.

(** X7.  A tag whose path has white space before or after it is found, and
    never replaced: the text comes back as it was, whatever the file
    holds. *)
Theorem padded_tag_never_expanded env (pre p post : str) :
  ~ In 123 pre -> ~ In 123 post ->
  ~ In 123 p -> ~ In CLOSE_BRACE p -> p <> [] ->
  py_strip p <> p ->
  findall_tags (pre ++ tag_of p ++ post) = [p]
  /\ replace_file_tags env (pre ++ tag_of p ++ post) = pre ++ tag_of p ++ post.
Proof.
  intros Hpre Hpost Hp123 Hp Hne Hpad.
  pose proof (findall_one_tag pre p post Hpre Hpost Hne Hp) as Hfind.
  split; [exact Hfind|].
  unfold replace_file_tags. rewrite Hfind. simpl fold_left.
  pose proof (padded_tag_absent p post Hp Hpad) as Habs.
  rewrite !tag_of_codes.
  remember (123 :: 58 :: 70 :: py_strip p ++ [125; 125]) as t eqn:Et.
  change (py_replace (123 :: t) (expansion env (py_strip p))
                     (pre ++ (123 :: 123 :: 58 :: 70 :: p ++ [125; 125]) ++ post))
    with (replace_from (123 :: t) (expansion env (py_strip p)) 0
                       (pre ++ (123 :: 123 :: 58 :: 70 :: p ++ [125; 125]) ++ post)).
  rewrite replace_from_pre by assumption. f_equal.
  change ((123 :: 123 :: 58 :: 70 :: p ++ [125; 125]) ++ post)
    with (123 :: 123 :: 58 :: 70 :: (p ++ [125; 125]) ++ post).
  rewrite replace_from_0.
  change (u "}}") with [125; 125].
  assert (H1 : startswith (123 :: t) (123 :: 123 :: 58 :: 70 :: (p ++ [125; 125]) ++ post)
               = false).
  { subst t.
    change (startswith (123 :: 123 :: 58 :: 70 :: py_strip p ++ [125; 125])
                       (123 :: 123 :: 58 :: 70 :: (p ++ [125; 125]) ++ post))
      with (startswith (py_strip p ++ [125; 125]) ((p ++ [125; 125]) ++ post)).
    rewrite <- app_assoc. exact Habs. }
  rewrite H1. f_equal.
  rewrite replace_from_0.
  assert (H2 : startswith (123 :: t) (123 :: 58 :: 70 :: (p ++ [125; 125]) ++ post) = false)
    by (subst t; reflexivity).
  rewrite H2. f_equal.
  apply replace_from_plain.
  intros [H|[H|H]]; try discriminate H.
  rewrite <- app_assoc in H. apply in_app_or in H. destruct H as [H|H]; [tauto|].
  destruct H as [H|[H|H]]; try discriminate H. tauto.
Qed.

Lemma padded_tag_never_expanded_witness :
  findall_tags (u "see " ++ tag_of (u " notes.txt") ++ u "!") = [u " notes.txt"]
  /\ replace_file_tags quiet (u "see " ++ tag_of (u " notes.txt") ++ u "!")
     = u "see " ++ tag_of (u " notes.txt") ++ u "!".
Proof.
  apply (padded_tag_never_expanded quiet (u "see ") (u " notes.txt") (u "!")).
  - apply not_in_forallb. reflexivity.
  - apply not_in_forallb. reflexivity.
  - apply not_in_forallb. reflexivity.
  - apply not_in_forallb. reflexivity.
  - apply str_neq. reflexivity.
  - apply str_neq. reflexivity.
Defined.

(** ** Leaving the session *)

(** X3.  A key ends the main loop exactly when it is Escape typed outside
    command mode; the session is then left as it was.  In command mode
    nothing does, not even the command [exit]: its flag is dropped. *)
Theorem exits_only_on_escape env key st b st' :
  process_input env key st = Ok (b, st') ->
  (b = true <-> command_mode st = false /\ key = 27)
  /\ (b = true -> st' = st).
Proof.
  intros H.
  unfold process_input, process_command_input, send_message in H.
  rewrite input_decode_run, command_decode_run in H. unfold rbind in H.
  change (handle_command env (u "exit") st) with (@Ok (bool * ChatUI) (true, st)) in H.
  crush_branches.
  all: match goal with
       | |- (true = true <-> _) /\ _ =>
         split; [split; [intros _; split; [reflexivity | now apply Z.eqb_eq]
                        | reflexivity]
                | reflexivity]
       | |- (false = true <-> _) /\ _ =>
         split; [split; [discriminate|] | discriminate];
         intros [Hm Hk]; try discriminate Hm; subst key;
         match goal with
         | Hx : _ = true |- _ => now vm_compute in Hx
         | Hx : _ = false |- _ => now vm_compute in Hx
         end
       end.
Qed.

Lemma exits_only_on_escape_witness :
  process_input quiet 27 fresh = Ok (true, fresh)
  /\ (true = true <-> command_mode fresh = false /\ 27 = 27)
  /\ (true = true -> fresh = fresh).
Proof.
  split; [reflexivity|].
  apply (exits_only_on_escape quiet 27 fresh true fresh). reflexivity.
Defined.

(** ** A file picked in command mode *)

Lemma truthy_app_r {A} (a b : list A) : b <> [] -> truthy (a ++ b) = true.
Proof. intros Hb. destruct a; [destruct b; [congruence|reflexivity] | reflexivity]. Qed.

Lemma truthy_nonempty {A} (a : list A) : a <> [] -> truthy a = true.
Proof. destruct a; [congruence | reflexivity]. Qed.

Lemma file_command_run env (st : ChatUI) (command path : str) :
  startswith (u "f") command = true ->
  select_file_tui env (u ".") = Some path -> path <> [] ->
  exists st',
    handle_command env command st = Ok (false, st')
    /\ saved_input st'
       = (if truthy (saved_input st) then saved_input st ++ u " " ++ tag_of path
          else tag_of path)
    /\ saved_cursor_pos st' = py_len (saved_input st')
    /\ file_placeholders st' = dict_set (file_placeholders st) (tag_of path) path
    /\ messages st' = messages st
    /\ input_history st' = input_history st
    /\ spawned st' = spawned st
    /\ current_config st' = current_config st.
Proof.
  intros Hf Hsel Hpath. unfold handle_command.
  rewrite Hf, Bool.orb_true_r, Hsel, (truthy_nonempty path Hpath).
  eexists. split; [reflexivity|].
  destruct (truthy (saved_input st)); simpl; repeat split; reflexivity.
Qed.

(** X8.  Enter on a command that starts with [f], the chooser giving a path:
    the tag of the path is put after the text set aside, whatever the
    cursor was, after a blank when there was text; the cursor goes behind
    it, the table maps the tag to the path and the session is back in the
    main input with that text. *)
Theorem picked_file_tag_appended env key st path :
  command_mode st = true -> is_enter key = true ->
  startswith (u "f") (command_input st) = true ->
  select_file_tui env (u ".") = Some path -> path <> [] ->
  exists st',
    process_input env key st = Ok (false, st')
    /\ command_mode st' = false
    /\ current_input st'
       = (if truthy (saved_input st) then saved_input st ++ u " " ++ tag_of path
          else tag_of path)
    /\ cursor_pos st' = py_len (current_input st')
    /\ dict_get (file_placeholders st') (tag_of path) = Some path
    /\ messages st' = messages st.
Proof.
  intros Hmode Hkey Hf Hsel Hpath.
  destruct (file_command_run env st (command_input st) path Hf Hsel Hpath)
    as (st1 & Hrun & Hin & Hcur & Htab & Hmsg & _).
  unfold process_input. rewrite Hmode. unfold process_command_input. rewrite Hkey, Hrun.
  eexists. split; [reflexivity|]. simpl.
  repeat split; try assumption.
  rewrite Htab. apply dict_get_set.
Qed.

Lemma picked_file_tag_appended_witness :
  exists st',
    process_input picking 10 commanding = Ok (false, st')
    /\ command_mode st' = false
    /\ current_input st'
       = (if truthy (saved_input commanding)
          then saved_input commanding ++ u " " ++ tag_of (u "/tmp/notes.txt")
          else tag_of (u "/tmp/notes.txt"))
    /\ cursor_pos st' = py_len (current_input st')
    /\ dict_get (file_placeholders st') (tag_of (u "/tmp/notes.txt"))
       = Some (u "/tmp/notes.txt")
    /\ messages st' = messages commanding.
Proof.
  apply (picked_file_tag_appended picking 10 commanding (u "/tmp/notes.txt")).
  - reflexivity.
  - reflexivity.
  - reflexivity.
  - reflexivity.
  - apply str_neq. reflexivity.
Defined.

(** ** What is handed to the client *)

Lemma build_messages_to_send_snoc env (log : list Message) (text : str) :
  exists earlier,
    build_messages_to_send env (log ++ [{| msg_role := user; content := text |}])
    = earlier ++ [{| msg_role := user; content := replace_file_tags env text |}].
Proof.
  unfold build_messages_to_send. rewrite fold_left_app. simpl.
  unfold window_step at 1. simpl.
  destruct (py_len _ <? 10); eexists; reflexivity.
Qed.

Lemma replace_file_tags_plain env (s : str) : ~ In 123 s -> replace_file_tags env s = s.
Proof.
  intros H. unfold replace_file_tags, findall_tags.
  now rewrite findall_from_plain.
Qed.

Lemma send_message_run env (st : ChatUI) :
  truthy (py_strip (current_input st)) = true ->
  exists earlier st',
    send_message env st = (false, st')
    /\ spawned st'
       = spawned st
         ++ [(request_type (current_config st),
              earlier ++ [{| msg_role := user;
                             content := replace_file_tags env (current_input st) |}])]
    /\ messages st'
       = messages st ++ [{| msg_role := user; content := current_input st |};
                         {| msg_role := assistant; content := THINKING |}]
    /\ current_input st' = [] /\ cursor_pos st' = 0
    /\ input_history st' = current_input st :: input_history st
    /\ history_index st' = -1
    /\ command_mode st' = command_mode st.
Proof.
  intros Hgiven.
  destruct (build_messages_to_send_snoc env (messages st) (current_input st))
    as (earlier & Hb).
  exists earlier. eexists. unfold send_message. rewrite Hgiven.
  split; [reflexivity|]. simpl. rewrite Hb, <- app_assoc.
  repeat split; reflexivity.
Qed.

(** X9.  The text submitted is stored and handed to the client whole: it is
    the last message of the list handed over, user texts with their tags
    expanded, and is cut nowhere, whatever its length and whatever the
    table of placeholders holds; a text without a brace is handed over as
    typed. *)
Theorem submitted_text_sent_whole env (st : ChatUI) :
  truthy (py_strip (current_input st)) = true ->
  exists earlier,
    spawned (snd (send_message env st))
    = spawned st
      ++ [(request_type (current_config st),
           earlier ++ [{| msg_role := user;
                          content := replace_file_tags env (current_input st) |}])]
    /\ messages (snd (send_message env st))
       = messages st ++ [{| msg_role := user; content := current_input st |};
                         {| msg_role := assistant; content := THINKING |}]
    /\ (~ In 123 (current_input st) ->
        replace_file_tags env (current_input st) = current_input st).
Proof.
  intros Hgiven.
  destruct (send_message_run env st Hgiven) as (earlier & st' & Hrun & Hsp & Hmsg & _).
  exists earlier. rewrite Hrun. simpl.
  split; [exact Hsp|]. split; [exact Hmsg|]. apply replace_file_tags_plain.
Qed.

Lemma submitted_text_sent_whole_witness :
  exists earlier,
    spawned (snd (send_message quiet long_text))
    = spawned long_text
      ++ [(request_type (current_config long_text),
           earlier ++ [{| msg_role := user;
                          content := replace_file_tags quiet (current_input long_text) |}])]
    /\ messages (snd (send_message quiet long_text))
       = messages long_text
         ++ [{| msg_role := user; content := current_input long_text |};
             {| msg_role := assistant; content := THINKING |}]
    /\ (~ In 123 (current_input long_text) ->
        replace_file_tags quiet (current_input long_text) = current_input long_text).
Proof.
  apply (submitted_text_sent_whole quiet long_text). vm_compute. reflexivity.
Defined.

(** X10.  A file picked, then Enter in the main input: the client is handed
    the text typed before, a blank and what the file gives, when the path
    has no white space around it and no brace is in the text or the
    path. *)
Theorem picked_file_sent_expanded env key key' st path :
  command_mode st = true -> is_enter key = true -> is_enter key' = true ->
  startswith (u "f") (command_input st) = true ->
  select_file_tui env (u ".") = Some path ->
  path <> [] -> ~ In CLOSE_BRACE path -> py_strip path = path ->
  saved_input st <> [] -> ~ In 123 (saved_input st) ->
  exists st1 st2 earlier,
    process_input env key st = Ok (false, st1)
    /\ process_input env key' st1 = Ok (false, st2)
    /\ spawned st2
       = spawned st
         ++ [(request_type (current_config st),
              earlier ++ [{| msg_role := user;
                             content := saved_input st ++ u " " ++ expansion env path |}])]
    /\ messages st2
       = messages st
         ++ [{| msg_role := user; content := saved_input st ++ u " " ++ tag_of path |};
             {| msg_role := assistant; content := THINKING |}].
Proof.
  intros Hmode Hkey Hkey' Hf Hsel Hpath Hbrace Hstrip Hsaved Hplain.
  destruct (file_command_run env st (command_input st) path Hf Hsel Hpath)
    as (st0 & Hrun & Hin & Hcur & Htab & Hmsg & Hhist & Hsp & Hcfg).
  rewrite (truthy_nonempty _ Hsaved) in Hin.
  remember (exit_command_mode true st0) as st1 eqn:E1.
  assert (Hin1 : current_input st1 = saved_input st ++ u " " ++ tag_of path)
    by (subst st1; exact Hin).
  assert (Hgiven : truthy (py_strip (current_input st1)) = true).
  { apply (py_strip_nonblank _ 123); [|reflexivity].
    rewrite Hin1, tag_of_codes. apply in_or_app. right. right. now left. }
  destruct (send_message_run env st1 Hgiven)
    as (earlier & st2 & Hsend & Hsp2 & Hmsg2 & _).
  exists st1, st2, earlier.
  split; [|split; [|split]].
  - unfold process_input. rewrite Hmode. unfold process_command_input.
    rewrite Hkey, Hrun. subst st1. reflexivity.
  - unfold process_input.
    assert (Hm1 : command_mode st1 = false) by (subst st1; reflexivity).
    rewrite Hm1, Hkey', Hsend. reflexivity.
  - rewrite Hsp2, Hin1.
    assert (Hsp1 : spawned st1 = spawned st) by (subst st1; exact Hsp).
    assert (Hcfg1 : current_config st1 = current_config st) by (subst st1; exact Hcfg).
    rewrite Hsp1, Hcfg1. do 5 f_equal.
    rewrite (app_assoc (saved_input st) (u " ") (tag_of path)).
    rewrite <- (app_nil_r (tag_of path)).
    rewrite replace_file_tags_one_tag; try assumption.
    + now rewrite app_nil_r, <- app_assoc.
    + intros H; apply in_app_or in H; destruct H as [H|[H|[]]];
        [now apply Hplain | discriminate H].
    + intros [].
  - rewrite Hmsg2, Hin1.
    assert (Hmsg1 : messages st1 = messages st) by (subst st1; exact Hmsg).
    now rewrite Hmsg1.
Qed.

Lemma picked_file_sent_expanded_witness :
  exists st1 st2 earlier,
    process_input picking 10 commanding = Ok (false, st1)
    /\ process_input picking 10 st1 = Ok (false, st2)
    /\ spawned st2
       = spawned commanding
         ++ [(request_type (current_config commanding),
              earlier ++ [{| msg_role := user;
                             content := saved_input commanding ++ u " "
                                        ++ expansion picking (u "/tmp/notes.txt") |}])]
    /\ messages st2
       = messages commanding
         ++ [{| msg_role := user;
                content := saved_input commanding ++ u " "
                           ++ tag_of (u "/tmp/notes.txt") |};
             {| msg_role := assistant; content := THINKING |}].
Proof.
  apply (picked_file_sent_expanded picking 10 10 commanding (u "/tmp/notes.txt")).
  - reflexivity.
  - reflexivity.
  - reflexivity.
  - reflexivity.
  - reflexivity.
  - apply str_neq. reflexivity.
  - apply not_in_forallb. reflexivity.
  - reflexivity.
  - apply str_neq. reflexivity.
  - apply not_in_forallb. reflexivity.
Defined.

(** ** Recalling what was submitted *)

Lemma recall_up_down env (st : ChatUI) (h : str) (rest : list str) :
  command_mode st = false ->
  input_history st = h :: rest -> history_index st = -1 ->
  exists st1 st2,
    process_input env KEY_UP st = Ok (false, st1)
    /\ current_input st1 = h /\ cursor_pos st1 = py_len h /\ history_index st1 = 0
    /\ process_input env KEY_DOWN st1 = Ok (false, st2)
    /\ current_input st2 = [] /\ cursor_pos st2 = 0 /\ history_index st2 = -1
    /\ input_history st2 = h :: rest.
Proof.
  intros Hmode Hh Hi.
  assert (Hlen : (-1 <? py_len (h :: rest) - 1) = true).
  { apply Z.ltb_lt. unfold py_len. simpl length. lia. }
  eexists. eexists.
  split; [|split; [|split; [|split; [|split]]]].
  - unfold process_input. rewrite Hmode.
    change (is_enter KEY_UP) with false. change (KEY_UP =? 12) with false.
    change (KEY_UP =? KEY_UP) with true. cbv iota.
    rewrite Hh, Hi, Hlen. simpl. rewrite Hh. reflexivity.
  - reflexivity.
  - reflexivity.
  - reflexivity.
  - unfold process_input. simpl. rewrite Hmode, Hh. reflexivity.
  - simpl. repeat split. exact Hh.
Qed.

(** X11.  With nothing recalled yet, the up arrow shows the newest entry of the
    history with the cursor behind it, and the down arrow then empties the
    input: the text that was being typed does not come back. *)
Theorem recall_drops_draft env (st : ChatUI) (h : str) (rest : list str) :
  command_mode st = false ->
  input_history st = h :: rest -> history_index st = -1 ->
  exists st1 st2,
    process_input env KEY_UP st = Ok (false, st1)
    /\ current_input st1 = h /\ cursor_pos st1 = py_len h /\ history_index st1 = 0
    /\ process_input env KEY_DOWN st1 = Ok (false, st2)
    /\ current_input st2 = [] /\ cursor_pos st2 = 0 /\ history_index st2 = -1.
Proof.
  intros Hmode Hh Hi.
  destruct (recall_up_down env st h rest Hmode Hh Hi)
    as (st1 & st2 & H1 & H2 & H3 & H4 & H5 & H6 & H7 & H8 & _).
  exists st1, st2. repeat split; assumption.
Qed.

Lemma recall_drops_draft_witness :
  exists st1 st2,
    process_input quiet KEY_UP drafting = Ok (false, st1)
    /\ current_input st1 = u "old" /\ cursor_pos st1 = py_len (u "old")
    /\ history_index st1 = 0
    /\ process_input quiet KEY_DOWN st1 = Ok (false, st2)
    /\ current_input st2 = [] /\ cursor_pos st2 = 0 /\ history_index st2 = -1.
Proof.
  apply (recall_drops_draft quiet drafting (u "old") []); reflexivity.
Defined.

(** X12.  Enter on a text that is not blank, then the up arrow: the input holds
    the text submitted again, the cursor behind it. *)
Theorem submitted_text_recalled env key (st : ChatUI) :
  command_mode st = false -> is_enter key = true ->
  truthy (py_strip (current_input st)) = true ->
  exists st1 st2,
    process_input env key st = Ok (false, st1)
    /\ current_input st1 = []
    /\ process_input env KEY_UP st1 = Ok (false, st2)
    /\ current_input st2 = current_input st
    /\ cursor_pos st2 = py_len (current_input st)
    /\ input_history st2 = current_input st :: input_history st.
Proof.
  intros Hmode Hkey Hgiven.
  destruct (send_message_run env st Hgiven)
    as (earlier & st1 & Hsend & _ & _ & Hin & _ & Hh & Hi & Hm).
  rewrite Hmode in Hm.
  destruct (recall_up_down env st1 _ _ Hm Hh Hi)
    as (st2 & st3 & H1 & H2 & H3 & H4 & _).
  exists st1, st2.
  split; [unfold process_input; rewrite Hmode, Hkey, Hsend; reflexivity|].
  split; [exact Hin|]. split; [exact H1|]. split; [exact H2|]. split; [exact H3|].
  unfold process_input in H1. rewrite Hm in H1.
  change (is_enter KEY_UP) with false in H1. change (KEY_UP =? 12) with false in H1.
  change (KEY_UP =? KEY_UP) with true in H1. cbv iota in H1.
  unfold rbind in H1. crush_branches; simpl; assumption.
Qed.

Lemma submitted_text_recalled_witness :
  exists st1 st2,
    process_input quiet 10 typing = Ok (false, st1)
    /\ current_input st1 = []
    /\ process_input quiet KEY_UP st1 = Ok (false, st2)
    /\ current_input st2 = current_input typing
    /\ cursor_pos st2 = py_len (current_input typing)
    /\ input_history st2 = current_input typing :: input_history typing.
Proof.
  apply (submitted_text_recalled quiet 10 typing); reflexivity.
Defined.

(** ** Start-up *)

Lemma lstrip_all_space (w : str) :
  Forall (fun c => py_isspace c = true) w -> forall s, lstrip (w ++ s) = lstrip s.
Proof.
  induction 1 as [|c w Hc _ IH]; intros s; [reflexivity|].
  simpl. now rewrite Hc.
Qed.

Lemma lstrip_fixed (s : str) :
  match s with c :: _ => py_isspace c = false | [] => True end -> lstrip s = s.
Proof. destruct s as [|c s]; [reflexivity|]. simpl. now intros ->. Qed.

Lemma py_strip_fixed_ends (s : str) :
  py_strip s = s ->
  match s with c :: _ => py_isspace c = false | [] => True end
  /\ match rev s with c :: _ => py_isspace c = false | [] => True end.
Proof.
  intros H. split.
  - destruct (py_strip_split s) as (_ & _ & _ & _ & _ & Hd). now rewrite H in Hd.
  - unfold py_strip in H. apply (f_equal (@rev Z)) in H. rewrite rev_involutive in H.
    pose proof (lstrip_head (rev (lstrip s))) as Hh. rewrite H in Hh. exact Hh.
Qed.

Lemma py_strip_padded (w1 s w2 : str) :
  py_strip s = s ->
  Forall (fun c => py_isspace c = true) w1 ->
  Forall (fun c => py_isspace c = true) w2 ->
  py_strip (w1 ++ s ++ w2) = s.
Proof.
  intros Hs H1 H2. destruct (py_strip_fixed_ends s Hs) as [Hhead Hlast].
  unfold py_strip. rewrite lstrip_all_space by assumption.
  destruct s as [|c s].
  - simpl. rewrite <- (app_nil_r w2), lstrip_all_space by assumption. reflexivity.
  - rewrite (lstrip_fixed ((c :: s) ++ w2)) by exact Hhead.
    rewrite rev_app_distr, lstrip_all_space by now apply Forall_rev.
    rewrite lstrip_fixed by exact Hlast. apply rev_involutive.
Qed.

Lemma contains_tail (sub : str) (c : Z) (s : str) :
  contains sub (c :: s) = false -> contains sub s = false.
Proof. simpl. intros H. apply Bool.orb_false_iff in H. tauto. Qed.

Lemma split_colons_field (k : nat) (a cur rest : str) :
  field_ok a ->
  split_colons (S k) cur (a ++ u "::" ++ rest) = (rev cur ++ a) :: split_colons k [] rest.
Proof.
  unfold field_ok. revert cur. induction a as [|c a IH]; intros cur Hok.
  - rewrite app_nil_r. reflexivity.
  - change ((c :: a) ++ u "::" ++ rest) with (c :: (a ++ u "::" ++ rest)).
    assert (Hstep : split_colons (S k) cur (c :: (a ++ u "::" ++ rest))
                    = split_colons (S k) (c :: cur) (a ++ u "::" ++ rest)).
    { destruct a as [|d a].
      - change (split_colons (S k) cur (c :: ([] ++ u "::" ++ rest)))
          with (if (c =? 58) && (58 =? 58)
                then rev cur :: split_colons k [] (58 :: rest)
                else split_colons (S k) (c :: cur) ([] ++ u "::" ++ rest)).
        destruct (c =? 58) eqn:E; [|reflexivity].
        apply Z.eqb_eq in E. subst c. discriminate Hok.
      - change (split_colons (S k) cur (c :: ((d :: a) ++ u "::" ++ rest)))
          with (if (c =? 58) && (d =? 58)
                then rev cur :: split_colons k [] (a ++ u "::" ++ rest)
                else split_colons (S k) (c :: cur) ((d :: a) ++ u "::" ++ rest)).
        destruct ((c =? 58) && (d =? 58)) eqn:E; [|reflexivity].
        apply Bool.andb_true_iff in E. destruct E as [E1 E2].
        apply Z.eqb_eq in E1, E2. subst c d. discriminate Hok. }
    rewrite Hstep, IH.
    + simpl rev. now rewrite <- app_assoc.
    + change ((c :: a) ++ u ":") with (c :: (a ++ u ":")) in Hok.
      now apply contains_tail in Hok.
Qed.

Lemma split_colons_last (k : nat) (d cur : str) :
  contains (u "::") d = false -> split_colons k cur d = [rev cur ++ d].
Proof.
  revert cur. induction d as [|c d IH]; intros cur Hok.
  - simpl. now rewrite app_nil_r.
  - assert (Hstep : split_colons k cur (c :: d) = split_colons k (c :: cur) d).
    { destruct k as [|k]; [reflexivity|]. destruct d as [|e d]; [reflexivity|].
      change (split_colons (S k) cur (c :: e :: d))
        with (if (c =? 58) && (e =? 58)
              then rev cur :: split_colons k [] d
              else split_colons (S k) (c :: cur) (e :: d)).
      destruct ((c =? 58) && (e =? 58)) eqn:E; [|reflexivity].
      apply Bool.andb_true_iff in E. destruct E as [E1 E2].
      apply Z.eqb_eq in E1, E2. subst c e. discriminate Hok. }
    rewrite Hstep, IH by now apply contains_tail in Hok.
    simpl rev. now rewrite <- app_assoc.
Qed.

(** X13.  A line of four fields separated by [::], with white space (the end
    of the line) around it: the profile has the four fields, each without
    the white space at its ends, the request type [openai], no headers and
    no Infini format. *)
Theorem four_fields_give_profile py_lower parse_headers (w1 a b c d w2 : str) :
  let line := a ++ u "::" ++ b ++ u "::" ++ c ++ u "::" ++ d in
  field_ok a -> field_ok b -> field_ok c -> contains (u "::") d = false ->
  py_strip line = line -> startswith (u "#") line = false ->
  Forall (fun x => py_isspace x = true) w1 ->
  Forall (fun x => py_isspace x = true) w2 ->
  config_of_line py_lower parse_headers (w1 ++ line ++ w2)
  = Some {| name := py_strip a; api_base := py_strip b; api_key := py_strip c;
            model := py_strip d; request_type := openai; headers := [];
            is_infini := false |}.
Proof.
  intros line Ha Hb Hc Hd Hstrip Hhash H1 H2.
  unfold config_of_line. rewrite (py_strip_padded w1 line w2 Hstrip H1 H2), Hhash.
  assert (Hne : truthy line = true).
  { unfold line. destruct a; reflexivity. }
  rewrite Hne. cbv beta iota. simpl negb. simpl orb. cbv iota.
  assert (Hparts : split_colons 6 [] line = [a; b; c; d]).
  { unfold line.
    rewrite (split_colons_field 5 a [] _ Ha).
    rewrite (split_colons_field 4 b [] _ Hb).
    rewrite (split_colons_field 3 c [] _ Hc).
    rewrite (split_colons_last 3 d [] Hd). reflexivity. }
  rewrite Hparts. reflexivity.
Qed.

Lemma four_fields_give_profile_witness :
  config_of_line ascii_lower no_headers
    (u " " ++ (u "OpenRouter" ++ u "::" ++ u " https://openrouter.ai/api/v1 " ++ u "::"
               ++ u "API-KEY" ++ u "::" ++ u "deepseek/deepseek-r1:free") ++ [NL])
  = Some {| name := py_strip (u "OpenRouter");
            api_base := py_strip (u " https://openrouter.ai/api/v1 ");
            api_key := py_strip (u "API-KEY");
            model := py_strip (u "deepseek/deepseek-r1:free");
            request_type := openai; headers := []; is_infini := false |}.
Proof.
  apply (four_fields_give_profile ascii_lower no_headers (u " ") (u "OpenRouter")
           (u " https://openrouter.ai/api/v1 ") (u "API-KEY")
           (u "deepseek/deepseek-r1:free") [NL]).
  - reflexivity.
  - reflexivity.
  - reflexivity.
  - reflexivity.
  - reflexivity.
  - reflexivity.
  - apply all_space_forallb. reflexivity.
  - apply all_space_forallb. reflexivity.
Defined.

Lemma py_getitem_0 {A} (l : list A) :
  py_getitem l 0 = match l with x :: _ => Ok x | [] => Raise IndexError end.
Proof. destruct l; reflexivity. Qed.

Lemma selected_config_run py_lower (configs : list ChatConfig) arg_provider arg_model :
  match selected_config py_lower configs arg_provider arg_model with
  | Ok selected =>
    In selected configs
    /\ ((exists first rest, configs = first :: rest /\ selected = first
         /\ forall config, In config configs ->
              given arg_provider || given arg_model = true ->
              arg_allows py_lower arg_provider (name config)
              && arg_allows py_lower arg_model (model config) = false)
        \/ (given arg_provider || given arg_model = true
            /\ arg_allows py_lower arg_provider (name selected) = true
            /\ arg_allows py_lower arg_model (model selected) = true))
  | Raise e => e = IndexError /\ configs = []
  end.
Proof.
  unfold selected_config.
  destruct (given arg_provider || given arg_model) eqn:Hargs.
  - destruct (find _ configs) as [config|] eqn:Hfind.
    + apply find_some in Hfind. destruct Hfind as [Hin Hok].
      apply Bool.andb_true_iff in Hok. split; [exact Hin|]. right. tauto.
    + rewrite py_getitem_0. destruct configs as [|first rest]; [now split|].
      split; [now left|]. left. exists first, rest.
      split; [reflexivity|]. split; [reflexivity|].
      intros config Hin _. exact (find_none _ _ Hfind config Hin).
  - rewrite py_getitem_0. destruct configs as [|first rest]; [now split|].
    split; [now left|]. left. exists first, rest.
    split; [reflexivity|]. split; [reflexivity|]. intros config _ H. discriminate H.
Qed.

Lemma main_run py_lower parse_headers (lines : list str) arg_provider arg_model :
  main py_lower parse_headers (Some (Some lines)) arg_provider arg_model
  = match selected_config py_lower (profiles py_lower parse_headers lines)
                          arg_provider arg_model with
    | Ok selected =>
      Fine (init_ChatUI (selected :: profiles py_lower parse_headers lines) selected)
    | Raise e => Failed (Builtin e)
    end.
Proof.
  unfold main, load_configurations. fold (profiles py_lower parse_headers lines).
  destruct (selected_config _ _ _ _); reflexivity.
Qed.


Lemma default_lines_no_profile py_lower parse_headers :
  profiles py_lower parse_headers DEFAULT_CONFIG_LINES = [].
Proof. vm_compute. reflexivity. Qed.

(** X15.  When there is no configuration file, the program writes one that
    holds comments only, reads it back, finds no profile in it and ends
    with [IndexError], whatever the command line asks for. *)
Theorem first_run_fails py_lower parse_headers arg_provider arg_model :
  main py_lower parse_headers None arg_provider arg_model = Failed (Builtin IndexError).
Proof.
  change (main py_lower parse_headers None arg_provider arg_model)
    with (main py_lower parse_headers (Some (Some DEFAULT_CONFIG_LINES))
               arg_provider arg_model).
  rewrite main_run, default_lines_no_profile.
  pose proof (selected_config_run py_lower [] arg_provider arg_model) as H.
  destruct (selected_config py_lower [] arg_provider arg_model) as [selected|e].
  - destruct H as [[] _].
  - destruct H as [-> _]. reflexivity.
Qed.

(** ** The choosers *)

Lemma py_getitem_inside {A} (l : list A) (i : Z) :
  0 <= i < py_len l -> exists a, py_getitem l i = Ok a /\ In a l.
Proof.
  intros Hi. destruct (py_getitem_in_range l i Hi) as (a & Hget & Hnth).
  exists a. split; [exact Hget|]. eapply nth_error_In; eassumption.
Qed.

Lemma py_getitem_nil {A} (i : Z) : 0 <= i -> py_getitem (@nil A) i = Raise IndexError.
Proof.
  intros Hi. unfold py_getitem.
  destruct (Z.ltb_spec i 0); [lia|]. destruct (Z.ltb_spec i 0); [lia|].
  now destruct (Z.to_nat i).
Qed.

Lemma provider_loop_outcome (configs : list ChatConfig) (events : list (Z * Z))
      (sel off : Z) :
  index_ok configs sel ->
  match Tui.provider_loop configs events sel off with
  | Returns (Some config) => In config configs
  | Returns None => True
  | Raises e => e = Builtin IndexError /\ configs = []
  | Waits s => index_ok configs (Tui.selected_index s)
  end.
Proof.
  revert sel off. induction events as [|[height key] events IH]; intros sel off Hsel.
  - exact Hsel.
  - simpl.
    destruct ((key =? KEY_UP) && (sel >? 0)) eqn:Hup.
    { apply IH. apply Bool.andb_true_iff in Hup. destruct Hup as [_ Hpos].
      apply Z.gtb_lt in Hpos. destruct Hsel as [H0 [Hlt|[_ ->]]]; [|lia].
      split; [lia|]. left. lia. }
    destruct ((key =? KEY_DOWN) && (sel <? py_len configs - 1)) eqn:Hdown.
    { apply IH. apply Bool.andb_true_iff in Hdown. destruct Hdown as [_ Hlt].
      apply Z.ltb_lt in Hlt. destruct Hsel as [H0 _]. split; [lia|]. left. lia. }
    destruct (key =? 10).
    { destruct Hsel as [H0 [Hlt|[-> ->]]].
      - destruct (py_getitem_inside configs sel (conj H0 Hlt)) as (a & -> & Hin). exact Hin.
      - rewrite py_getitem_nil by lia. now split. }
    destruct (key =? 27); [exact I|].
    now apply IH.
Qed.

(** X16.  Whatever is typed, the profile the chooser of providers returns is
    one of the list it was given; it raises only on Enter when the list
    is empty, and then [IndexError]. *)
Theorem provider_choice_from_list (configs : list ChatConfig) (events : list (Z * Z)) :
  match Tui.select_provider_tui configs events with
  | Returns (Some config) => In config configs
  | Returns None => True
  | Raises e => e = Builtin IndexError /\ configs = []
  | Waits s => 0 <= Tui.selected_index s
               /\ (configs <> [] -> Tui.selected_index s < py_len configs)
  end.
Proof.
  unfold Tui.select_provider_tui.
  assert (H0 : index_ok configs 0).
  { split; [lia|]. destruct configs; [now right | left; unfold py_len; simpl; lia]. }
  pose proof (provider_loop_outcome configs events 0 0 H0) as H.
  destruct (Tui.provider_loop configs events 0 0) as [[config|]|e|s]; try exact H.
  destruct H as [Hpos [Hlt|[-> _]]]; split; try assumption; try (intros; assumption).
  intros Hne. congruence.
Qed.

Lemma provider_loop_visible (configs : list ChatConfig) (height : Z)
      (events : list (Z * Z)) (sel off : Z) :
  4 <= height ->
  Forall (fun ev => fst ev = height) events ->
  0 <= off <= sel -> sel < off + (height - 3) ->
  forall s, Tui.provider_loop configs events sel off = Waits s ->
            0 <= Tui.scroll_offset s <= Tui.selected_index s
            /\ Tui.selected_index s < Tui.scroll_offset s + (height - 3).
Proof.
  intros Hh Hall. revert sel off.
  induction Hall as [|[h key] events Eh _ IH]; intros sel off Hoff Hvis s Hrun.
  - simpl in Hrun. inversion Hrun. simpl. lia.
  - simpl in Eh. subst h. simpl in Hrun.
    destruct ((key =? KEY_UP) && (sel >? 0)) eqn:Hup.
    { apply Bool.andb_true_iff in Hup. destruct Hup as [_ Hpos]. apply Z.gtb_lt in Hpos.
      revert Hrun. destruct (Z.ltb_spec (sel - 1) off); apply IH; lia. }
    destruct ((key =? KEY_DOWN) && (sel <? py_len configs - 1)) eqn:Hdown.
    { revert Hrun. destruct (Z.geb_spec (sel + 1) (off + (height - 3))); apply IH; lia. }
    destruct (key =? 10); [destruct (py_getitem configs sel); discriminate Hrun|].
    destruct (key =? 27); [discriminate Hrun|].
    revert Hrun. apply IH; assumption.
Qed.

(** X17.  In a terminal of at least four rows whose height does not change, the
    entry selected in the chooser of providers is always among the rows
    shown: the scroll offset is never behind it nor more than a screen
    before it. *)
Theorem provider_selection_visible (configs : list ChatConfig) (height : Z)
        (events : list (Z * Z)) (s : Tui.selection) :
  4 <= height ->
  Forall (fun ev => fst ev = height) events ->
  Tui.select_provider_tui configs events = Waits s ->
  0 <= Tui.scroll_offset s <= Tui.selected_index s
  /\ Tui.selected_index s < Tui.scroll_offset s + (height - 3).
Proof.
  intros Hh Hall Hrun.
  apply (provider_loop_visible configs height events 0 0); try assumption; lia.
Qed.

Lemma provider_selection_visible_witness :
  Tui.select_provider_tui three_configs [(4, KEY_DOWN); (4, KEY_DOWN)]
  = Waits {| Tui.selected_index := 2; Tui.scroll_offset := 2 |}
  /\ 0 <= 2 <= 2 /\ 2 < 2 + (4 - 3).
Proof.
  split; [reflexivity|].
  apply (provider_selection_visible three_configs 4 [(4, KEY_DOWN); (4, KEY_DOWN)]
           {| Tui.selected_index := 2; Tui.scroll_offset := 2 |}).
  - lia.
  - repeat constructor.
  - reflexivity.
Defined.

Lemma provider_loop_downs (configs : list ChatConfig) (rest : list (Z * Z))
      (heights : list Z) (sel off : Z) :
  0 <= sel < py_len configs ->
  exists off',
    Tui.provider_loop configs (map (fun h => (h, KEY_DOWN)) heights ++ rest) sel off
    = Tui.provider_loop configs rest
                        (Z.min (sel + py_len heights) (py_len configs - 1)) off'.
Proof.
  revert sel off. induction heights as [|h heights IH]; intros sel off Hsel.
  - exists off. simpl. f_equal. unfold py_len at 1. simpl. lia.
  - simpl map. simpl app.
    change (Tui.provider_loop configs ((h, KEY_DOWN) :: map (fun h => (h, KEY_DOWN)) heights
                                        ++ rest) sel off)
      with (if (KEY_DOWN =? KEY_UP) && (sel >? 0)
            then Tui.provider_loop configs (map (fun h => (h, KEY_DOWN)) heights ++ rest)
                   (sel - 1) (if sel - 1 <? off then sel - 1 else off)
            else if (KEY_DOWN =? KEY_DOWN) && (sel <? py_len configs - 1)
            then Tui.provider_loop configs (map (fun h => (h, KEY_DOWN)) heights ++ rest)
                   (sel + 1) (if sel + 1 >=? off + (h - 3) then off + 1 else off)
            else if KEY_DOWN =? 10
            then match py_getitem configs sel with
                 | Ok config => Returns (Some config)
                 | Raise e => Raises (Builtin e)
                 end
            else if KEY_DOWN =? 27 then Returns None
            else Tui.provider_loop configs (map (fun h => (h, KEY_DOWN)) heights ++ rest)
                   sel off).
    change (KEY_DOWN =? KEY_UP) with false. change (KEY_DOWN =? KEY_DOWN) with true.
    change (KEY_DOWN =? 10) with false. change (KEY_DOWN =? 27) with false.
    cbv iota. simpl andb.
    assert (Hlen : py_len (h :: heights) = py_len heights + 1)
      by (unfold py_len; simpl length; lia).
    pose proof (py_len_nonneg heights) as Hn.
    destruct (Z.ltb_spec sel (py_len configs - 1)) as [Hlt|Hge].
    + destruct (IH (sel + 1) (if sel + 1 >=? off + (h - 3) then off + 1 else off))
        as (off' & ->); [lia|].
      exists off'. f_equal. lia.
    + destruct (IH sel off) as (off' & ->); [lia|].
      exists off'. f_equal. lia.
Qed.

(** X18.  The down arrow typed [k] times and then Enter: the chooser returns
    the entry [k] of the list, the last one when the list is shorter. *)
Theorem provider_downs_then_enter (configs : list ChatConfig) (heights : list Z)
        (height : Z) (rest : list (Z * Z)) :
  configs <> [] ->
  exists config,
    Tui.select_provider_tui configs
      (map (fun h => (h, KEY_DOWN)) heights ++ (height, 10) :: rest)
    = Returns (Some config)
    /\ py_getitem configs (Z.min (py_len heights) (py_len configs - 1)) = Ok config.
Proof.
  intros Hne. unfold Tui.select_provider_tui.
  assert (Hlen : 0 < py_len configs).
  { destruct configs; [congruence|]. unfold py_len. simpl. lia. }
  destruct (provider_loop_downs configs ((height, 10) :: rest) heights 0 0) as (off' & ->);
    [lia|].
  pose proof (py_len_nonneg heights) as Hn.
  destruct (py_getitem_inside configs (Z.min (0 + py_len heights) (py_len configs - 1)))
    as (config & Hget & _); [lia|].
  exists config. simpl Z.add in Hget. split; [|exact Hget].
  remember (Z.min (0 + py_len heights) (py_len configs - 1)) as i eqn:Ei.
  simpl Z.add in Ei. rewrite <- Ei in Hget.
  simpl. destruct (i >? 0); simpl; now rewrite Hget.
Qed.

Lemma provider_downs_then_enter_witness :
  exists config,
    Tui.select_provider_tui three_configs
      (map (fun h => (h, KEY_DOWN)) [24; 24; 24; 24] ++ [(24, 10); (24, 27)])
    = Returns (Some config)
    /\ py_getitem three_configs (Z.min (py_len [24; 24; 24; 24]) (py_len three_configs - 1))
       = Ok config.
Proof.
  apply (provider_downs_then_enter three_configs [24; 24; 24; 24] 24 [(24, 27)]).
  discriminate.
Defined.

Lemma py_getitem_ok_in {A} (l : list A) (i : Z) (a : A) : py_getitem l i = Ok a -> In a l.
Proof.
  unfold py_getitem. destruct (_ <? 0); [discriminate|].
  destruct (nth_error l _) as [x|] eqn:E; [|discriminate].
  intros H. inversion H. subst. eapply nth_error_In; eassumption.
Qed.

Lemma py_getitem_raise {A} (l : list A) (i : Z) (e : exn) :
  py_getitem l i = Raise e -> e = IndexError.
Proof.
  unfold py_getitem. destruct (_ <? 0); [congruence|].
  destruct (nth_error l _); congruence.
Qed.

Lemma file_loop_outcome listing is_dir parent (events : list (Z * Z)) (current_dir : str)
      (sel off : Z) :
  file_index_ok listing current_dir sel ->
  file_outcome_ok listing is_dir parent
                  (Tui.file_loop listing is_dir parent events current_dir sel off).
Proof.
  revert current_dir sel off.
  induction events as [|[height key] events IH]; intros current_dir sel off Hsel.
  - exact Hsel.
  - simpl. destruct (listing current_dir) as [message|entries] eqn:Hls; [exact I|].
    destruct ((key =? KEY_UP) && (sel >? 0)) eqn:Hup.
    { apply Bool.andb_true_iff in Hup. destruct Hup as [_ Hpos]. apply Z.gtb_lt in Hpos.
      apply IH.
      destruct Hsel as [H0 [->|(entries' & E & Hlt)]]; [lia|].
      split; [lia|]. right. exists entries'. split; [exact E | lia]. }
    destruct ((key =? KEY_DOWN) && (sel <? py_len entries - 1)) eqn:Hdown.
    { apply Bool.andb_true_iff in Hdown. destruct Hdown as [_ Hlt]. apply Z.ltb_lt in Hlt.
      apply IH.
      destruct Hsel as [H0 _]. split; [lia|]. right. exists entries.
      split; [exact Hls | lia]. }
    destruct (key =? KEY_LEFT).
    { destruct (negb (str_eqb current_dir (parent current_dir))) eqn:Hroot.
      - destruct (listing (parent current_dir)) as [message|up] eqn:Hup'.
        + exists current_dir. split; [exact Hup'|].
          intros E. rewrite <- E, str_eqb_refl in Hroot. discriminate Hroot.
        + apply IH. split; [lia | now left].
      - now apply IH. }
    destruct ((key =? KEY_RIGHT) || (key =? 10)).
    { destruct (py_getitem entries sel) as [selected_entry|e] eqn:Hget.
      - destruct (is_dir selected_entry) eqn:Hdir.
        + apply IH. split; [lia | now left].
        + split; [exact Hdir|]. exists current_dir, entries.
          split; [exact Hls|]. now apply (py_getitem_ok_in entries sel).
      - split; [now apply (py_getitem_raise entries sel)|].
        exists current_dir. rewrite Hls. f_equal.
        destruct entries as [|x entries]; [reflexivity|]. exfalso.
        destruct Hsel as [H0 [->|(entries' & E & Hlt)]].
        + discriminate Hget.
        + rewrite Hls in E. inversion E. subst entries'.
          destruct (py_getitem_in_range (x :: entries) sel (conj H0 Hlt)) as (a & Ha & _).
          congruence. }
    destruct (key =? 27); [exact I|].
    now apply IH.
Qed.

(** X19.  The chooser of files never returns a directory: what it returns is
    an entry, not a directory, of a directory it has listed. *)
Theorem file_choice_is_a_file listing is_dir parent (start_dir : str) (events : list (Z * Z)) (p : str) :
  Tui.select_file_tui listing is_dir parent start_dir events = Returns (Some p) ->
  is_dir p = false /\ exists d entries, listing d = inr entries /\ In p entries.
Proof.
  intros Hrun.
  pose proof (file_loop_outcome listing is_dir parent events start_dir 0 0) as H.
  unfold Tui.select_file_tui in Hrun. rewrite Hrun in H.
  apply H. split; [lia | now left].
Qed.

Lemma file_choice_is_a_file_witness :
  Tui.select_file_tui sample_listing sample_is_dir sample_parent (u "/")
    [(24, KEY_DOWN); (24, 10)] = Returns (Some (u "/a.txt"))
  /\ sample_is_dir (u "/a.txt") = false
  /\ exists d entries, sample_listing d = inr entries /\ In (u "/a.txt") entries.
Proof.
  split; [reflexivity|].
  apply (file_choice_is_a_file sample_listing sample_is_dir sample_parent (u "/")
           [(24, KEY_DOWN); (24, 10)] (u "/a.txt")).
  reflexivity.
Defined.

(** X20.  The chooser of files raises in two cases only: [IndexError], when
    Enter or the right arrow is typed in a directory without entries, and
    what [iterdir] raises, when the left arrow leads to a parent that
    cannot be listed. *)
Theorem file_chooser_raises listing is_dir parent (start_dir : str) (events : list (Z * Z)) (e : py_exception) :
  Tui.select_file_tui listing is_dir parent start_dir events = Raises e ->
  (e = Builtin IndexError /\ exists d, listing d = inr [])
  \/ (exists message d, e = OSError message
                        /\ listing (parent d) = inl message /\ d <> parent d).
Proof.
  intros Hrun.
  pose proof (file_loop_outcome listing is_dir parent events start_dir 0 0) as H.
  unfold Tui.select_file_tui in Hrun. rewrite Hrun in H.
  assert (H0 : file_index_ok listing start_dir 0) by (split; [lia | now left]).
  specialize (H H0). destruct e as [|message|e]; simpl in H.
  - destruct H.
  - right. destruct H as (d & Hd & Hne). now exists message, d.
  - left. destruct H as (-> & d & Hd). split; [reflexivity | now exists d].
Qed.

Lemma file_chooser_raises_witness :
  Tui.select_file_tui sample_listing sample_is_dir sample_parent (u "/")
    [(24, 10); (24, 10)] = Raises (Builtin IndexError)
  /\ ((Builtin IndexError = Builtin IndexError /\ exists d, sample_listing d = inr [])
      \/ (exists message d, Builtin IndexError = OSError message
                            /\ sample_listing (sample_parent d) = inl message
                            /\ d <> sample_parent d)).
Proof.
  split; [reflexivity|].
  apply (file_chooser_raises sample_listing sample_is_dir sample_parent (u "/")
           [(24, 10); (24, 10)] (Builtin IndexError)).
  reflexivity.
Defined.

(** ** Painting *)



Lemma paint_up_window {L} (max_row row : Z) (lines : list L) :
  row <= max_row ->
  let painted := paint_up (fun row => (row >=? 2) && (row <=? max_row)) row lines in
  map snd painted = firstn (Z.to_nat (row - 1)) lines
  /\ map fst painted
     = map (fun j => row - Z.of_nat j) (seq 0 (min (Z.to_nat (row - 1)) (length lines))).
Proof.
  revert row. induction lines as [|line lines IH]; intros row Hrow; simpl.
  - rewrite firstn_nil, Nat.min_0_r. now split.
  - destruct (Z.geb_spec row 2) as [Hge|Hlt].
    + destruct (Z.leb_spec row max_row) as [_|Hgt]; [|lia]. simpl.
      destruct (IH (row - 1)) as [IH1 IH2]; [lia|].
      replace (Z.to_nat (row - 1)) with (S (Z.to_nat (row - 1 - 1))) by lia.
      simpl. rewrite IH1, IH2. split; [reflexivity|].
      f_equal; [lia|]. rewrite <- seq_shift, map_map.
      apply map_ext. intros j. lia.
    + simpl. replace (Z.to_nat (row - 1)) with 0%nat by lia. now split.
Qed.

(** X22.  A full redraw in a terminal of [height] rows paints the last
    [height - 5] of the lines the messages were wrapped into (all of them
    when there are fewer), the last line on row [height - 4] and each
    line before it one row higher.  The refresh made while an answer
    streams in paints one line only: the last one, on that row. *)
Theorem messages_painted_bottom_up {L} (height : Z) (display_lines : list L) :
  let shown := Z.to_nat (height - 5) in
  map snd (display_messages_rows height display_lines)
  = rev (last_n shown display_lines)
  /\ map fst (display_messages_rows height display_lines)
     = map (fun j => height - 4 - Z.of_nat j)
           (seq 0 (min shown (length display_lines)))
  /\ update_last_message_rows height display_lines
     = match rev display_lines with
       | [] => []
       | line :: _ => [(height - 4, line)]
       end.
Proof.
  intros shown. unfold display_messages_rows, update_last_message_rows.
  destruct (paint_up_window (height - 4) (height - 3 - 1) (rev display_lines)) as [H1 H2];
    [lia|].
  replace (Z.to_nat (height - 3 - 1 - 1)) with shown in * by (unfold shown; lia).
  split; [|split].
  - rewrite H1. unfold last_n. apply firstn_rev.
  - rewrite H2, length_rev. apply map_ext. intros j. lia.
  - destruct (rev display_lines) as [|line lines]; [reflexivity|].
    simpl. destruct (Z.geb_spec (height - 3 - 1) (height - 4)) as [_|Hlt]; [|lia].
    replace (height - 3 - 1) with (height - 4) by lia. f_equal.
    destruct lines as [|line' lines]; [reflexivity|]. simpl.
    destruct (Z.geb_spec (height - 4 - 1) (height - 4)) as [Hge|_]; [lia | reflexivity].
Qed.

Lemma history_loop_bounds (height n : Z) (events : list (Z * Z * Z)) (off off' : Z) :
  Forall (fun ev => fst ev = (height, n)) events ->
  0 <= off <= Z.max 0 (n - (height - 2)) ->
  Tui.history_loop events off = Waits off' ->
  0 <= off' <= Z.max 0 (n - (height - 2)).
Proof.
  intros Hall. revert off.
  induction Hall as [|[[h m] key] events E _ IH]; intros off Hoff Hrun.
  - simpl in Hrun. inversion Hrun. now subst.
  - simpl in E. inversion E. subst h m. simpl in Hrun.
    destruct ((key =? KEY_UP) && (off >? 0)) eqn:Hup.
    { apply Bool.andb_true_iff in Hup. destruct Hup as [_ Hpos]. apply Z.gtb_lt in Hpos.
      revert Hrun. apply IH. lia. }
    destruct ((key =? KEY_DOWN) && (off <? n - (height - 2))) eqn:Hdown.
    { apply Bool.andb_true_iff in Hdown. destruct Hdown as [_ Hlt]. apply Z.ltb_lt in Hlt.
      revert Hrun. apply IH. lia. }
    destruct (key =? 27); [discriminate Hrun|].
    revert Hrun. now apply IH.
Qed.

(** X23.  While a saved conversation is read in a terminal that does not
    change, the scroll offset stays between 0 and the number of lines that
    do not fit, so the screen never scrolls past the last line. *)
Theorem history_scroll_bounds (height n : Z) (events : list (Z * Z * Z)) (off : Z) :
  Forall (fun ev => fst ev = (height, n)) events ->
  Tui.view_single_history true events = Waits off ->
  0 <= off <= Z.max 0 (n - (height - 2)).
Proof.
  intros Hall Hrun. apply (history_loop_bounds height n events 0 off Hall); [lia|].
  exact Hrun.
Qed.

Lemma history_scroll_bounds_witness :
  Tui.view_single_history true [(10, 20, KEY_DOWN); (10, 20, KEY_DOWN); (10, 20, KEY_UP)]
  = Waits 1
  /\ 0 <= 1 <= Z.max 0 (20 - (10 - 2)).
Proof.
  split; [reflexivity|].
  apply (history_scroll_bounds 10 20
           [(10, 20, KEY_DOWN); (10, 20, KEY_DOWN); (10, 20, KEY_UP)] 1).
  - repeat constructor.
  - reflexivity.
Defined.
